(** * NOAA PSL readers ([act/io/noaapsl.py]): embedding and checked properties

    The four readers of [act/io/noaapsl.py] are embedded as functions over
    the lines of a file.  Python exceptions are values of [Py.exn] carried by
    the error monad [Py.result]; numeric cells are IEEE binary64 values
    (primitive floats), so that the sentinel comparison and NaN behave as in
    the program.  Calls into numpy, pandas and xarray whose behaviour is not
    part of the repository are methods of the classes [Numeric], [Pandas] and
    [Xarray]; every general theorem holds for all instances of these classes,
    and the module [Reference] gives the instance the readers are run with on
    concrete files. *)

From Stdlib Require Import ZArith List String Ascii Bool Lia Floats.
From stdpp Require Import base option list strings gmap pretty sorting.

Local Open Scope string_scope.
Local Open Scope list_scope.
Local Open Scope Z_scope.

#[local] Set Warnings "-inexact-float".

(** ** Python built-ins used by the module *)

Module Py.

Inductive exn : Type :=
  | ValueError
  | IndexError
  | KeyError
  | TypeError
  | OverflowError
  | AttributeError
  | EmptyDataError
  | ParserError.

#[global] Instance exn_eq_dec : EqDecision exn.
Proof. solve_decision. Defined.

(** [isinstance(e, pd.errors.EmptyDataError)] *)
Definition is_empty_data (e : exn) : bool :=
  match e with EmptyDataError => true | _ => false end.

Inductive result (A : Type) : Type :=
  | Ok (a : A)
  | Raise (e : exn).
Arguments Ok {A} a.
Arguments Raise {A} e.

#[global] Instance result_ret : MRet result := @Ok.
#[global] Instance result_bind : MBind result :=
  λ A B f m, match m with Ok a => f a | Raise e => Raise e end.
#[global] Instance result_fmap : FMap result :=
  λ A B f m, match m with Ok a => Ok (f a) | Raise e => Raise e end.

Definition raises {A} (m : result A) : Prop := ∃ e, m = Raise e.
Definition returns {A} (m : result A) : Prop := ∃ a, m = Ok a.

(** [l[i]] for a non-negative index. *)
Definition getitem {A} (l : list A) (i : nat) : result A :=
  match l !! i with Some a => Ok a | None => Raise IndexError end.

(** [l[-1]] *)
Definition getlast {A} (l : list A) : result A :=
  match last l with Some a => Ok a | None => Raise IndexError end.

(** [for x in l: f(x)] collecting the results, stopping at the first raise. *)
Fixpoint mapM {A B} (f : A → result B) (l : list A) : result (list B) :=
  match l with
  | [] => Ok []
  | a :: l' => b ← f a; bs ← mapM f l'; Ok (b :: bs)
  end.

(** *** Strings *)

(** [str.isspace] on one ASCII character: TAB..CR, FS..US and the blank. *)
Definition isspace (c : ascii) : bool :=
  let n := nat_of_ascii c in
  (((9 <=? n) && (n <=? 13)) || ((28 <=? n) && (n <=? 32)))%nat.

Definition str_eqb (a b : string) : bool := bool_decide (a = b).

(** [s.split(sep)] for a non-empty separator: the scan goes left to right and
    matches do not overlap; [skip] counts the characters of a matched
    separator still to be dropped. *)
Fixpoint split_go (sep : string) (skip : nat) (s acc : string) : list string :=
  match s with
  | EmptyString => [acc]
  | String c s' =>
      match skip with
      | S k => split_go sep k s' acc
      | O =>
          if String.prefix sep s
          then acc :: split_go sep (String.length sep - 1) s' ""
          else split_go sep 0 s' (acc +:+ String c "")
      end
  end.

Definition split (sep s : string) : list string := split_go sep 0 s "".

(** [s.split()]: runs of whitespace separate, no empty token. *)
Fixpoint split_ws_go (s acc : string) : list string :=
  match s with
  | EmptyString => if str_eqb acc "" then [] else [acc]
  | String c s' =>
      if isspace c
      then (if str_eqb acc "" then split_ws_go s' "" else acc :: split_ws_go s' "")
      else split_ws_go s' (acc +:+ String c "")
  end.

Definition split_ws (s : string) : list string := split_ws_go s "".

(** Number of whitespace characters at the head of [s]. *)
Fixpoint ws_run (s : string) : nat :=
  match s with
  | String c s' => if isspace c then S (ws_run s') else O
  | EmptyString => O
  end.

Fixpoint str_drop (n : nat) (s : string) : string :=
  match n, s with
  | S k, String _ s' => str_drop k s'
  | _, _ => s
  end.

(** [re.split] for the patterns [\s{m}] ([greedy = false]) and [\s{m,}]
    ([greedy = true]), [m] positive: a match at a position needs [m]
    whitespace characters there and takes [m] of them, or the whole run. *)
Fixpoint re_split_go (fuel m : nat) (greedy : bool) (s acc : string) : list string :=
  match fuel with
  | O => [acc]
  | S fuel' =>
      match s with
      | EmptyString => [acc]
      | String c s' =>
          let r := ws_run s in
          if (m <=? r)%nat
          then acc :: re_split_go fuel' m greedy (str_drop (if greedy then r else m) s) ""
          else re_split_go fuel' m greedy s' (acc +:+ String c "")
      end
  end.

Definition re_split_ws (m : nat) (greedy : bool) (s : string) : list string :=
  re_split_go (S (String.length s)) m greedy s "".

Fixpoint lstrip (s : string) : string :=
  match s with
  | String c s' => if isspace c then lstrip s' else s
  | EmptyString => EmptyString
  end.

Fixpoint rstrip (s : string) : string :=
  match s with
  | EmptyString => EmptyString
  | String c s' =>
      let t := rstrip s' in
      if str_eqb t "" && isspace c then EmptyString else String c t
  end.

Definition strip (s : string) : string := lstrip (rstrip s).

(** [list(filter(None, l))] on strings: the empty string is the only falsy one. *)
Definition filter_nonempty (l : list string) : list string :=
  filter (λ s, s ≠ "") l.

(** *** [int] *)

Definition digit_of (c : ascii) : option Z :=
  let n := Z.of_nat (nat_of_ascii c) in
  if (48 <=? n) && (n <=? 57) then Some (n - 48) else None.

(** Digits with single underscores between them: [digit (["_"] digit)*]. *)
Fixpoint int_digits (s : string) (acc : Z) (after_digit : bool) : option Z :=
  match s with
  | EmptyString => if after_digit then Some acc else None
  | String c s' =>
      match digit_of c with
      | Some d => int_digits s' (10 * acc + d) true
      | None =>
          if Ascii.eqb c "_" && after_digit then int_digits s' acc false else None
      end
  end.

(** [int(s)] on an ASCII string: surrounding whitespace, one optional sign,
    decimal digits. *)
Definition int (s : string) : result Z :=
  let body :=
    match strip s with
    | String "+" r => int_digits r 0 false
    | String "-" r => Z.opp <$> int_digits r 0 false
    | t => int_digits t 0 false
    end in
  match body with Some z => Ok z | None => Raise ValueError end.

(** *** [datetime] *)

(** A [datetime.datetime] value: the proleptic Gregorian ordinal of its date
    (January 1 of year 1 is day 1) and its time of day. *)
Record datetime : Type := mk_datetime {
  toordinal : Z;
  hour : Z;
  minute : Z;
  second : Z;
  microsecond : Z
}.

#[global] Instance datetime_eq_dec : EqDecision datetime.
Proof. solve_decision. Defined.

Definition is_leap (year : Z) : bool :=
  (year mod 4 =? 0) && (negb (year mod 100 =? 0) || (year mod 400 =? 0)).

(** [_days_before_year]: days before January 1 of [year]. *)
Definition days_before_year (year : Z) : Z :=
  let y := year - 1 in
  y * 365 + y / 4 - y / 100 + y / 400.

Definition days_in_month (year month : Z) : Z :=
  if month =? 2 then (if is_leap year then 29 else 28)
  else if (month =? 4) || (month =? 6) || (month =? 9) || (month =? 11) then 30
  else 31.

(** [_days_before_month]: days of the year before the first of [month]. *)
Definition days_before_month (year month : Z) : Z :=
  fold_right Z.add 0
    (map (days_in_month year) (map Z.of_nat (seq 1 (Z.to_nat (month - 1))))).

Definition ymd2ord (year month day : Z) : Z :=
  days_before_year year + days_before_month year month + day.

Definition MINYEAR : Z := 1.
Definition MAXYEAR : Z := 9999.
Definition MAXORDINAL : Z := 3652059.

Definition check_date_fields (year month day : Z) : bool :=
  (MINYEAR <=? year) && (year <=? MAXYEAR) &&
  (1 <=? month) && (month <=? 12) &&
  (1 <=? day) && (day <=? days_in_month year month).

Definition check_time_fields (h m s : Z) : bool :=
  (0 <=? h) && (h <=? 23) && (0 <=? m) && (m <=? 59) && (0 <=? s) && (s <=? 59).

(** [datetime(year, month, day, hour, minute, second)] *)
Definition mkdatetime (year month day h m s : Z) : result datetime :=
  if check_date_fields year month day && check_time_fields h m s
  then Ok (mk_datetime (ymd2ord year month day) h m s 0)
  else Raise ValueError.

(** [t + timedelta(days=d)] *)
Definition add_days (t : datetime) (d : Z) : result datetime :=
  if (Z.abs d <=? 999999999) &&
     (1 <=? toordinal t + d) && (toordinal t + d <=? MAXORDINAL)
  then Ok (mk_datetime (toordinal t + d) (hour t) (minute t) (second t) (microsecond t))
  else Raise OverflowError.

(** *** Numbers *)

(** [float(z)] for an integer: the nearest binary64 value. *)
Definition float_of_Z (z : Z) : float :=
  SF2Prim (binary_normalize 53 1024 z 0 false).

(** [int(x)] for a float: truncation toward zero. *)
Definition int_of_float (x : float) : result Z :=
  match Prim2SF x with
  | S754_nan => Raise ValueError
  | S754_infinity _ => Raise OverflowError
  | S754_zero _ => Ok 0
  | S754_finite sign m e =>
      let a := if 0 <=? e then Z.shiftl (Zpos m) e else Z.shiftr (Zpos m) (- e) in
      Ok (if sign then - a else a)
  end.

(** [range(n)] *)
Definition range (n : Z) : list nat := seq 0 (Z.to_nat n).

(** numpy's cast of a string to [int64]. *)
Definition np_int (s : string) : result Z :=
  z ← int s;
  if (- 2 ^ 63 <=? z) && (z <? 2 ^ 63) then Ok z else Raise OverflowError.

(** [a, b = l], [a, b, c = l], [a, b, c, d = l]: the length must fit. *)
Definition unpack2 {A} (l : list A) : result (A * A) :=
  match l with [a; b] => Ok (a, b) | _ => Raise ValueError end.

Definition unpack3 {A} (l : list A) : result (A * A * A) :=
  match l with [a; b; c] => Ok (a, b, c) | _ => Raise ValueError end.

Definition unpack4 {A} (l : list A) : result (A * A * A * A) :=
  match l with [a; b; c; d] => Ok (a, b, c, d) | _ => Raise ValueError end.

(** [l[:n]] *)
Definition slice_to {A} (n : Z) (l : list A) : list A :=
  if 0 <=? n then take (Z.to_nat n) l
  else take (length l - Z.to_nat (- n)) l.

(** [sub in s] *)
Fixpoint contains (sub s : string) : bool :=
  String.prefix sub s ||
  match s with
  | String _ s' => contains sub s'
  | EmptyString => false
  end.

End Py.

Import Py.

(** ** Library boundary

    What numpy, pandas and xarray do is not part of the repository; the
    readers reach it through the classes below.  A file is the list of its
    lines.

    - [to_float] is the conversion of a string to binary64 done by [float]
      and by numpy's [dtype='float'] cast, [to_float32] the [dtype='float32']
      cast (its value widened to binary64), [log10] is [np.log10] on one
      element.
    - [xr_join] is the outer join [xarray.concat] aligns its members on when
      their height (or [HT]) indexes are not all equal: the union of these
      indexes, or the refusal of indexes that cannot be reindexed.
      [xr_check_dims] is the size check of the [Dataset] constructor on
      variables given as (name, dims, data).
    - the [pd_] methods are the pandas reads, named after the call they
      stand for. *)

(** A pandas scalar as [read_csv] infers it for one cell. *)
Inductive scalar : Type :=
  | SFloat (x : float)
  | SInt (z : Z)
  | SStr (s : string).

(** A [DataFrame]: its columns in order, each with its cells. *)
Abbreviation frame := (list (string * list scalar)).

(** An entry of a ['data'] list of the radar dictionary. *)
Inductive value : Type :=
  | VStr (s : string)
  | VFloat (x : float)
  | VTime (t : datetime)
  | VList (l : list scalar)
  | VArr (a : list float).

Class Numeric : Type := {
  to_float : string → result float;
  to_float32 : string → result float;
  log10 : float → float
}.

Class Xarray : Type := {
  xr_join : list (list float) → result (list float);
  xr_check_dims : list (string * list string * list value) → result unit
}.

Class Pandas : Type := {
  (** [str(pd.read_table(f, nrows=0, skiprows=skip).columns[0])] *)
  pd_columns0 : list string → list nat → result string;
  (** [pd.read_csv(f, skiprows=skip, nrows=n, delim_whitespace=True, names=names)] *)
  pd_read_csv_names : list string → list nat → Z → list string → result frame;
  (** [pd.read_csv(filepath, skiprows=k, delim_whitespace=True)] *)
  pd_read_csv_ws : list string → nat → result frame;
  (** [pd.read_table(f, skiprows=skip, names=names, index_col=0, sep='\s+')]:
      the index labels and the remaining columns *)
  pd_read_table_indexed : list string → list nat → list string
                          → result (list scalar * frame);
  (** [pd.read_table(f, nrows=0).to_string()] *)
  pd_header_to_string : list string → result string;
  (** [pd.to_datetime(s, format='%y%j%H:%M:%S:%f')] *)
  pd_to_datetime : string → result datetime
}.

(** ** The readers *)

Module Noaapsl.

Definition sentinel : float := 999999.0%float.

(** [DataFrame.replace(999999.0, np.nan)] on one float cell. *)
Definition replace_sentinel (x : float) : float :=
  if PrimFloat.eqb x sentinel then nan else x.

Definition is_sentinel (x : float) : bool := PrimFloat.eqb x sentinel.

(** Index labels as pandas compares them: equal floats, or both NaN. *)
Definition same_label (x y : float) : bool :=
  PrimFloat.eqb x y || (PrimFloat.is_nan x && PrimFloat.is_nan y).

(** [Index.equals] *)
Fixpoint same_index (a b : list float) : bool :=
  match a, b with
  | [], [] => true
  | x :: a', y :: b' => same_label x y && same_index a' b'
  | _, _ => false
  end.

(** [Index.get_indexer] for one label: its first position in [own]. *)
Definition get_indexer (own : list float) (label : float) : option nat :=
  fst <$> list_find (λ x, same_label x label = true) own.

(** A variable along the height dimension after [reindex]: for each label
    of [joined] the cell the member has at that label, [fill] where the member
    has no such label. *)
Definition reindex_cells {A} (fill : A) (own joined : list float) (cells : list A)
    : list A :=
  (λ label, default fill (i ← get_indexer own label; cells !! i)) <$> joined.

(** What [xr.concat] uses of a member: its index along the dimension that
    is not concatenated, the member with that coordinate replaced, and the
    member reindexed. *)
Class Indexed (A : Type) : Type := {
  indexed_by : A → list float;
  assign_coord : list float → A → A;
  reindex : list float → A → A
}.

(** [xr.concat(objs, 'time')] with its default [join='outer']: no object to
    concatenate is a [ValueError]; the members are kept in the order given.
    When their indexes are all equal to the first, nothing is reindexed and
    the coordinate is the first member's; otherwise every member is reindexed
    on the join of the indexes. *)
Definition xr_concat `{Xarray} {A} `{Indexed A} (objs : list A) : result (list A) :=
  match objs with
  | [] => Raise ValueError
  | first :: rest =>
      if forallb (λ o, same_index (indexed_by first) (indexed_by o)) rest
      then Ok (assign_coord (indexed_by first) <$> objs)
      else joined ← xr_join (indexed_by <$> objs); Ok (reindex joined <$> objs)
  end.

(** *** [read_psl_wind_profiler] *)

Definition beam_vars : list string := ["RAD"; "CNT"; "SNR"; "QC"].

(** [column_list.count(c)] *)
Definition count (c : string) (column_list : list string) : nat :=
  length (filter (λ x, x = c) column_list).

(** One turn of [for i, c in enumerate(column_list)]: the list is updated in
    place at index [i], and [count] sees the updates of earlier turns. *)
Definition rename_step (i : nat) (column_list : list string) : list string :=
  match column_list !! i with
  | None => column_list
  | Some c =>
      if bool_decide (c ∈ beam_vars) then
        if (2 <? count c column_list)%nat then <[i := c +:+ "1"]> column_list
        else if (1 <? count c column_list)%nat then <[i := c +:+ "2"]> column_list
        else if (0 <? count c column_list)%nat then <[i := c +:+ "3"]> column_list
        else column_list
      else column_list
  end.

Fixpoint rename_loop (n i : nat) (column_list : list string) : list string :=
  match n with
  | O => column_list
  | S n' => rename_loop n' (S i) (rename_step i column_list)
  end.

Definition rename_beam_columns (column_list : list string) : list string :=
  rename_loop (length column_list) 0 column_list.

(** The per-block dataset [xr_add]: the table's columns as data variables,
    the former row index (a row number, or [None] for the NaN of a height
    label the block lacks), the scalar [time] coordinate and the [height]
    coordinate taken from column [HT]. *)
Record block_ds : Type := mk_block {
  data_vars : list (string * list float);
  index : list (option nat);
  time : datetime;
  height : list float
}.

#[global] Instance block_indexed : Indexed block_ds := {|
  indexed_by := height;
  assign_coord h b := mk_block (data_vars b) (index b) (time b) h;
  reindex joined b :=
    mk_block ((λ cv, (cv.1, reindex_cells nan (height b) joined cv.2))
                <$> data_vars b)
             (reindex_cells None (height b) joined (index b))
             (time b) joined
|}.

Record profiler_ds : Type := mk_profiler {
  members : list block_ds;
  site_identifier : string;
  data_type : string;
  revision_number : string;
  latitude : float;
  longitude : float;
  altitude : float;
  azimuth : list float;
  elevation : list float;
  transposed : bool
}.

(** [df.iloc[a:b]] for non-negative bounds. *)
Definition iloc_slice {A} (df : list A) (a b : nat) : list A :=
  take (b - a) (drop a df).

(** [df.loc[k]] on the default integer index. *)
Definition loc {A} (df : list A) (k : nat) : result A :=
  match df !! k with Some a => Ok a | None => Raise KeyError end.

Definition column (rows : list (list float)) (j : nat) : list float :=
  omap (λ r, r !! j) rows.

(** [pd.DataFrame(np.array(rows, dtype='float'), columns=column_list)]: the
    rows must form a rectangle as wide as the column list; no row at all
    gives an array of shape (0,), accepted for a single column only. *)
Definition dataframe (rows : list (list float)) (column_list : list string)
    : result (list (string * list float)) :=
  let ok :=
    match rows with
    | [] => bool_decide (length column_list = 1%nat)
    | _ => forallb (λ r, bool_decide (length r = length column_list)) rows
    end in
  if ok then Ok (imap (λ j c, (c, column rows j)) column_list)
  else Raise ValueError.

(** [df_add.replace(999999.0, np.nan)] *)
Definition replace_frame (frame : list (string * list float)) : list (string * list float) :=
  map (λ cv, (cv.1, map replace_sentinel cv.2)) frame.

(** [xr_add['HT']] *)
Definition lookup_var (name : string) (frame : list (string * list float))
    : result (list float) :=
  match list_find (λ cv, cv.1 = name) frame with
  | Some (_, cv) => Ok cv.2
  | None => Raise KeyError
  end.

(** [df_add.to_xarray()] followed by the coordinate assignments.  Column names
    that occur twice are refused by [to_xarray]. *)
Definition block_dataset (frame : list (string * list float)) (t : datetime)
    : result block_ds :=
  if bool_decide (NoDup (map fst frame)) then
    ht ← lookup_var "HT" frame;
    Ok (mk_block frame (Some <$> seq 0 (length ht)) t ht)
  else Raise ValueError.

(** The body of the block loop for the block between markers [start] and
    [next]; returns the mode number and the block's dataset. *)
Definition parse_block `{Numeric} (df : list string) (column_list : list string)
    (start next : nat) : result (Z * block_ds) :=
  date_line ← getitem df (start + 3);
  date_str ← mapM int (filter_nonempty (split " " date_line));
  d0 ← getitem date_str 0;
  d1 ← getitem date_str 1;
  d2 ← getitem date_str 2;
  d3 ← getitem date_str 3;
  d4 ← getitem date_str 4;
  d5 ← getitem date_str 5;
  t ← mkdatetime (2000 + d0) d1 d2 d3 d4 d5;
  mode_line ← getitem df (start + 7);
  mode_tok ← getlast (split " " mode_line);
  mode ← int mode_tok;
  df_array ← mapM (λ l, mapM to_float (re_split_ws 2 true l))
                  (iloc_slice df (start + 10) (next - 1));
  df_add ← dataframe df_array column_list;
  xr_add ← block_dataset (replace_frame df_add) t;
  Ok (mode, xr_add).

(** One turn of [for i in range(idx[0].shape[0] - 1)]. *)
Definition block_step `{Numeric} (df : list string) (column_list : list string)
    (idx : list nat) (acc : list block_ds * list block_ds) (i : nat)
    : result (list block_ds * list block_ds) :=
  start ← getitem idx i;
  next ← getitem idx (i + 1);
  '(mode, xr_add) ← parse_block df column_list start next;
  if mode <? 1000 then Ok (acc.1 ++ [xr_add], acc.2)
  else Ok (acc.1, acc.2 ++ [xr_add]).

Fixpoint foldM {A B} (f : B → A → result B) (l : list A) (b : B) : result B :=
  match l with
  | [] => Ok b
  | a :: l' => b' ← f b a; foldM f l' b'
  end.

(** [np.where(df[0] == potential_site)] *)
Definition markers (df : list string) (potential_site : string) : list nat :=
  fst <$> filter (λ il, il.2 = potential_site) (imap pair df).

(** [l.remove('')]: drops the first empty string, [ValueError] without one. *)
Fixpoint remove_empty (l : list string) : result (list string) :=
  match l with
  | [] => Raise ValueError
  | s :: l' => if str_eqb s "" then Ok l' else (s ::.) <$> remove_empty l'
  end.

(** [df] is column 0 of the frame that [pd.read_csv(filename, header=None)]
    gives: one string for each line of the file. *)
Definition read_psl_wind_profiler `{Numeric} `{Xarray} (df : list string)
    (transpose : bool) : result (profiler_ds * profiler_ds) :=
  potential_site ← loc df 0;
  let idx := markers df potential_site in
  header ← loc df 9;
  let column_list := rename_beam_columns (split_ws header) in
  '(low, hi) ← foldM (block_step df column_list idx)
                     (seq 0 (length idx - 1)) ([], []);
  obj_low ← xr_concat low;
  obj_hi ← xr_concat hi;
  idx0 ← getitem idx 0;
  site_loc ← getitem df idx0;
  site_tok ← getitem (re_split_ws 2 false site_loc) 0;
  let site := strip site_tok in
  rev ← loc df (idx0 + 1);
  let rev_array := re_split_ws 3 false rev in
  dtype ← getitem rev_array 0;
  revision ← getitem rev_array 1;
  coords ← loc df (idx0 + 2);
  coords_list ← remove_empty (re_split_ws 2 true coords);
  coords_array ← mapM to_float32 coords_list;
  lat ← getitem coords_array 0;
  lon ← getitem coords_array 1;
  alt ← getitem coords_array 2;
  az_el ← loc df (idx0 + 8);
  az_el_array ← remove_empty (re_split_ws 2 true az_el);
  az ← mapM (λ i, getitem (split_ws i) 0) az_el_array;
  el ← mapM (λ i, getitem (split_ws i) 1) az_el_array;
  az_array ← mapM to_float32 az;
  el_array ← mapM to_float32 el;
  let mk m := mk_profiler m site (strip dtype) (strip revision) lat lon alt
                          az_array el_array transpose in
  Ok (mk obj_low, mk obj_hi).

(** *** [read_psl_wind_profiler_temperature] *)

Record temperature_ds : Type := mk_temperature {
  t_HT : list float;
  t_vars : list (string * list float);
  t_time : datetime;
  t_site_identifier : string;
  t_latitude : float;
  t_longitude : float;
  t_elevation : float;
  t_beam_azimuth : float;
  t_revision_number : string;
  t_consensus_average_time : Z;
  t_number_of_beams : Z;
  t_number_of_gates : Z;
  t_number_of_range_gates : Z;
  t_number_spectral_averages : Z;
  t_pulse_width : Z;
  t_inner_pulse_period : Z;
  t_full_scale_doppler_value : float;
  t_spacing_of_gates : float
}.

#[global] Instance temperature_indexed : Indexed temperature_ds := {|
  indexed_by := t_HT;
  assign_coord h ds :=
    mk_temperature h (t_vars ds) (t_time ds) (t_site_identifier ds)
      (t_latitude ds) (t_longitude ds) (t_elevation ds) (t_beam_azimuth ds)
      (t_revision_number ds) (t_consensus_average_time ds) (t_number_of_beams ds)
      (t_number_of_gates ds) (t_number_of_range_gates ds)
      (t_number_spectral_averages ds) (t_pulse_width ds) (t_inner_pulse_period ds)
      (t_full_scale_doppler_value ds) (t_spacing_of_gates ds);
  reindex joined ds :=
    mk_temperature joined
      ((λ cv, (cv.1, reindex_cells nan (t_HT ds) joined cv.2)) <$> t_vars ds)
      (t_time ds) (t_site_identifier ds)
      (t_latitude ds) (t_longitude ds) (t_elevation ds) (t_beam_azimuth ds)
      (t_revision_number ds) (t_consensus_average_time ds) (t_number_of_beams ds)
      (t_number_of_gates ds) (t_number_of_range_gates ds)
      (t_number_spectral_averages ds) (t_pulse_width ds) (t_inner_pulse_period ds)
      (t_full_scale_doppler_value ds) (t_spacing_of_gates ds)
|}.

(** [np.array(list(filter(None, list_of_strings)))] *)
Definition filter_list (list_of_strings : list string) : list string :=
  filter_nonempty list_of_strings.

Definition parse_date_line (list_of_strings : string) : result datetime :=
  fields ← mapM np_int (filter_list (split " " list_of_strings));
  match fields with
  | [year; month; day; hour; minute; second; utc_offset] =>
      mkdatetime (year + 2000) month day hour minute second
  | _ => Raise ValueError
  end.

(** [astype(float)] on one cell. *)
Definition scalar_to_float `{Numeric} (c : scalar) : result float :=
  match c with
  | SFloat x => Ok x
  | SInt z => Ok (float_of_Z z)
  | SStr s => to_float s
  end.

Definition astype_float `{Numeric} (df : frame) : result (list (string * list float)) :=
  mapM (λ cv, col ← mapM scalar_to_float cv.2; Ok (cv.1, col)) df.

Definition rename_column (c : string) : string :=
  if str_eqb c "CNT" then "CNT_T"
  else if str_eqb c "CNT.1" then "CNT_Tc"
  else if str_eqb c "CNT.2" then "CNT_W"
  else if str_eqb c "SNR" then "SNR_T"
  else if str_eqb c "SNR.1" then "SNR_Tc"
  else if str_eqb c "SNR.2" then "SNR_W"
  else c.

(** [ds[name]] on the converted table: a missing variable is a [KeyError]. *)
Definition require_var (name : string) (vars : list (string * list float))
    : result unit :=
  _ ← lookup_var name vars; Ok ().

Definition parse_psl_temperature_lines `{Numeric} `{Pandas} (filepath : list string)
    (lines : list string) (line_offset : nat) : result temperature_ds :=
  site ← getitem lines 0;
  l1 ← getitem lines 1;
  '(datatype, _, version) ← unpack3 (filter_list (split " " l1));
  l2 ← getitem lines 2;
  loc3 ← mapM to_float (filter_list (split "  " l2));
  '(latitude, longitude, elevation) ← unpack3 loc3;
  l3 ← getitem lines 3;
  time ← parse_date_line l3;
  l4 ← getitem lines 4;
  cons3 ← mapM np_int (filter_list (split "  " l4));
  '(consensus_average_time, number_of_beams, number_of_range_gates) ← unpack3 cons3;
  l6 ← getitem lines 6;
  int4 ← mapM np_int (filter_list (split " " l6));
  '(number_coherent_integrations, number_spectral_averages, pulse_width,
    inner_pulse_period) ← unpack4 int4;
  l7 ← getitem lines 7;
  flt4 ← mapM to_float (filter_list (split " " l7));
  '(full_scale_doppler, delay_first_gate, number_of_gates, spacing_of_gates)
    ← unpack4 flt4;
  l8 ← getitem lines 8;
  beam2 ← mapM to_float (filter_list (split " " l8));
  '(beam_azimuth, beam_elevation) ← unpack2 beam2;
  df ← pd_read_csv_ws filepath (line_offset + 10);
  gates ← int_of_float number_of_gates;
  let df := (λ cv, (cv.1, slice_to gates cv.2)) <$> df in
  let df := filter (λ cv, cv.1 ≠ "time") df in
  df ← astype_float df;
  let df := replace_frame df in
  ht ← match lookup_var "HT" df with
       | Ok ht => Ok ht
       | Raise _ => Raise AttributeError
       end;
  let df := filter (λ cv, cv.1 ≠ "HT") df in
  let df := (λ cv, (rename_column cv.1, cv.2)) <$> df in
  if bool_decide (NoDup (map fst df)) then
    _ ← require_var "T" df;
    _ ← require_var "Tc" df;
    _ ← require_var "W" df;
    Ok (mk_temperature ht df time site latitude longitude elevation beam_azimuth
          version consensus_average_time number_of_beams gates
          number_of_range_gates number_spectral_averages pulse_width
          inner_pulse_period full_scale_doppler spacing_of_gates)
  else Raise ValueError.

(** [itertools.groupby(l, key)]: maximal runs of equal key. *)
Fixpoint groupby {A} (key : A → bool) (l : list A) : list (list A) :=
  match l with
  | [] => []
  | a :: l' =>
      match groupby key l' with
      | (b :: g) :: gs =>
          if Bool.eqb (key a) (key b) then (a :: b :: g) :: gs
          else [a] :: (b :: g) :: gs
      | _ => [[a]]
      end
  end.

(** ['$'.__ne__] *)
Definition not_dollar (line : string) : bool := negb (str_eqb line "$").

(** One turn of [for section in sections_of_file]; the state is
    [(start_line, list_of_datasets)]. *)
Definition section_step `{Numeric} `{Pandas} (filepath : list string)
    (acc : nat * list temperature_ds) (section : list string)
    : result (nat * list temperature_ds) :=
  first ← getitem section 0;
  if not_dollar first then
    ds ← parse_psl_temperature_lines filepath section acc.1;
    Ok ((acc.1 + length section)%nat, acc.2 ++ [ds])
  else Ok ((acc.1 + length section)%nat, acc.2).

(** The sections the reader walks through: the lines are stripped on the
    right and the first line of the file is dropped. *)
Definition sections_of_file (filepath : list string) : list (list string) :=
  groupby not_dollar (tail (rstrip <$> filepath)).

Definition read_psl_wind_profiler_temperature `{Numeric} `{Pandas} `{Xarray}
    (filepath : list string) : result (list temperature_ds) :=
  '(_, list_of_datasets) ← foldM (section_step filepath)
                                  (sections_of_file filepath) (O, []);
  xr_concat list_of_datasets.

(** *** [read_psl_parsivel] *)

Definition names : list string :=
  ["time"; "B1"; "B2"; "B3"; "B4"; "B5"; "B6"; "B7"; "B8"; "B9"; "B10"; "B11";
   "B12"; "B13"; "B14"; "B15"; "B16"; "B17"; "B18"; "B19"; "B20"; "B21"; "B22";
   "B23"; "B24"; "B25"; "B26"; "B27"; "B28"; "B29"; "B30"; "B31"; "B32";
   "blackout"; "good"; "bad"; "number_detected_particles"; "precip_rate";
   "precip_amount"; "precip_accumulation"; "equivalent_radar_reflectivity";
   "number_in_error"; "dirty"; "very_dirty"; "damaged"; "laserband_amplitude";
   "laserband_amplitude_stdev"; "sensor_temperature"; "sensor_temperature_stdev";
   "sensor_voltage"; "sensor_voltage_stdev"; "heating_current";
   "heating_current_stdev"; "number_rain_particles"; "number_non_rain_particles";
   "number_ambiguous_particles"; "precip_type"].

Definition vol_equiv_diam : list float :=
  [0.062; 0.187; 0.312; 0.437; 0.562; 0.687; 0.812; 0.937; 1.062; 1.187; 1.375;
   1.625; 1.875; 2.125; 2.375; 2.75; 3.25; 3.75; 4.25; 4.75; 5.5; 6.5; 7.5; 8.5;
   9.5; 11.0; 13.0; 15.0; 17.0; 19.0; 21.5; 24.5]%float.

Definition class_size_width : list float :=
  [0.125; 0.125; 0.125; 0.125; 0.125; 0.125; 0.125; 0.125; 0.125; 0.125;
   0.250; 0.250; 0.250; 0.250; 0.250; 0.5; 0.5; 0.5; 0.5; 0.5;
   1.0; 1.0; 1.0; 1.0; 1.0; 2.0; 2.0; 2.0; 2.0; 2.0; 3.0; 3.0]%float.

Record parsivel_ds : Type := mk_parsivel {
  p_time : list datetime;
  p_vars : frame;
  p_number_density_drops : list (list scalar);
  p_class_size_width : list float;
  p_particle_size : list float;
  p_interval_end_time : list datetime
}.

(** [df[n]] *)
Definition frame_column (n : string) (df : frame) : result (list scalar) :=
  match list_find (λ cv, cv.1 = n) df with
  | Some (_, cv) => Ok cv.2
  | None => Raise KeyError
  end.

(** One turn of [for t in time]; the state is [(start_time, end_time)]. *)
Definition interval_step `{Pandas} (date : string)
    (acc : list datetime * list datetime) (t : scalar)
    : result (list datetime * list datetime) :=
  match t with
  | SStr t =>
      t0 ← getitem (split "-" t) 0;
      start ← pd_to_datetime (date +:+ ":" +:+ t0);
      t1 ← getitem (split "-" t) 1;
      stop ← pd_to_datetime (date +:+ ":" +:+ t1);
      Ok (acc.1 ++ [start], acc.2 ++ [stop])
  | _ => Raise AttributeError
  end.

(** One turn of [for f in files]; the state is [(data, end_time)]. *)
Definition parsivel_file `{Pandas}
    (acc : list (list datetime * frame) * list datetime) (f : list string)
    : result (list (list datetime * frame) * list datetime) :=
  '(time, df) ← pd_read_table_indexed f [0; 1; 2]%nat names;
  header ← pd_header_to_string f;
  let toks := split " " header in
  date ← (if (3 <=? length toks)%nat then getitem toks (length toks - 3)
          else Raise IndexError);
  '(start_time, end_time) ← foldM (interval_step date) time ([], acc.2);
  Ok (acc.1 ++ [(start_time, df)], end_time).

(** [np.transpose(dsd)]: row [i] holds element [i] of every list. *)
Definition transpose_lists {A} (n : nat) (dsd : list (list A)) : list (list A) :=
  (λ i, omap (λ col, col !! i) dsd) <$> seq 0 n.

(** [pd.concat(data)]: the rows of the frames one after the other, over
    the union of their columns; a column a frame lacks is filled with NaN. *)
Definition frame_cells (n : string) (d : list datetime * frame) : list scalar :=
  match list_find (λ cv, cv.1 = n) d.2 with
  | Some (_, cv) => cv.2
  | None => replicate (length d.1) (SFloat nan)
  end.

Definition pd_concat (data : list (list datetime * frame))
    : result (list datetime * frame) :=
  match data with
  | [] => Raise ValueError
  | _ =>
      let columns : list string :=
        remove_dups (concat ((λ d : list datetime * frame, d.2.*1) <$> data)) in
      Ok (concat (fst <$> data),
          (λ n, (n, concat (frame_cells n <$> data))) <$> columns)
  end.

Definition read_psl_parsivel `{Pandas} (files : list (list string))
    : result parsivel_ds :=
  '(data, end_time) ← foldM parsivel_file files ([], []);
  '(index, df) ← pd_concat data;
  dsd ← mapM (λ n, frame_column n df) (filter (λ n, contains "B" n = true) names);
  Ok (mk_parsivel index df (transpose_lists (length index) dsd)
        class_size_width vol_equiv_diam end_time).

(** *** [read_psl_radar_fmcw_moment] *)

(** The dictionary [data]: for each variable name its ['data'] list.  The
    ['dims'] of the variables are the table [variables]. *)
Definition variables : list (string * list string) :=
  [("site", ["file"]); ("lat", ["file"]); ("lon", ["file"]); ("alt", ["file"]);
   ("freq", ["file"]); ("azimuth", ["time"]); ("elevation", ["time"]);
   ("beam_direction_code", ["time"]); ("year", ["time"]);
   ("day_of_year", ["time"]); ("hour", ["time"]); ("minute", ["time"]);
   ("second", ["time"]); ("interpulse_period", ["time"]);
   ("pulse_width", ["time"]); ("first_range_gate", ["time"]);
   ("range_between_gates", ["time"]); ("n_gates", ["time"]);
   ("n_coherent_integration", ["time"]); ("n_averaged_spectra", ["time"]);
   ("n_points_spectrum", ["time"]); ("n_code_bits", ["time"]);
   ("radial_velocity", ["time"; "range"]); ("snr", ["time"; "range"]);
   ("signal_power", ["time"; "range"]); ("spectral_width", ["time"; "range"]);
   ("noise_amplitude", ["time"; "range"]); ("qc_variable", ["time"; "range"]);
   ("time", ["time"]); ("range", ["range"]);
   ("reflectivity_uncalibrated", ["time"; "range"])].

Definition initial_data : gmap string (list value) :=
  list_to_map ((λ v, (v.1, [])) <$> variables).

Definition h1_names : list string := ["site"; "lat"; "lon"; "alt"; "freq"].
Definition h2_names : list string :=
  ["azimuth"; "elevation"; "beam_direction_code"; "year"; "day_of_year"; "hour";
   "minute"; "second"].
Definition h3_names : list string :=
  ["interpulse_period"; "pulse_width"; "first_range_gate"; "range_between_gates";
   "n_gates"; "n_coherent_integration"; "n_averaged_spectra"; "n_points_spectrum";
   "n_code_bits"].
Definition channel_names : list string :=
  ["radial_velocity"; "snr"; "signal_power"; "spectral_width"; "noise_amplitude";
   "qc_variable"].

(** Statements that update [data] and may raise: the dictionary as it is
    when the statement ends or raises, with the outcome. *)
Definition stmt (A : Type) : Type :=
  gmap string (list value) → gmap string (list value) * result A.

#[global] Instance stmt_ret : MRet stmt := λ A a data, (data, Ok a).
#[global] Instance stmt_bind : MBind stmt :=
  λ A B f m data,
    match m data with
    | (data', Ok a) => f a data'
    | (data', Raise e) => (data', Raise e)
    end.

Definition lift {A} (r : result A) : stmt A := λ data, (data, r).

(** [data[name]['data'].append(v)] *)
Definition append (name : string) (v : value) : stmt unit :=
  λ data,
    match data !! name with
    | Some l => (<[name := l ++ [v]]> data, Ok ())
    | None => (data, Raise KeyError)
    end.

(** [data[name]['data']] *)
Definition get_data (name : string) : stmt (list value) :=
  λ data,
    match data !! name with
    | Some l => (data, Ok l)
    | None => (data, Raise KeyError)
    end.

(** [data[name]['data'] = l] *)
Definition set_data (name : string) (l : list value) : stmt unit :=
  λ data, (<[name := l]> data, Ok ()).

(** [data[name]['data'][-1]] *)
Definition last_data (name : string) : stmt value :=
  l ← get_data name; lift (getlast l).

(** [int(data[name]['data'][-1])] *)
Definition last_int (name : string) : stmt Z :=
  v ← last_data name;
  lift match v with
       | VStr s => int s
       | VFloat x => int_of_float x
       | _ => Raise TypeError
       end.

(** [float(data[name]['data'][-1])] *)
Definition last_float `{Numeric} (name : string) : stmt float :=
  v ← last_data name;
  lift match v with
       | VStr s => to_float s
       | VFloat x => Ok x
       | _ => Raise TypeError
       end.

(** The loop over the tokens of the file-level header line. *)
Fixpoint store_h1 `{Numeric} (df : list string) (ctr : nat) : stmt unit :=
  match df with
  | [] => mret ()
  | d :: df' =>
      if (0 <? String.length d)%nat then
        (if str_eqb d "lat" || str_eqb d "lon" then
           name ← lift (getitem h1_names ctr);
           x ← lift (to_float d);
           append name (VFloat (x / 100)%float)
         else
           name ← lift (getitem h1_names ctr);
           append name (VStr d));;
        store_h1 df' (S ctr)
      else store_h1 df' ctr
  end.

(** The loop over the tokens of a 2nd or 3rd header line. *)
Fixpoint store_header (h_names : list string) (df : list string) (ctr : nat)
    : stmt unit :=
  match df with
  | [] => mret ()
  | d :: df' =>
      if (0 <? String.length d)%nat then
        name ← lift (getitem h_names ctr);
        append name (VStr d);;
        store_header h_names df' (S ctr)
      else store_header h_names df' ctr
  end.

(** The offset [index2] of a record after the first. *)
Definition index2 (ct : nat) (gates : Z) : Z :=
  let index1 := Z.of_nat ct * gates in
  index1 + gates + 2 * Z.of_nat ct + 4.

(** Both header reads and the table read of one record. *)
Definition read_record `{Pandas} (f : list string) (ct : nat) : stmt frame :=
  if (ct =? 0)%nat then
    df ← lift (pd_columns0 f [0%nat]);
    store_header h2_names (split " " df) 0;;
    df ← lift (pd_columns0 f [0; 1]%nat);
    store_header h3_names (split " " df) 0;;
    gates ← last_int "n_gates";
    lift (pd_read_csv_names f [0; 1; 2]%nat (gates - 1) channel_names)
  else
    gates ← last_int "n_gates";
    let i2 := index2 ct gates in
    df ← lift (pd_columns0 f (range (i2 - 1)));
    store_header h2_names (split " " df) 0;;
    df ← lift (pd_columns0 f (range i2));
    store_header h3_names (split " " df) 0;;
    gates ← last_int "n_gates";
    lift (pd_read_csv_names f (range (i2 + 1)) (gates - 1) channel_names).

(** [for n in names: data[n]['data'].append(df[n].to_list())] *)
Fixpoint store_channels (df : frame) (ns : list string) : stmt unit :=
  match ns with
  | [] => mret ()
  | n :: ns' =>
      col ← lift (frame_column n df);
      append n (VList col);;
      store_channels df ns'
  end.

(** [first + np.array(range(n)) * step] *)
Definition range_gates (first : float) (n : Z) (step : float) : list float :=
  (λ i, (first + float_of_Z (Z.of_nat i) * step)%float) <$> range n.

Definition floats_of (l : list value) : list float :=
  omap (λ v, match v with VFloat x => Some x | _ => None end) l.

(** The range coordinate, set while [data['range']['data']] is empty. *)
Definition store_range `{Numeric} : stmt unit :=
  r ← get_data "range";
  if bool_decide (length r = 0%nat) then
    first ← last_float "first_range_gate";
    gates ← last_int "n_gates";
    step ← last_float "range_between_gates";
    set_data "range" (VFloat <$> range_gates first (gates - 1) step)
  else mret ().

(** The record's time stamp. *)
Definition record_time : stmt datetime :=
  y ← last_data "year";
  year ← lift match y with
              | VStr s => int ("20" +:+ s)
              | _ => Raise TypeError
              end;
  hour ← last_int "hour";
  minute ← last_int "minute";
  second ← last_int "second";
  t0 ← lift (mkdatetime year 1 1 hour minute second);
  days ← last_int "day_of_year";
  lift (add_days t0 days).

(** A list of cells as a float array; a string cell makes the subtraction
    below a [TypeError]. *)
Definition as_floats (l : list scalar) : result (list float) :=
  mapM (λ c, match c with
             | SFloat x => Ok x
             | SInt z => Ok (float_of_Z z)
             | SStr _ => Raise TypeError
             end) l.

(** [a - b] on arrays, with numpy's broadcasting of a length-1 operand. *)
Definition broadcast_sub (a b : list float) : result (list float) :=
  if bool_decide (length a = length b) then Ok (zip_with PrimFloat.sub a b)
  else match a, b with
       | [x], _ => Ok ((λ y, (x - y)%float) <$> b)
       | _, [y] => Ok ((λ x, (x - y)%float) <$> a)
       | _, _ => Raise ValueError
       end.

(** [20. * np.log10(1. / (ranges / 1000.) ** 2)] on one element. *)
Definition range_correction `{Numeric} (r : float) : float :=
  (20 * log10 (1 / ((r / 1000) * (r / 1000))))%float.

Definition store_reflectivity `{Numeric} : stmt unit :=
  snr ← last_data "snr";
  ranges ← get_data "range";
  let corr := range_correction <$> floats_of ranges in
  snr_rc ← lift match snr with
                | VList l => a ← as_floats l; broadcast_sub a corr
                | _ => Raise TypeError
                end;
  append "reflectivity_uncalibrated" (VArr snr_rc).

(** The body of the [try] for record number [ct]. *)
Definition record_body `{Numeric} `{Pandas} (f : list string) (ct : nat) : stmt unit :=
  df ← read_record f ct;
  store_channels df channel_names;;
  store_range;;
  time ← record_time;
  append "time" (VTime time);;
  store_reflectivity.

(** The variables of the [while] loop. *)
Record scan_state : Type := mk_scan {
  data : gmap string (list value);
  error : bool;
  error_ct : nat;
  ct : nat
}.

(** One turn of [while error is False]: the [try] body, the handler when it
    raised, and [ct += 1]. *)
Definition scan_step `{Numeric} `{Pandas} (f : list string) (st : scan_state)
    : scan_state :=
  match record_body f (ct st) (data st) with
  | (data', Ok _) => mk_scan data' (error st) (error_ct st) (S (ct st))
  | (data', Raise e) =>
      mk_scan data'
              (if is_empty_data e || (1 <? error_ct st)%nat then true else error st)
              (S (error_ct st)) (S (ct st))
  end.

(** The [while] loop, at most [fuel] turns: [None] when they do not
    suffice. *)
Fixpoint scan `{Numeric} `{Pandas} (fuel : nat) (f : list string) (st : scan_state)
    : option scan_state :=
  if error st then Some st
  else match fuel with
       | O => None
       | S fuel' => scan fuel' f (scan_step f st)
       end.

(** The file-level header line. *)
Definition file_header `{Numeric} `{Pandas} (f : list string) : stmt unit :=
  df ← lift (pd_columns0 f []);
  store_h1 (split " " df) 0.

(** [for f in files]: an exception of the file-level header ends the call;
    [None] when [fuel] turns do not finish the scan of some file. *)
Fixpoint read_files `{Numeric} `{Pandas} (fuel : nat) (files : list (list string))
    (data : gmap string (list value))
    : option (gmap string (list value) * result unit) :=
  match files with
  | [] => Some (data, Ok ())
  | f :: files' =>
      match file_header f data with
      | (data', Raise e) => Some (data', Raise e)
      | (data', Ok _) =>
          match scan fuel f (mk_scan data' false 0 0) with
          | Some st => read_files fuel files' (Noaapsl.data st)
          | None => None
          end
      end
  end.

(** [xr.Dataset().from_dict(data)] *)
Definition from_dict `{Xarray} (data : gmap string (list value))
    : result (gmap string (list value)) :=
  _ ← xr_check_dims ((λ v, (v.1, v.2, default [] (data !! v.1))) <$> variables);
  Ok data.

Definition read_psl_radar_fmcw_moment `{Numeric} `{Pandas} `{Xarray} (fuel : nat)
    (files : list (list string)) : option (result (gmap string (list value))) :=
  match read_files fuel files initial_data with
  | Some (data, Ok _) => Some (from_dict data)
  | Some (_, Raise e) => Some (Raise e)
  | None => None
  end.

End Noaapsl.

(** ** A reference instance of the library boundary

    Used to run the readers on concrete files.  [decimal] reads
    [[sign] digits [. digits] [e [sign] digits]] and rounds the decimal value
    to nearest-even in the given format, as [float] does; the spellings
    [inf] and [nan] are left out and reported as [ValueError]. *)

Module Reference.

Fixpoint mantissa (s : string) (m k : Z) (point seen : bool)
    : option (Z * Z * string) :=
  match s with
  | EmptyString => if seen then Some (m, k, "") else None
  | String c s' =>
      match digit_of c with
      | Some d => mantissa s' (10 * m + d) (if point then k + 1 else k) point true
      | None =>
          if Ascii.eqb c "." && negb point then mantissa s' m k true seen
          else if seen then Some (m, k, s) else None
      end
  end.

Definition signed_digits (s : string) : option Z :=
  match s with
  | String "+" r => int_digits r 0 false
  | String "-" r => Z.opp <$> int_digits r 0 false
  | t => int_digits t 0 false
  end.

Definition exponent (s : string) : option Z :=
  match s with
  | EmptyString => Some 0
  | String c r =>
      if Ascii.eqb c "e" || Ascii.eqb c "E" then signed_digits r else None
  end.

(** The value [(-1)^sign * m * 10^e10] rounded to precision [prec]. *)
Definition round_decimal (prec emax : Z) (sign : bool) (m e10 : Z) : spec_float :=
  match m with
  | Zpos p =>
      if 0 <=? e10
      then binary_normalize prec emax (if sign then - (m * 10 ^ e10) else m * 10 ^ e10) 0 false
      else SFdiv prec emax (S754_finite sign p 0)
                           (S754_finite false (Z.to_pos (10 ^ (- e10))) 0)
  | _ => S754_zero sign
  end.

Definition decimal (prec emax : Z) (s : string) : result float :=
  let t := strip s in
  let '(sign, body) :=
    match t with
    | String "+" r => (false, r)
    | String "-" r => (true, r)
    | _ => (false, t)
    end in
  match mantissa body 0 0 false false with
  | Some (m, k, rest) =>
      match exponent rest with
      | Some e => Ok (SF2Prim (round_decimal prec emax sign m (e - k)))
      | None => Raise ValueError
      end
  | None => Raise ValueError
  end.

(** [log10] is given on the powers of ten that binary64 holds exactly, on
    zero and on infinity; elsewhere this instance answers NaN. *)
Definition log10_exact (x : float) : float :=
  match list_find (λ n, PrimFloat.eqb x (float_of_Z (10 ^ Z.of_nat n)) = true)
                  (seq 0 23) with
  | Some (_, n) => float_of_Z (Z.of_nat n)
  | None =>
      if PrimFloat.eqb x infinity then infinity
      else if PrimFloat.eqb x 0 then neg_infinity
      else nan
  end.

#[global] Instance numeric : Numeric := {|
  to_float := decimal 53 1024;
  to_float32 := decimal 24 128;
  log10 := log10_exact
|}.

(** [Index.is_unique] *)
Fixpoint unique_index (a : list float) : bool :=
  match a with
  | [] => true
  | x :: a' => negb (existsb (Noaapsl.same_label x) a') && unique_index a'
  end.

(** The order of the labels of a sorted index: increasing, NaN last. *)
Definition label_lt (x y : float) : bool :=
  PrimFloat.ltb x y || (negb (PrimFloat.is_nan x) && PrimFloat.is_nan y).

(** One more label in a sorted index without repeated labels. *)
Fixpoint insert_label (x : float) (l : list float) : list float :=
  match l with
  | [] => [x]
  | y :: l' =>
      if Noaapsl.same_label x y then l
      else if label_lt x y then x :: l
      else y :: insert_label x l'
  end.

(** [Index.union]: the labels of both indexes, sorted; an empty or equal
    second index, or an empty first one, leaves the other as it is. *)
Definition union (a b : list float) : list float :=
  match a, b with
  | _, [] => a
  | [], _ => b
  | _, _ => if Noaapsl.same_index a b then a else foldr insert_label [] (a ++ b)
  end.

(** Differing indexes are joined on their union; reindexing on it needs
    every index to be free of repeated labels. *)
Definition join (indexes : list (list float)) : result (list float) :=
  if forallb unique_index indexes then
    match indexes with
    | [] => Raise ValueError
    | index :: rest => Ok (foldl union index rest)
    end
  else Raise ValueError.

(** The shape of a ['data'] list seen as an array with [ndim] dimensions:
    one dimension takes any list, two take a non-empty list of rows of one
    length. *)
Definition row_length (v : value) : option nat :=
  match v with
  | VList l => Some (length l)
  | VArr a => Some (length a)
  | _ => None
  end.

Definition shape (ndim : nat) (l : list value) : option (list nat) :=
  match ndim, l with
  | 1%nat, _ => Some [length l]
  | 2%nat, v :: _ =>
      match row_length v with
      | Some r =>
          if forallb (λ w, bool_decide (row_length w = Some r)) l
          then Some [length l; r] else None
      | None => None
      end
  | _, _ => None
  end.

(** The sizes met so far, by dimension name; a second size for a name is a
    conflict. *)
Fixpoint check_sizes (vars : list (string * list string * list value))
    (sizes : list (string * nat)) : result unit :=
  match vars with
  | [] => Ok ()
  | (_, dims, l) :: vars' =>
      match shape (length dims) l with
      | None => Raise ValueError
      | Some sh =>
          let new := zip dims sh in
          if forallb (λ ds : string * nat,
                        forallb (λ old : string * nat,
                                   negb (str_eqb old.1 ds.1) || (old.2 =? ds.2)%nat)
                                sizes) new
          then check_sizes vars' (new ++ sizes)
          else Raise ValueError
      end
  end.

#[global] Instance xarray : Xarray := {|
  xr_join := join;
  xr_check_dims := λ vars, check_sizes vars []
|}.

(** The pandas reads on files without quotes or comment marks: empty lines
    are passed over, a cell is an integer, a float or a string, and a
    column holds one kind of cell. *)
Definition kept (f : list string) (skip : list nat) : list string :=
  snd <$> filter (λ il : nat * string, (il.1 ∉ skip) ∧ (il.2 ≠ "")) (imap pair f).

Fixpoint until_tab (s : string) : string :=
  match s with
  | EmptyString => EmptyString
  | String c s' => if Ascii.eqb c "009" then EmptyString else String c (until_tab s')
  end.

Definition columns0 (f : list string) (skip : list nat) : result string :=
  match kept f skip with
  | [] => Raise EmptyDataError
  | l :: _ =>
      let c := until_tab l in
      Ok (if str_eqb c "" then "Unnamed: 0" else c)
  end.

Definition is_int (t : option string) : bool :=
  match t with Some s => bool_decide (is_Some (signed_digits s)) | None => false end.

Definition is_number (t : option string) : bool :=
  match t with
  | Some s => match decimal 53 1024 s with Ok _ => true | Raise _ => false end
  | None => true
  end.

(** The cells of one column from its tokens ([None]: the row is too short). *)
Definition infer_column (toks : list (option string)) : list scalar :=
  if forallb is_int toks then
    (λ t, SInt (default 0 (t ≫= signed_digits))) <$> toks
  else if forallb is_number toks then
    (λ t, SFloat match t with
                 | Some s => match decimal 53 1024 s with Ok x => x | Raise _ => nan end
                 | None => nan
                 end) <$> toks
  else
    (λ t, match t with Some s => SStr s | None => SFloat nan end) <$> toks.

Definition table (rows : list (list string)) (cols : list string) : result frame :=
  if forallb (λ r, (length r <=? length cols)%nat) rows
  then Ok (imap (λ j c, (c, infer_column ((λ r, r !! j) <$> rows))) cols)
  else Raise ParserError.

Definition read_csv_names (f : list string) (skip : list nat) (nrows : Z)
    (cols : list string) : result frame :=
  if nrows <? 0 then Raise ValueError
  else match kept f skip with
       | [] => Raise EmptyDataError
       | ls => table (split_ws <$> take (Z.to_nat nrows) ls) cols
       end.

(** Repeated header names become [X], [X.1], [X.2], ... *)
Fixpoint mangle (seen cols : list string) : list string :=
  match cols with
  | [] => []
  | c :: cols' =>
      let k := length (filter (λ x, x = c) seen) in
      (if (k =? 0)%nat then c else c +:+ "." +:+ pretty k) :: mangle (c :: seen) cols'
  end.

Definition read_csv_ws (f : list string) (k : nat) : result frame :=
  match kept (drop k f) [] with
  | [] => Raise EmptyDataError
  | header :: ls => table (split_ws <$> ls) (mangle [] (split_ws header))
  end.

Definition read_table_indexed (f : list string) (skip : list nat)
    (cols : list string) : result (list scalar * frame) :=
  match kept f skip with
  | [] => Raise EmptyDataError
  | ls =>
      fr ← table (split_ws <$> ls) cols;
      match fr with
      | (_, index) :: rest => Ok (index, rest)
      | [] => Raise ValueError
      end
  end.

Definition newline : string := String "010" "".

Definition header_to_string (f : list string) : result string :=
  match kept f [] with
  | [] => Raise EmptyDataError
  | l :: _ =>
      Ok ("Empty DataFrame" +:+ newline +:+ "Columns: [" +:+ until_tab l +:+ "]"
            +:+ newline +:+ "Index: []")
  end.

Definition fixed_digits (n : nat) (s : string) : option (Z * string) :=
  let d := String.substring 0 n s in
  if bool_decide (String.length d = n) then
    z ← int_digits d 0 false; Some (z, str_drop n s)
  else None.

Definition expect (c : ascii) (s : string) : option string :=
  match s with
  | String c' s' => if Ascii.eqb c c' then Some s' else None
  | EmptyString => None
  end.

(** [%y%j%H:%M:%S:%f] on strings with all digits present: two for the year,
    three for the day of the year, two for hour, minute and second, one to six
    for the fraction. *)
Definition to_datetime (s : string) : result datetime :=
  let parsed :=
    '(y, s) ← fixed_digits 2 s;
    '(j, s) ← fixed_digits 3 s;
    '(h, s) ← fixed_digits 2 s;
    s ← expect ":" s;
    '(mi, s) ← fixed_digits 2 s;
    s ← expect ":" s;
    '(sec, s) ← fixed_digits 2 s;
    s ← expect ":" s;
    frac ← int_digits s 0 false;
    if (String.length s <=? 6)%nat
    then Some (y, j, h, mi, sec, frac * 10 ^ Z.of_nat (6 - String.length s))
    else None in
  match parsed with
  | Some (y, j, h, mi, sec, us) =>
      let year := if y <? 69 then 2000 + y else 1900 + y in
      if (1 <=? j) && (j <=? (if is_leap year then 366 else 365))
         && check_time_fields h mi sec
      then Ok (mk_datetime (days_before_year year + j) h mi sec us)
      else Raise ValueError
  | None => Raise ValueError
  end.

#[global] Instance pandas : Pandas := {|
  pd_columns0 := columns0;
  pd_read_csv_names := read_csv_names;
  pd_read_csv_ws := read_csv_ws;
  pd_read_table_indexed := read_table_indexed;
  pd_header_to_string := header_to_string;
  pd_to_datetime := to_datetime
|}.

End Reference.


Import Noaapsl.

(** A pandas that sees nothing of a file before line [k]: a read that skips
    fewer than [k] lines fails. *)
Definition pandas_from (k : nat) : Pandas := {|
  pd_columns0 f skip :=
    if (length skip <? k)%nat then Raise ParserError else Reference.columns0 f skip;
  pd_read_csv_names f skip n cols :=
    if (length skip <? k)%nat then Raise ParserError
    else Reference.read_csv_names f skip n cols;
  pd_read_csv_ws := Reference.read_csv_ws;
  pd_read_table_indexed := Reference.read_table_indexed;
  pd_header_to_string := Reference.header_to_string;
  pd_to_datetime := Reference.to_datetime
|}.

(** ** Files

    The files the readers are run on below, as lists of lines. *)

(** One block followed by the marker line of the next sweep. *)
Definition profiler_single_block : list string :=
  [ "CTD"; " WINDS   rev 5.1"; "  34.50  -87.25    187";
    " 21 08 29 06 00 01    0"; " 300"; " 3 44"; " 1 1 1"; "  417  417   62";
    "  38.0 66.4   128.0 66.4   0.0 90.0"; "HT  SPD  RAD  RAD  RAD";
    " 0.143   1.5   4.0   999999   3.0"; " 0.200   1.5   4.5   2.5   3.0"; "$";
    "CTD" ].

(** A low-mode block, a high-mode block, and the marker line of a third. *)
Definition profiler_two_blocks : list string :=
  [ "CTD"; " WINDS   rev 5.1"; "  34.50  -87.25    187";
    " 21 08 29 06 00 01    0"; " 300"; " 3 44"; " 1 1 1"; "  417  417   62";
    "  38.0 66.4   128.0 66.4   0.0 90.0"; "HT  SPD  RAD  RAD  RAD";
    " 0.143   1.5   4.0   999999   3.0"; " 0.200   1.5   4.5   2.5   3.0"; "$";
    "CTD"; " WINDS   rev 5.1"; "  34.50  -87.25    187";
    " 21 08 29 07 00 01    0"; " 300"; " 3 44"; " 1 1 1"; "  708  708   1000";
    "  38.0 66.4   128.0 66.4   0.0 90.0"; "HT  SPD  RAD  RAD  RAD";
    " 0.143   2.5   5.0   6.0   999999"; "$";
    "CTD" ].

(** Two low-mode blocks of two rows each whose second height differs, a
    high-mode block, and the marker line of a fourth. *)
Definition profiler_two_grids : list string :=
  [ "CTD"; " WINDS   rev 5.1"; "  34.50  -87.25    187";
    " 21 08 29 06 00 01    0"; " 300"; " 3 44"; " 1 1 1"; "  417  417   62";
    "  38.0 66.4   128.0 66.4   0.0 90.0"; "HT  SPD";
    " 0.143   1.5"; " 0.200   2.5"; "$";
    "CTD"; " WINDS   rev 5.1"; "  34.50  -87.25    187";
    " 21 08 29 07 00 01    0"; " 300"; " 3 44"; " 1 1 1"; "  417  417   62";
    "  38.0 66.4   128.0 66.4   0.0 90.0"; "HT  SPD";
    " 0.143   3.5"; " 0.300   4.5"; "$";
    "CTD"; " WINDS   rev 5.1"; "  34.50  -87.25    187";
    " 21 08 29 08 00 01    0"; " 300"; " 3 44"; " 1 1 1"; "  708  708   1000";
    "  38.0 66.4   128.0 66.4   0.0 90.0"; "HT  SPD";
    " 0.143   5.5"; "$";
    "CTD" ].

Definition rass_section (date_line : string) : list string :=
  [ "CTD"; " RASS   rev 5.1"; "  34.50  -87.25    187"; date_line;
    "  5  3  2"; " 1"; " 1 2 3 4"; " 1.0 2.0 2 4.0"; " 0.0 90.0";
    "HT  T  Tc  W  CNT  CNT  CNT  SNR  SNR  SNR";
    " 0.143   1.5   999999   3.0   1   2   3   4   5   6";
    " 0.200   1.5   2.5   3.0   1   2   3   4   5   6" ].

(** Two sections of two gates each, after the line the reader drops. *)
Definition rass_two_sections : list string :=
  ["CTD RASS"] ++ rass_section " 21 08 29 06 00 01    0" ++ ["$"]
       ++ rass_section " 21 08 29 07 00 01    0" ++ ["$"].

(** The same file with a date line of the second section damaged. *)
Definition rass_bad_date : list string :=
  ["CTD RASS"] ++ rass_section " 21 08 29 06 00 01    0" ++ ["$"]
       ++ rass_section " 21 08 xx 07 00 01    0" ++ ["$"].

(** A file-level header line and one record of two gates (one table row),
    stamped year 22, day of the year 1, 00:00:00. *)
Definition radar_one_record : list string :=
  [ "CTD 4004 -10523 1500 915";
    "0 90 0 22 1 0 0 0";
    "1 2 100 50 2 6 7 8 9";
    "1.5 999999.0 3.0 4.0 5.0 0" ].

(** Every line after the first carries its own line number as first token:
    odd lines are spelled as 2nd header lines, even lines as 3rd header lines
    declaring two gates, lines 3 and 11 as table rows. *)
Definition radar_numbered : list string :=
  [ "CTD 4004 -10523 1500 915";
    "1 90 0 22 1 0 0 0";
    "2 2 100 50 2 6 7 8 9";
    "3.0 3.0 3.0 3.0 3.0 3";
    "4 2 100 50 2 6 7 8 9";
    "5 90 0 22 1 0 0 0";
    "6 2 100 50 2 6 7 8 9";
    "7 90 0 22 1 0 0 0";
    "8 2 100 50 2 6 7 8 9";
    "9 90 0 22 1 0 0 0";
    "10 2 100 50 2 6 7 8 9";
    "11.0 11.0 11.0 11.0 11.0 11" ].

(** A header and one record whose gate count is not a number. *)
Definition radar_bad_gates : list string :=
  [ "CTD 4004 -10523 1500 915";
    "0 90 0 22 1 0 0 0";
    "1 2 100 50 x 6 7 8 9";
    "1.5 2.5 3.0 4.0 5.0 0" ].

(** Two records of two gates one after the other, then the 2nd header line
    of a third record and the end of the file. *)
Definition radar_two_records_truncated : list string :=
  [ "CTD 4004 -10523 1500 915";
    "0 90 0 22 1 0 0 0"; "1 2 100 50 2 6 7 8 9"; "1.5 2.5 3.0 4.0 5.0 0";
    "0 90 0 22 1 0 1 0"; "1 2 100 50 2 6 7 8 9"; "1.5 2.5 3.0 4.0 5.0 0";
    "0 90 0 22 1 0 2 0" ].

(** One record, and at the place where the reader looks for the next one
    (line 9) a 2nd header line followed by the end of the file. *)
Definition radar_truncated_at_offset : list string :=
  [ "CTD 4004 -10523 1500 915";
    "0 90 0 22 1 0 0 0"; "1 2 100 50 2 6 7 8 9"; "1.5 2.5 3.0 4.0 5.0 0";
    "-"; "-"; "-"; "-"; "-";
    "0 90 0 22 1 0 1 0" ].

(** Six records of two gates at the places where the reader looks for
    them (lines 1, 9, 13, 17, 21 and 25); the hour of the first, third and
    fifth is not a number. *)
Definition radar_alternating : list string :=
  [ "CTD 4004 -10523 1500 915";
    "0 90 0 22 1 xx 0 0";
    "1 2 100 50 2 6 7 8 9";
    "1.5 2.5 3.0 4.0 5.0 0";
    "-";
    "-";
    "-";
    "-";
    "-";
    "0 90 0 22 1 0 0 0";
    "1 2 100 50 2 6 7 8 9";
    "1.5 2.5 3.0 4.0 5.0 0";
    "-";
    "0 90 0 22 1 xx 0 0";
    "1 2 100 50 2 6 7 8 9";
    "1.5 2.5 3.0 4.0 5.0 0";
    "-";
    "0 90 0 22 1 0 0 0";
    "1 2 100 50 2 6 7 8 9";
    "1.5 2.5 3.0 4.0 5.0 0";
    "-";
    "0 90 0 22 1 xx 0 0";
    "1 2 100 50 2 6 7 8 9";
    "1.5 2.5 3.0 4.0 5.0 0";
    "-";
    "0 90 0 22 1 0 0 0";
    "1 2 100 50 2 6 7 8 9";
    "1.5 2.5 3.0 4.0 5.0 0" ].

(** A disdrometer file: three lines that are skipped, and one row whose
    precipitation rate is the sentinel. *)
Definition parsivel_one_row : list string :=
  [ "Parsivel CTD x 2212306 y"; "-"; "-";
    "00:00:000-01:00:000 1 2 3 4 5 6 7 8 9 10 11 12 13 14 15 16 17 18 19 20 "
    +:+ "21 22 23 24 25 26 27 28 29 30 31 32 0 1 2 3 999999.0 5 6 7 8 9 10 11 "
    +:+ "12 13 14 15 16 17 18 19 20 21 22 1" ].

(** ** Notions used in the statements *)

Section Notions.

Context `{Numeric} `{Pandas} `{Xarray}.

(** The suffix a beam column gets when [k] copies of its name are still
    unrenamed, itself included. *)
Definition suffix_for (k : nat) : string :=
  if (2 <? k)%nat then "1" else if (1 <? k)%nat then "2" else "3".

Definition renamed (c : string) (k : nat) : string :=
  if bool_decide (c ∈ beam_vars) then c +:+ suffix_for k else c.

Fixpoint rename_spec (cols : list string) : list string :=
  match cols with
  | [] => []
  | c :: rest => renamed c (count c cols) :: rename_spec rest
  end.

(** The rule as the specification words it: the suffix is chosen by the
    rank of the occurrence, counted from the left and starting at one. *)
Definition spec_suffix (occurrence : nat) : string :=
  if (3 <=? occurrence)%nat then "1"
  else if (occurrence =? 2)%nat then "2" else "3".

Definition occurrence (cols : list string) (i : nat) (c : string) : nat :=
  count c (take (S i) cols).

(** The turn of the loop for block number [i], on its own. *)
Definition block_at (df column_list : list string) (idx : list nat) (i : nat)
    : result (Z * block_ds) :=
  start ← getitem idx i;
  next ← getitem idx (i + 1);
  parse_block df column_list start next.

Definition is_low (mb : Z * block_ds) : Prop := mb.1 < 1000.
Definition is_high (mb : Z * block_ds) : Prop := 1000 ≤ mb.1.

#[global] Instance is_low_dec mb : Decision (is_low mb) := _.
#[global] Instance is_high_dec mb : Decision (is_high mb) := _.

(** The blocks the loop retains, with their mode numbers: the loop taken
    without its two accumulators. *)
Definition retained_blocks (df : list string) : result (list (Z * block_ds)) :=
  potential_site ← loc df 0;
  header ← loc df 9;
  mapM (block_at df (rename_beam_columns (split_ws header))
                 (markers df potential_site))
       (seq 0 (length (markers df potential_site) - 1)).

(** The table of one block. *)
Definition parse_rows (ls : list string) : result (list (list float)) :=
  mapM (λ l, mapM to_float (re_split_ws 2 true l)) ls.

(** A date line is malformed when, split at blanks, it does not give seven
    tokens or one of its tokens is not an integer. *)
Definition malformed_date_line (line : string) : Prop :=
  length (filter_list (split " " line)) ≠ 7%nat
  ∨ ∃ t, t ∈ filter_list (split " " line) ∧ raises (np_int t).

(** No cell of the list is the sentinel. *)
Definition clean (col : list float) : Prop :=
  Forall (λ x, is_sentinel x = false) col.

(** [obj[name]] on the outcome of a call. *)
Definition variable_of (name : string)
    (r : option (result (gmap string (list value))))
    : option (result (list value)) :=
  match r with
  | Some (Ok d) => Some (match d !! name with Some l => Ok l | None => Raise KeyError end)
  | Some (Raise e) => Some (Raise e)
  | None => None
  end.

(** The statement leaves the entry of [k] as it found it. *)
Definition preserves (k : string) {A} (m : stmt A) : Prop :=
  ∀ d d' r, m d = (d', r) → d' !! k = d !! k.

(** The statement never raises an empty read. *)
Definition no_empty_read {A} (m : stmt A) : Prop :=
  ∀ d d', m d ≠ (d', Raise EmptyDataError).

(** What the [try] body of the coming turn does: it returns or raises. *)
Definition outcome (f : list string) (st : scan_state) : result unit :=
  (record_body f (ct st) (data st)).2.

Definition is_raise {A} (r : result A) : bool :=
  match r with Raise _ => true | Ok _ => false end.

(** The loop variables after [n] turns, the flag [error] not looked at. *)
Fixpoint turns (f : list string) (n : nat) (st : scan_state) : scan_state :=
  match n with
  | O => st
  | S n' => turns f n' (scan_step f st)
  end.

(** How many of the first [n] turns raised. *)
Fixpoint raised_turns (f : list string) (n : nat) (st : scan_state) : nat :=
  match n with
  | O => 0
  | S n' => ((if is_raise (outcome f st) then 1 else 0)
             + raised_turns f n' (scan_step f st))%nat
  end.

(** The loop variables when the scan of a file starts. *)
Definition scan_start (f : list string) : scan_state :=
  mk_scan (file_header f initial_data).1 false 0 0.

(** The offset as the specification words it. *)
Definition stated_offset (N : nat) (gates : Z) : Z :=
  Z.of_nat N * (gates - 1) + 2 * Z.of_nat N + 4.

End Notions.

(** [f <$$> r]: [f] on the value a call returned. *)
Definition fmap2 {A B} (f : A → B) (r : option (result A)) : option (result B) :=
  (λ x : result A, f <$> x) <$> r.
Infix "<$$>" := fmap2 (at level 61, left associativity).

(** A block whose table header names four radial beams. *)
Definition profiler_four_beams : list string :=
  [ "CTD"; " WINDS   rev 5.1"; "  34.50  -87.25    187";
    " 21 08 29 06 00 01    0"; " 300"; " 3 44"; " 1 1 1"; "  417  417   62";
    "  38.0 66.4   128.0 66.4   0.0 90.0"; "HT  RAD  RAD  RAD  RAD";
    " 0.143   1.5   4.0   2.0   3.0"; "$";
    "CTD"; " WINDS   rev 5.1"; "  34.50  -87.25    187";
    " 21 08 29 07 00 01    0"; " 300"; " 3 44"; " 1 1 1"; "  708  708   1000";
    "  38.0 66.4   128.0 66.4   0.0 90.0"; "HT  RAD  RAD  RAD  RAD";
    " 0.143   2.5   5.0   6.0   7.0"; "$";
    "CTD" ].

(** The second block of [profiler_two_blocks] with a cell missing in its
    only row. *)
Definition profiler_short_row : list string :=
  <[23%nat := " 0.143   2.5   5.0   6.0"]> profiler_two_blocks.

(** The global attributes of a returned dataset. *)
Definition attributes (p : profiler_ds)
    : string * string * string * float * float * float * list float * list float :=
  (site_identifier p, data_type p, revision_number p, latitude p, longitude p,
   altitude p, azimuth p, elevation p).

(** A table row the block loop cannot take: its cells are not as many as the
    header names, or one of them is not a number. *)
Definition bad_row `{Numeric} (header row : string) : Prop :=
  length (re_split_ws 2 true row) ≠ length (split_ws header)
  ∨ ∃ cell, cell ∈ re_split_ws 2 true row ∧ raises (to_float cell).

(** The attributes as lines 103 to 150 compute them from the site line, the
    revision line, the coordinates line and the line of beam directions. *)
Definition header_attributes `{Numeric} (site_loc rev coords az_el : string)
    : result (string * string * string * float * float * float
              * list float * list float) :=
  site_tok ← getitem (re_split_ws 2 false site_loc) 0;
  let rev_array := re_split_ws 3 false rev in
  dtype ← getitem rev_array 0;
  revision ← getitem rev_array 1;
  coords_list ← remove_empty (re_split_ws 2 true coords);
  coords_array ← mapM to_float32 coords_list;
  lat ← getitem coords_array 0;
  lon ← getitem coords_array 1;
  alt ← getitem coords_array 2;
  az_el_array ← remove_empty (re_split_ws 2 true az_el);
  az ← mapM (λ i, getitem (split_ws i) 0) az_el_array;
  el ← mapM (λ i, getitem (split_ws i) 1) az_el_array;
  az_array ← mapM to_float32 az;
  el_array ← mapM to_float32 el;
  Ok (strip site_tok, strip dtype, strip revision, lat, lon, alt, az_array, el_array).

(** A temperature file whose only sections are separator lines. *)
Definition rass_no_data : list string := ["CTD RASS"; "$"; "$"].

(** The sections with, for each, the number of lines of the sections
    before it: the value of [start_line] when the loop reaches it. *)
Fixpoint with_offsets (start_line : nat) (sections : list (list string))
    : list (nat * list string) :=
  match sections with
  | [] => []
  | section :: rest =>
      (start_line, section) :: with_offsets (start_line + length section) rest
  end.

(** The sections that are parsed: those that do not start with a separator. *)
Definition is_data (os : nat * list string) : Prop := head os.2 ≠ Some "$".

#[global] Instance is_data_dec os : Decision (is_data os) := _.

(** The column names the temperature reader never hands out: the index, the
    time column it drops, and the count and SNR columns under the names
    pandas gives them. *)
Definition withheld_names : list string :=
  ["HT"; "time"; "CNT"; "CNT.1"; "CNT.2"; "SNR"; "SNR.1"; "SNR.2"].

(** The date of a disdrometer file: the third token from the end of its
    header line as pandas prints it, split at single blanks. *)
Definition date_of_header (header : string) : option string :=
  let toks := split " " header in
  if (3 <=? length toks)%nat then toks !! (length toks - 3)%nat else None.

(** The two ends of the averaging interval of the index label [label], a
    string [a-b]: [a] and [b], each parsed behind [date]. *)
Definition interval_of `{Pandas} (date : string) (label : scalar)
    (interval : datetime * datetime) : Prop :=
  ∃ l t0 t1,
    label = SStr l
    ∧ split "-" l !! 0%nat = Some t0 ∧ split "-" l !! 1%nat = Some t1
    ∧ pd_to_datetime (date +:+ ":" +:+ t0) = Ok interval.1
    ∧ pd_to_datetime (date +:+ ":" +:+ t1) = Ok interval.2.

(** The intervals of one disdrometer file: one for each index label of its
    table, in order, parsed behind the date of the file's own header. *)
Definition intervals_of_file `{Pandas} (f : list string)
    (intervals : list (datetime * datetime)) : Prop :=
  ∃ index df header date,
    pd_read_table_indexed f [0; 1; 2]%nat names = Ok (index, df)
    ∧ pd_header_to_string f = Ok header
    ∧ date_of_header header = Some date
    ∧ Forall2 (interval_of date) index intervals.

(** The dictionary after each of the names has got the token paired with it
    appended to its list, in the order of the pairs. *)
Fixpoint append_all (pairs : list (string * string))
    (data : gmap string (list value)) : gmap string (list value) :=
  match pairs with
  | [] => data
  | (name, d) :: rest =>
      append_all rest (<[name := default [] (data !! name) ++ [VStr d]]> data)
  end.

(** All the names are keys of the dictionary. *)
Definition has_keys (ns : list string) (data : gmap string (list value)) : Prop :=
  ∀ n, n ∈ ns → is_Some (data !! n).

(** The statement leaves the entry of [k] as it is when that entry is [l]. *)
Definition keeps (k : string) (l : list value) {A} (m : stmt A) : Prop :=
  ∀ d d' r, m d = (d', r) → d !! k = Some l → d' !! k = Some l.

(** The statement only reads the dictionary. *)
Definition reads_only {A} (m : stmt A) : Prop := ∀ d d' r, m d = (d', r) → d' = d.

(** The outcome of the statement depends on the entry of [k] alone. *)
Definition looks_at (k : string) {A} (m : stmt A) : Prop :=
  ∀ d1 d2, d1 !! k = d2 !! k → (m d1).2 = (m d2).2.

(** A radar file whose first line has six tokens. *)
Definition radar_long_header : list string :=
  [ "CTD 4004 -10523 1500 915 7";
    "0 90 0 22 1 0 0 0";
    "1 2 100 50 2 6 7 8 9";
    "1.5 2.5 3.0 4.0 5.0 0" ].

(** What pandas does at the end of a file: a header read told to skip
    every line of the file raises. *)
Definition end_of_file_law `{Pandas} : Prop :=
  ∀ f skip, (∀ i, (i < length f)%nat → i ∈ skip) → raises (pd_columns0 f skip).

(** pandas refuses a negative [nrows]. *)
Definition nrows_law `{Pandas} : Prop :=
  ∀ f skip n cols, n < 0 → raises (pd_read_csv_names f skip n cols).

(** The gate count stored last is a number, and at least one. *)
Definition gated (d : gmap string (list value)) : bool :=
  match (last_int "n_gates" d).2 with
  | Ok g => 1 <=? g
  | Raise _ => false
  end.

(** A bound on the turns of the loop still to come. *)
Definition turns_left (f : list string) (st : scan_state) : nat :=
  ((length f - ct st) + 3 * (3 - error_ct st)
   + (if gated (data st) then 0 else 1))%nat.

(** The first line of a radar file cannot be stored: pandas raises on it,
    or it has more tokens than the five names of the file-level header. *)
Definition unusable_first_line `{Pandas} (f : list string) : Prop :=
  raises (pd_columns0 f [])
  ∨ ∃ line, pd_columns0 f [] = Ok line
            ∧ (length h1_names < length (filter_nonempty (split " " line)))%nat.

(** The fields of a date a [datetime] accepts. *)
Definition date_fields_ok (year month day h m s : Z) : Prop :=
  1 ≤ year ≤ 9999 ∧ 1 ≤ month ≤ 12 ∧ 1 ≤ day ≤ days_in_month year month
  ∧ 0 ≤ h ≤ 23 ∧ 0 ≤ m ≤ 59 ∧ 0 ≤ s ≤ 59.

(** [m] is the dataset [b] as a member of a concatenation: [b] under the
    common coordinate, which its own index equals, or [b] reindexed on it. *)
Definition stacked {A} `{Indexed A} (b m : A) : Prop :=
  (m = assign_coord (indexed_by m) b
   ∧ same_index (indexed_by m) (indexed_by b) = true)
  ∨ m = reindex (indexed_by m) b.

(** [y] is the cell [x] after the substitution of the sentinel: NaN where
    [x] is 999999.0, [x] itself elsewhere. *)
Definition substituted (x y : float) : Prop :=
  if PrimFloat.eqb x 999999 then y = nan else y = x.

(** Every cell of [col] is a cell of [col0] or a NaN. *)
Definition moved_or_filled (col0 col : list float) : Prop :=
  Forall (λ y, y = nan ∨ y ∈ col0) col.

(** What the outer join of indexes is made of: labels of these indexes. *)
Definition join_law `{Xarray} : Prop :=
  ∀ indexes joined label,
    xr_join indexes = Ok joined → label ∈ joined →
    ∃ index, index ∈ indexes ∧ label ∈ index.

(** * Checked properties *)

(** ** The built-ins on small inputs *)

Example split_on_blank : split " " " 21 08  29" = [""; "21"; "08"; ""; "29"].
Proof. reflexivity. Qed.

Example split_on_two_blanks :
  split "  " "  34.66  -87.35    187" = [""; "34.66"; "-87.35"; ""; "187"].
Proof. reflexivity. Qed.

Example split_on_whitespace : split_ws "  HT  SPD   DIR " = ["HT"; "SPD"; "DIR"].
Proof. reflexivity. Qed.

Example split_on_runs :
  re_split_ws 2 true " 0.143   3.5    196" = [" 0.143"; "3.5"; "196"].
Proof. reflexivity. Qed.

Example split_on_pairs : re_split_ws 2 false "CTD     x" = ["CTD"; ""; " x"].
Proof. reflexivity. Qed.

Example int_of_padded : int " -1_0 " = Ok (-10).
Proof. reflexivity. Qed.

Example int_of_word : int "xx" = Raise ValueError.
Proof. reflexivity. Qed.

Example ordinal_of_2000 : ymd2ord 2000 1 1 = 730120.
Proof. reflexivity. Qed.

Example ordinal_of_last_day : ymd2ord 9999 12 31 = MAXORDINAL.
Proof. reflexivity. Qed.

Example february_29 :
  mkdatetime 2021 2 29 0 0 0 = Raise ValueError
  ∧ mkdatetime 2024 2 29 0 0 0 = Ok (mk_datetime 738945 0 0 0 0).
Proof. split; reflexivity. Qed.

Example decimal_rounds_to_nearest :
  to_float "0.1" = Ok 0.1%float ∧ to_float "999999.0" = Ok sentinel
  ∧ to_float "999999" = Ok sentinel ∧ to_float "1e3" = Ok 1000%float
  ∧ to_float "" = Raise ValueError.
Proof. repeat split; vm_compute; reflexivity. Qed.

Example groupby_sections :
  groupby not_dollar ["a"; "b"; "$"; "c"; "$"; "$"]
  = [["a"; "b"]; ["$"]; ["c"]; ["$"; "$"]].
Proof. reflexivity. Qed.

(** ** Column names of the wind profiler table *)

Section ColumnNames.

Lemma count_cons c x l :
  count c (x :: l) = if bool_decide (x = c) then S (count c l) else count c l.
Proof.
  unfold count. rewrite filter_cons.
  destruct (decide (x = c)); case_bool_decide; simpl; congruence.
Qed.

Lemma count_app c l1 l2 : count c (l1 ++ l2) = (count c l1 + count c l2)%nat.
Proof. unfold count. now rewrite filter_app, length_app. Qed.

Lemma count_absent c l : c ∉ l → count c l = 0%nat.
Proof.
  induction l as [|x l IH]; intros Hn; [reflexivity|].
  rewrite count_cons. apply not_elem_of_cons in Hn as [Hne Hn].
  case_bool_decide; [congruence|auto].
Qed.

Lemma beam_suffix_fresh b k : b ∈ beam_vars → b +:+ suffix_for k ∉ beam_vars.
Proof.
  intros Hb Hin. unfold suffix_for in Hin.
  unfold beam_vars in *.
  repeat (apply elem_of_cons in Hb as [->|Hb]); [..|by apply elem_of_nil in Hb];
    destruct (2 <? k)%nat, (1 <? k)%nat; simpl in Hin;
    repeat (apply elem_of_cons in Hin as [Hin|Hin]; [discriminate|]);
    by apply elem_of_nil in Hin.
Qed.

Lemma renamed_fresh c k : renamed c k ∉ beam_vars.
Proof.
  unfold renamed. case_bool_decide; [by apply beam_suffix_fresh|done].
Qed.

Lemma rename_step_at pre c rest :
  (∀ x, x ∈ pre → x ∉ beam_vars) →
  rename_step (length pre) (pre ++ c :: rest)
  = pre ++ renamed c (count c (c :: rest)) :: rest.
Proof.
  intros Hpre. unfold rename_step, renamed.
  rewrite lookup_app_r, Nat.sub_diag by lia. simpl.
  case_bool_decide as Hb; [|reflexivity].
  assert (count c (pre ++ c :: rest) = count c (c :: rest)) as ->.
  { rewrite count_app, (count_absent c pre); [reflexivity|].
    intros Hin. by apply (Hpre _ Hin). }
  assert (∀ v, <[length pre := v]> (pre ++ c :: rest) = pre ++ v :: rest) as Hins.
  { intros v. rewrite insert_app_r_alt, Nat.sub_diag by lia. reflexivity. }
  rewrite !Hins. unfold suffix_for.
  rewrite count_cons, bool_decide_true by reflexivity.
  destruct (2 <? S (count c rest))%nat; [reflexivity|].
  destruct (1 <? S (count c rest))%nat; [reflexivity|].
  reflexivity.
Qed.

Lemma rename_loop_spec rest : ∀ pre,
  (∀ x, x ∈ pre → x ∉ beam_vars) →
  rename_loop (length rest) (length pre) (pre ++ rest) = pre ++ rename_spec rest.
Proof.
  induction rest as [|c rest IH]; intros pre Hpre; [reflexivity|].
  simpl rename_loop. rewrite rename_step_at by assumption.
  specialize (IH (pre ++ [renamed c (count c (c :: rest))])).
  rewrite length_app, Nat.add_1_r, <- !app_assoc in IH. simpl in IH.
  apply IH. intros x [Hx| ->%list_elem_of_singleton]%elem_of_app; [auto|].
  apply renamed_fresh.
Qed.

Lemma rename_beam_columns_spec cols : rename_beam_columns cols = rename_spec cols.
Proof.
  unfold rename_beam_columns.
  apply (rename_loop_spec cols []). intros x Hx. by apply elem_of_nil in Hx.
Qed.

Lemma rename_spec_lookup cols : ∀ i,
  rename_spec cols !! i = (λ c, renamed c (count c (drop i cols))) <$> cols !! i.
Proof.
  induction cols as [|c cols IH]; intros [|i]; try reflexivity.
  simpl. apply IH.
Qed.

Lemma rename_spec_length cols : length (rename_spec cols) = length cols.
Proof. induction cols; simpl; congruence. Qed.

Lemma count_drop_le c l : ∀ i, (count c (drop i l) ≤ count c l)%nat.
Proof.
  induction l as [|x l IH]; intros [|i]; simpl; try lia.
  rewrite count_cons. specialize (IH i). case_bool_decide; lia.
Qed.

Lemma count_drop_lt c l : ∀ i j,
  l !! i = Some c → (i < j)%nat → (count c (drop j l) < count c (drop i l))%nat.
Proof.
  induction l as [|x l IH]; intros i j Hi Hij; [done|].
  destruct j as [|j]; [lia|]. destruct i as [|i]; simpl in *.
  - injection Hi as ->. rewrite count_cons, bool_decide_true by reflexivity.
    pose proof (count_drop_le c l j). lia.
  - apply IH; [assumption|lia].
Qed.

Lemma count_drop_pos c l : ∀ j, l !! j = Some c → (1 ≤ count c (drop j l))%nat.
Proof.
  induction l as [|x l IH]; intros [|j] Hj; try done; simpl in *.
  - injection Hj as ->. rewrite count_cons, bool_decide_true by reflexivity. lia.
  - by apply IH.
Qed.

Lemma suffix_for_cases k :
  suffix_for k = "1" ∧ (3 ≤ k)%nat ∨ suffix_for k = "2" ∧ k = 2%nat
  ∨ suffix_for k = "3" ∧ (k ≤ 1)%nat.
Proof.
  unfold suffix_for.
  destruct (Nat.ltb_spec 2 k); [left; split; [reflexivity|lia]|].
  destruct (Nat.ltb_spec 1 k); [right; left; split; [reflexivity|lia]|].
  right; right; split; [reflexivity|lia].
Qed.

Lemma beam_suffix_inj b b' k k' :
  b ∈ beam_vars → b' ∈ beam_vars →
  b +:+ suffix_for k = b' +:+ suffix_for k' →
  b = b' ∧ suffix_for k = suffix_for k'.
Proof.
  intros Hb Hb' Heq. unfold beam_vars in *.
  destruct (suffix_for_cases k) as [[E _]|[[E _]|[E _]]];
  destruct (suffix_for_cases k') as [[E' _]|[[E' _]|[E' _]]];
  rewrite E, E' in Heq |- *;
  repeat (apply elem_of_cons in Hb as [->|Hb]); try (by apply elem_of_nil in Hb);
  repeat (apply elem_of_cons in Hb' as [->|Hb']); try (by apply elem_of_nil in Hb');
  first [split; reflexivity | cbv in Heq; discriminate Heq].
Qed.

Lemma suffix_for_distinct k k' :
  (1 ≤ k')%nat → (k' < k)%nat → (k ≤ 3)%nat → suffix_for k ≠ suffix_for k'.
Proof.
  intros H1 H2 H3.
  destruct (suffix_for_cases k) as [[-> ?]|[[-> ?]|[-> ?]]];
  destruct (suffix_for_cases k') as [[-> ?]|[[-> ?]|[-> ?]]];
  first [discriminate | lia].
Qed.

Lemma filter_lookup_inj {A} (P : A → Prop) `{∀ x, Decision (P x)} (l : list A) :
  NoDup (filter P l) → ∀ i j x, l !! i = Some x → l !! j = Some x → P x → i = j.
Proof.
  induction l as [|a l IH]; intros Hnd i j x Hi Hj Hx; [done|].
  rewrite filter_cons in Hnd.
  destruct i as [|i], j as [|j]; simpl in *; try reflexivity.
  - injection Hi as ->. rewrite decide_True in Hnd by assumption.
    apply NoDup_cons in Hnd as [Hnotin _]. exfalso. apply Hnotin.
    apply list_elem_of_filter. split; [assumption|]. by eapply list_elem_of_lookup_2.
  - injection Hj as ->. rewrite decide_True in Hnd by assumption.
    apply NoDup_cons in Hnd as [Hnotin _]. exfalso. apply Hnotin.
    apply list_elem_of_filter. split; [assumption|]. by eapply list_elem_of_lookup_2.
  - f_equal. apply (IH ltac:(destruct (decide (P a)); [by apply NoDup_cons in Hnd as [_ ?]|done])
                       i j x Hi Hj Hx).
Qed.

Lemma rename_spec_NoDup cols :
  (∀ b, b ∈ beam_vars → (count b cols ≤ 3)%nat) →
  NoDup (filter (λ c, c ∉ beam_vars) cols) →
  (∀ c b k, c ∈ cols → c ∉ beam_vars → b ∈ beam_vars → c ≠ b +:+ suffix_for k) →
  NoDup (rename_spec cols).
Proof.
  intros Hmax Hother Hclash. apply NoDup_alt. intros i j x Hi Hj.
  rewrite rename_spec_lookup in Hi, Hj.
  destruct (cols !! i) as [ci|] eqn:Eci; [|done].
  destruct (cols !! j) as [cj|] eqn:Ecj; [|done].
  simpl in Hi, Hj. injection Hi as Hi. injection Hj as Hj. subst x.
  unfold renamed in Hj. do 2 case_bool_decide.
  - apply beam_suffix_inj in Hj as [-> Hs]; [|assumption..].
    destruct (Nat.lt_trichotomy i j) as [Hlt|[->|Hlt]]; [|reflexivity|].
    + exfalso. eapply (suffix_for_distinct (count ci (drop i cols))
                                            (count ci (drop j cols))); [| | |done].
      * by apply count_drop_pos.
      * by apply count_drop_lt.
      * etrans; [apply count_drop_le|auto].
    + exfalso. eapply (suffix_for_distinct (count ci (drop j cols))
                                            (count ci (drop i cols))); [| | |done].
      * by apply count_drop_pos.
      * by apply count_drop_lt.
      * etrans; [apply count_drop_le|auto].
  - exfalso. eapply (Hclash ci cj); [by eapply list_elem_of_lookup_2|done..].
  - exfalso. eapply (Hclash cj ci); [by eapply list_elem_of_lookup_2|done..].
  - subst cj. eapply (filter_lookup_inj (λ c, c ∉ beam_vars)); eauto.
Qed.

(** C2 (as amended).  The loop of [read_psl_wind_profiler] that renames the
    beam columns keeps the length of the header; a name outside [RAD], [CNT],
    [SNR], [QC] is kept, and an occurrence of a beam name gets the suffix
    chosen by the number of its occurrences from that position to the end of
    the header: "1" when three or more remain, "2" when two remain, "3" for
    the last one.  The names that result are pairwise different when no beam
    name occurs more than three times, the other names are pairwise
    different, and none of them is a beam name followed by a suffix. *)
Theorem beam_columns_suffix_rule (cols : list string) :
  length (rename_beam_columns cols) = length cols ∧
  (∀ i c, cols !! i = Some c →
     rename_beam_columns cols !! i
     = Some (if bool_decide (c ∈ beam_vars)
             then c +:+ suffix_for (count c (drop i cols)) else c)) ∧
  ((∀ b, b ∈ beam_vars → (count b cols ≤ 3)%nat) →
   NoDup (filter (λ c, c ∉ beam_vars) cols) →
   (∀ c b k, c ∈ cols → c ∉ beam_vars → b ∈ beam_vars → c ≠ b +:+ suffix_for k) →
   NoDup (rename_beam_columns cols)).
Proof.
  rewrite rename_beam_columns_spec. split; [apply rename_spec_length|]. split.
  - intros i c Hi. rewrite rename_spec_lookup, Hi. reflexivity.
  - apply rename_spec_NoDup.
Qed.

Lemma beam_columns_suffix_rule_witness :
  rename_beam_columns ["HT"; "RAD"; "CNT"; "RAD"; "RAD"; "CNT"]
  = ["HT"; "RAD1"; "CNT2"; "RAD2"; "RAD3"; "CNT3"]
  ∧ NoDup (rename_beam_columns ["HT"; "RAD"; "CNT"; "RAD"; "RAD"; "CNT"]).
Proof.
  split; [reflexivity|].
  apply (beam_columns_suffix_rule ["HT"; "RAD"; "CNT"; "RAD"; "RAD"; "CNT"]).
  - intros b Hb. unfold beam_vars in Hb.
    repeat (apply elem_of_cons in Hb as [->|Hb]); [vm_compute; lia..|].
    by apply elem_of_nil in Hb.
  - apply (bool_decide_unpack _). vm_compute. exact I.
  - intros c b k Hc Hn Hb.
    repeat (apply elem_of_cons in Hc as [->|Hc]);
      [|exfalso; apply Hn; apply (bool_decide_unpack _); vm_compute; exact I..
       |by apply elem_of_nil in Hc].
    unfold beam_vars in Hb.
    destruct (suffix_for_cases k) as [[-> _]|[[-> _]|[-> _]]];
      repeat (apply elem_of_cons in Hb as [->|Hb]);
      first [discriminate | by apply elem_of_nil in Hb].
Defined.

(** C2 as stated fails: with two occurrences the code gives the first one
    "2" and the second one "3" where the stated rule gives "3" and "2", and with
    four occurrences two columns get the same name. *)
Lemma beam_columns_stated_rule_fails :
  (1 < count "RAD" ["RAD"; "RAD"])%nat
  ∧ rename_beam_columns ["RAD"; "RAD"] = ["RAD2"; "RAD3"]
  ∧ "RAD" +:+ spec_suffix (occurrence ["RAD"; "RAD"] 0 "RAD") = "RAD3"
  ∧ "RAD" +:+ spec_suffix (occurrence ["RAD"; "RAD"] 1 "RAD") = "RAD2"
  ∧ rename_beam_columns ["RAD"; "RAD"; "RAD"; "RAD"]
    = ["RAD1"; "RAD1"; "RAD2"; "RAD3"]
  ∧ ¬ NoDup (rename_beam_columns ["RAD"; "RAD"; "RAD"; "RAD"]).
Proof.
  repeat split; try reflexivity; [vm_compute; lia|].
  intros Hnd. change (NoDup ["RAD1"; "RAD1"; "RAD2"; "RAD3"]) in Hnd.
  apply NoDup_cons in Hnd as [Hnotin _]. apply Hnotin. left.
Qed.

End ColumnNames.

(** ** The error monad *)

Section ResultFacts.

Lemma bind_Ok {A B} (m : result A) (k : A → result B) (r : B) :
  m ≫= k = Ok r → ∃ a, m = Ok a ∧ k a = Ok r.
Proof. destruct m as [a|e]; simpl; [eauto|discriminate]. Qed.

Lemma bind_Raise {A B} (m : result A) (k : A → result B) (e : exn) :
  m = Raise e → m ≫= k = Raise e.
Proof. intros ->. reflexivity. Qed.

Lemma fmap_Ok {A B} (f : A → B) (m : result A) (r : B) :
  f <$> m = Ok r → ∃ a, m = Ok a ∧ r = f a.
Proof. destruct m as [a|e]; simpl; [intros [= <-]; eauto|discriminate]. Qed.

Lemma mapM_Ok_length {A B} (f : A → result B) (l : list A) : ∀ bs,
  mapM f l = Ok bs → length bs = length l.
Proof.
  induction l as [|a l IH]; intros bs H; simpl in H.
  - by injection H as <-.
  - apply bind_Ok in H as (b & _ & H). apply bind_Ok in H as (bs' & Hbs & H).
    injection H as <-. simpl. f_equal. by apply IH.
Qed.

Lemma mapM_Ok_lookup {A B} (f : A → result B) (l : list A) : ∀ bs i b,
  mapM f l = Ok bs → bs !! i = Some b → ∃ a, l !! i = Some a ∧ f a = Ok b.
Proof.
  induction l as [|a l IH]; intros bs i b H Hi; simpl in H.
  - injection H as <-. done.
  - apply bind_Ok in H as (b0 & Hb0 & H). apply bind_Ok in H as (bs' & Hbs & H).
    injection H as <-. destruct i as [|i]; simpl in *.
    + injection Hi as <-. eauto.
    + eapply IH; eauto.
Qed.

Lemma mapM_Ok_fmap {A B} (f : A → result B) (g : A → B) (l : list A) :
  (∀ a, a ∈ l → f a = Ok (g a)) → mapM f l = Ok (g <$> l).
Proof.
  induction l as [|a l IH]; intros H; [reflexivity|]. simpl.
  rewrite (H a) by left. simpl. rewrite IH; [reflexivity|].
  intros x Hx. apply H. by right.
Qed.

Lemma mapM_cons {A B} (f : A → result B) a l :
  mapM f (a :: l) = b ← f a; bs ← mapM f l; Ok (b :: bs).
Proof. reflexivity. Qed.

Lemma foldM_cons {A B} (f : B → A → result B) a l b :
  foldM f (a :: l) b = b' ← f b a; foldM f l b'.
Proof. reflexivity. Qed.

Lemma getitem_Ok {A} (l : list A) i a : getitem l i = Ok a ↔ l !! i = Some a.
Proof. unfold getitem. destruct (l !! i); split; congruence. Qed.

Lemma loc_Ok {A} (l : list A) i a : loc l i = Ok a ↔ l !! i = Some a.
Proof. unfold loc. destruct (l !! i); split; congruence. Qed.

End ResultFacts.

(** Splits a hypothesis [m ≫= k = Ok r] into the steps that returned. *)
Ltac inv_bind H :=
  repeat match type of H with
         | mbind _ _ = Ok _ =>
             let a := fresh "a" in
             let Ha := fresh "Ha" in
             apply bind_Ok in H as (a & Ha & H)
         | (let '(_, _) := ?p in _) = Ok _ => destruct p
         | (match ?p with (_, _) => _ end) = Ok _ => destruct p
         end.

(** ** Concatenation along time *)

Lemma same_label_refl x : same_label x x = true.
Proof. unfold same_label, PrimFloat.is_nan. by destruct (PrimFloat.eqb x x). Qed.

Lemma same_index_refl a : same_index a a = true.
Proof.
  induction a as [|x a IH]; [reflexivity|]. simpl.
  by rewrite same_label_refl, IH.
Qed.

Lemma same_index_length a : ∀ b, same_index a b = true → length a = length b.
Proof.
  induction a as [|x a IH]; intros [|y b]; simpl; try done.
  intros [_ Hab]%andb_prop. f_equal. by apply IH.
Qed.

Lemma length_reindex_cells {B} (fill : B) own joined cells :
  length (reindex_cells fill own joined cells) = length joined.
Proof. unfold reindex_cells. by rewrite length_fmap. Qed.

(** A reindexed variable holds cells it had before, or the fill value. *)
Lemma reindex_cells_from {B} (fill : B) own joined cells y :
  y ∈ reindex_cells fill own joined cells → y = fill ∨ y ∈ cells.
Proof.
  unfold reindex_cells. intros (label & -> & _)%list_elem_of_fmap.
  destruct (get_indexer own label) as [i|]; simpl; [|by left].
  destruct (cells !! i) as [c|] eqn:E; simpl; [|by left].
  right. by eapply list_elem_of_lookup_2.
Qed.

Section Concatenation.

Context `{Xarray} {A : Type} `{Indexed A}.

Lemma xr_concat_inv (l l' : list A) :
  xr_concat l = Ok l' →
  ∃ first rest,
    l = first :: rest
    ∧ ((Forall (λ o, same_index (indexed_by first) (indexed_by o) = true) l
        ∧ l' = assign_coord (indexed_by first) <$> l)
       ∨ (∃ joined, xr_join (indexed_by <$> l) = Ok joined
                    ∧ l' = reindex joined <$> l)).
Proof.
  unfold xr_concat. destruct l as [|first rest]; [discriminate|].
  intros Hc. exists first, rest. split; [reflexivity|].
  destruct (forallb _ rest) eqn:E.
  - left. injection Hc as <-. split; [|reflexivity].
    constructor; [apply same_index_refl|].
    apply Forall_forall. intros o Ho. apply list_elem_of_In in Ho.
    rewrite forallb_forall in E. by apply E.
  - right. apply bind_Ok in Hc as (joined & Hj & Hc). injection Hc as <-. eauto.
Qed.

Lemma xr_concat_length (l l' : list A) :
  xr_concat l = Ok l' → length l' = length l ∧ l ≠ [] ∧ l' ≠ [].
Proof.
  intros Hc. apply xr_concat_inv in Hc
    as (first & rest & -> & [[_ ->]|(joined & _ & ->)]);
    by rewrite length_fmap.
Qed.

(** Members with one and the same index are concatenated as they are. *)
Lemma xr_concat_same (l : list A) :
  l ≠ [] → (∀ a, assign_coord (indexed_by a) a = a) →
  (∀ a b, a ∈ l → b ∈ l → indexed_by a = indexed_by b) →
  xr_concat l = Ok l.
Proof.
  intros Hne Hself Hsame. destruct l as [|first rest]; [done|].
  unfold xr_concat.
  assert (forallb (λ o, same_index (indexed_by first) (indexed_by o)) rest = true)
    as ->.
  { apply forallb_forall. intros o Ho. apply list_elem_of_In in Ho.
    rewrite (Hsame first o); [apply same_index_refl|by left|by right]. }
  f_equal. rewrite <- (list_fmap_id (first :: rest)) at 2.
  apply list_fmap_ext. intros i a Ha. simpl.
  rewrite (Hsame first a); [apply Hself|by left|].
  by eapply list_elem_of_lookup_2.
Qed.

Hypothesis indexed_by_assign : ∀ h (a : A), indexed_by (assign_coord h a) = h.
Hypothesis indexed_by_reindex : ∀ h (a : A), indexed_by (reindex h a) = h.

Lemma xr_concat_stacked (l l' : list A) :
  xr_concat l = Ok l' → Forall2 stacked l l'.
Proof.
  intros Hc. apply xr_concat_inv in Hc
    as (first & rest & Hl & [[Hall ->]|(joined & _ & ->)]).
  - apply Forall2_fmap_r, Forall_Forall2_diag.
    eapply Forall_impl; [exact Hall|]. simpl. intros a Ha. left.
    by rewrite indexed_by_assign.
  - apply Forall2_fmap_r, Forall_Forall2_diag, Forall_forall.
    intros a _. right. by rewrite indexed_by_reindex.
Qed.

(** Every member of a concatenation is one of the datasets it was made of, as
    concatenated. *)
Lemma xr_concat_member (l l' : list A) m :
  xr_concat l = Ok l' → m ∈ l' → ∃ a, a ∈ l ∧ stacked a m.
Proof.
  intros Hc Hm. apply xr_concat_stacked in Hc.
  apply list_elem_of_lookup in Hm as [i Hi].
  destruct (Forall2_lookup_r _ _ _ _ _ Hc Hi) as (a & Ha & Hs).
  exists a. split; [by eapply list_elem_of_lookup_2|exact Hs].
Qed.

(** Under the law of the join, a label of a member's index is a label of
    one of the datasets that were concatenated. *)
Lemma xr_concat_labels (l l' : list A) m label :
  join_law → xr_concat l = Ok l' → m ∈ l' → label ∈ indexed_by m →
  ∃ a, a ∈ l ∧ label ∈ indexed_by a.
Proof.
  intros Hlaw Hc Hm Hl. apply xr_concat_inv in Hc
    as (first & rest & -> & [[Hall ->]|(joined & Hj & ->)]);
    apply list_elem_of_fmap in Hm as (a & -> & Ha).
  - rewrite indexed_by_assign in Hl. exists first. split; [by left|done].
  - rewrite indexed_by_reindex in Hl.
    destruct (Hlaw _ _ _ Hj Hl) as (index & Hin & Hlab).
    apply list_elem_of_fmap in Hin as (a' & -> & Ha'). eauto.
Qed.

End Concatenation.

(** ** The block loop of the wind profiler reader *)

Section WindProfiler.

Context `{Numeric} `{Xarray}.

Lemma block_step_block_at df cols idx acc i :
  block_step df cols idx acc i
  = mb ← block_at df cols idx i;
    Ok (if mb.1 <? 1000 then (acc.1 ++ [mb.2], acc.2) else (acc.1, acc.2 ++ [mb.2])).
Proof.
  unfold block_step, block_at.
  destruct (getitem idx i) as [start|]; simpl; [|reflexivity].
  destruct (getitem idx (i + 1)) as [next|]; simpl; [|reflexivity].
  destruct (parse_block df cols start next) as [[mode b]|]; simpl; [|reflexivity].
  by destruct (mode <? 1000).
Qed.

Lemma block_loop_Ok df cols idx : ∀ l low hi low' hi',
  foldM (block_step df cols idx) l (low, hi) = Ok (low', hi') →
  ∃ bs, mapM (block_at df cols idx) l = Ok bs
        ∧ low' = low ++ (snd <$> filter is_low bs)
        ∧ hi' = hi ++ (snd <$> filter is_high bs).
Proof.
  induction l as [|i l IH]; intros low hi low' hi' Hf.
  - injection Hf as <- <-. exists []. by rewrite !app_nil_r.
  - rewrite foldM_cons, block_step_block_at in Hf.
    destruct (block_at df cols idx i) as [[mode b]|e] eqn:Hb; [|discriminate].
    simpl in Hf. destruct (Z.ltb_spec mode 1000);
      apply IH in Hf as (bs & Hbs & -> & ->);
      (exists ((mode, b) :: bs); split;
       [rewrite mapM_cons, Hb; simpl; by rewrite Hbs|]);
      rewrite !filter_cons;
      repeat case_decide; unfold is_low, is_high in *; simpl in *; try lia;
      by rewrite <- ?app_assoc.
Qed.

Lemma block_loop_mapM df cols idx : ∀ l bs low hi,
  mapM (block_at df cols idx) l = Ok bs →
  foldM (block_step df cols idx) l (low, hi)
  = Ok (low ++ (snd <$> filter is_low bs), hi ++ (snd <$> filter is_high bs)).
Proof.
  induction l as [|i l IH]; intros bs low hi Hm.
  - injection Hm as <-. simpl. by rewrite !app_nil_r.
  - rewrite mapM_cons in Hm.
    apply bind_Ok in Hm as ([mode b] & Hb & Hm).
    apply bind_Ok in Hm as (bs' & Hbs & Hm). injection Hm as <-.
    rewrite foldM_cons, block_step_block_at, Hb. simpl.
    rewrite !filter_cons.
    destruct (Z.ltb_spec mode 1000); rewrite (IH bs' _ _ Hbs);
      repeat case_decide; unfold is_low, is_high in *; simpl in *; try lia;
      by rewrite <- ?app_assoc.
Qed.

Lemma block_loop_Raise df cols idx : ∀ l e acc,
  mapM (block_at df cols idx) l = Raise e →
  foldM (block_step df cols idx) l acc = Raise e.
Proof.
  induction l as [|i l IH]; intros e acc Hm; [discriminate|].
  rewrite mapM_cons in Hm. rewrite foldM_cons, block_step_block_at.
  destruct (block_at df cols idx i) as [[mode b]|e1]; simpl in *; [|congruence].
  destruct (mapM (block_at df cols idx) l) as [bs|e4] eqn:E; simpl in *;
    [discriminate|].
  injection Hm as <-. by apply IH.
Qed.

Lemma modes_partition (bs : list (Z * block_ds)) :
  (length (filter is_low bs) + length (filter is_high bs) = length bs)%nat.
Proof.
  induction bs as [|mb bs IH]; [reflexivity|]. rewrite !filter_cons.
  repeat case_decide; unfold is_low, is_high in *; simpl in *; lia.
Qed.

Lemma all_low_no_high bs : Forall is_low bs → filter is_high bs = [].
Proof.
  induction 1 as [|mb bs Hmb _ IH]; [reflexivity|]. rewrite filter_cons.
  case_decide; unfold is_low, is_high in *; [lia|assumption].
Qed.

Lemma all_high_no_low bs : Forall is_high bs → filter is_low bs = [].
Proof.
  induction 1 as [|mb bs Hmb _ IH]; [reflexivity|]. rewrite filter_cons.
  case_decide; unfold is_low, is_high in *; [lia|assumption].
Qed.

Lemma filter_nonempty_Exists {A} (P : A → Prop) `{∀ x, Decision (P x)} l :
  filter P l ≠ [] → Exists P l.
Proof.
  induction l as [|a l IH]; [done|]. rewrite filter_cons.
  case_decide; [by left|right; auto].
Qed.

Lemma block_assign_self (b : block_ds) : assign_coord (height b) b = b.
Proof. by destruct b. Qed.

Lemma block_concat_member (l l' : list block_ds) m :
  xr_concat l = Ok l' → m ∈ l' → ∃ b, b ∈ l ∧ stacked b m.
Proof. by apply xr_concat_member. Qed.

Lemma block_concat_labels (l l' : list block_ds) m label :
  join_law → xr_concat l = Ok l' → m ∈ l' → label ∈ height m →
  ∃ b, b ∈ l ∧ label ∈ height b.
Proof.
  intros Hlaw Hc Hm Hl.
  exact (@xr_concat_labels _ block_ds block_indexed (λ _ _, eq_refl)
           (λ _ _, eq_refl) l l' m label Hlaw Hc Hm Hl).
Qed.

Lemma stacked_time (b m : block_ds) : stacked b m → time m = time b.
Proof. intros [[Hm _]|Hm]; by rewrite Hm. Qed.

Lemma stacked_names (b m : block_ds) :
  stacked b m → (data_vars m).*1 = (data_vars b).*1.
Proof.
  intros [[Hm _]|Hm]; rewrite Hm; [reflexivity|]. simpl.
  rewrite <- list_fmap_compose. by apply list_fmap_ext.
Qed.

Lemma stacked_lengths (b m : block_ds) :
  stacked b m →
  (∀ name col, (name, col) ∈ data_vars b → length col = length (height b)) →
  ∀ name col, (name, col) ∈ data_vars m → length col = length (height m).
Proof.
  intros [[Hm Hsame]|Hm] Hb name col Hin.
  - apply same_index_length in Hsame. simpl in Hsame. rewrite Hsame.
    apply (Hb name). rewrite Hm in Hin. exact Hin.
  - rewrite Hm in Hin. simpl in Hin.
    apply list_elem_of_fmap in Hin as ([n c] & [= -> ->] & _).
    apply length_reindex_cells.
Qed.

(** A variable of a member holds cells of the block's variable of that
    name, and NaN. *)
Lemma stacked_cells (b m : block_ds) name col :
  stacked b m → (name, col) ∈ data_vars m →
  ∃ col0, (name, col0) ∈ data_vars b ∧ moved_or_filled col0 col.
Proof.
  intros [[Hm _]|Hm] Hin; rewrite Hm in Hin; simpl in Hin.
  - exists col. split; [exact Hin|]. apply Forall_forall. by right.
  - apply list_elem_of_fmap in Hin as ([n c] & [= -> ->] & Hin).
    exists c. split; [exact Hin|]. apply Forall_forall.
    intros y Hy. by apply reindex_cells_from in Hy.
Qed.

(** What a return of the reader says about its block loop. *)
Lemma read_psl_wind_profiler_Ok df transpose low hi :
  read_psl_wind_profiler df transpose = Ok (low, hi) →
  ∃ site header bs,
    df !! 0%nat = Some site ∧ df !! 9%nat = Some header ∧
    mapM (block_at df (rename_beam_columns (split_ws header)) (markers df site))
         (seq 0 (length (markers df site) - 1)) = Ok bs ∧
    xr_concat (snd <$> filter is_low bs) = Ok (members low) ∧
    xr_concat (snd <$> filter is_high bs) = Ok (members hi) ∧
    members low ≠ [] ∧ members hi ≠ [].
Proof.
  unfold read_psl_wind_profiler. intros Hr.
  apply bind_Ok in Hr as (site & Hsite & Hr).
  apply bind_Ok in Hr as (header & Hheader & Hr).
  apply bind_Ok in Hr as ([low0 hi0] & Hloop & Hr).
  apply bind_Ok in Hr as (obj_low & Hlow & Hr).
  apply bind_Ok in Hr as (obj_hi & Hhi & Hr).
  inv_bind Hr. injection Hr as <- <-. simpl.
  apply block_loop_Ok in Hloop as (bs & Hbs & -> & ->).
  apply loc_Ok in Hsite, Hheader. simpl in Hlow, Hhi.
  exists site, header, bs.
  pose proof (xr_concat_length _ _ Hlow) as (_ & _ & Hnl).
  pose proof (xr_concat_length _ _ Hhi) as (_ & _ & Hnh).
  by repeat split.
Qed.

(** A member of either output is a block of the loop, as concatenated. *)
Lemma member_of_loop df transpose low hi m :
  read_psl_wind_profiler df transpose = Ok (low, hi) →
  m ∈ members low ++ members hi →
  ∃ site header bs mode b,
    df !! 0%nat = Some site ∧ df !! 9%nat = Some header ∧
    mapM (block_at df (rename_beam_columns (split_ws header)) (markers df site))
         (seq 0 (length (markers df site) - 1)) = Ok bs ∧
    (mode, b) ∈ bs ∧ stacked b m.
Proof.
  intros Hr Hm.
  apply read_psl_wind_profiler_Ok in Hr
    as (site & header & bs & Hsite & Hheader & Hbs & Hlow & Hhi & _).
  exists site, header, bs.
  apply elem_of_app in Hm as [Hm|Hm];
    [destruct (block_concat_member _ _ _ Hlow Hm) as (b & Hb & Hs)
    |destruct (block_concat_member _ _ _ Hhi Hm) as (b & Hb & Hs)];
    apply list_elem_of_fmap in Hb as ([mode b'] & -> & Hb);
    [apply (list_elem_of_filter is_low) in Hb as [_ Hb]
    |apply (list_elem_of_filter is_high) in Hb as [_ Hb]];
    exists mode, b'; by repeat split.
Qed.

(** A block of the loop is the parse of the lines between two consecutive
    markers. *)
Lemma loop_block df cols idx n bs i mb :
  mapM (block_at df cols idx) (seq 0 n) = Ok bs → bs !! i = Some mb →
  ∃ start next,
    idx !! i = Some start ∧ idx !! S i = Some next
    ∧ parse_block df cols start next = Ok mb.
Proof.
  intros Hbs Hi.
  destruct (mapM_Ok_lookup _ _ _ _ _ Hbs Hi) as (i' & Hi' & Hblock).
  apply lookup_seq in Hi' as [-> Hlt]. simpl in Hblock.
  unfold block_at in Hblock.
  apply bind_Ok in Hblock as (start & Hstart & Hblock).
  apply bind_Ok in Hblock as (next & Hnext & Hblock).
  apply getitem_Ok in Hstart, Hnext. rewrite Nat.add_1_r in Hnext.
  by exists start, next.
Qed.

Lemma retained_blocks_Ok df bs :
  retained_blocks df = Ok bs ↔
  ∃ site header,
    df !! 0%nat = Some site ∧ df !! 9%nat = Some header ∧
    mapM (block_at df (rename_beam_columns (split_ws header)) (markers df site))
         (seq 0 (length (markers df site) - 1)) = Ok bs.
Proof.
  unfold retained_blocks. split.
  - intros Hr. apply bind_Ok in Hr as (site & Hsite & Hr).
    apply bind_Ok in Hr as (header & Hheader & Hr).
    apply loc_Ok in Hsite, Hheader. eauto.
  - intros (site & header & Hsite & Hheader & Hm).
    apply loc_Ok in Hsite, Hheader. rewrite Hsite. simpl.
    rewrite Hheader. exact Hm.
Qed.

(** The marker indexes increase. *)
Lemma imap_filter_sorted (P : nat * string → Prop) `{∀ x, Decision (P x)}
    (l : list string) : ∀ k,
  StronglySorted lt (fst <$> filter P (imap (λ i x, ((k + i)%nat, x)) l))
  ∧ Forall (λ a, (k ≤ a)%nat) (fst <$> filter P (imap (λ i x, ((k + i)%nat, x)) l)).
Proof.
  induction l as [|x l IH]; intros k; simpl; [split; constructor|].
  destruct (IH (S k)) as [Hs Hb].
  rewrite (imap_ext _ (λ i x, ((S k + i)%nat, x))) by (intros; simpl; f_equal; lia).
  rewrite filter_cons. case_decide; simpl.
  - split.
    + constructor; [assumption|]. eapply Forall_impl; [exact Hb|]. simpl. lia.
    + constructor; [lia|]. eapply Forall_impl; [exact Hb|]. simpl. lia.
  - split; [assumption|]. eapply Forall_impl; [exact Hb|]. simpl. lia.
Qed.

Lemma markers_sorted df site : StronglySorted lt (markers df site).
Proof. apply (imap_filter_sorted _ df 0). Qed.

Lemma sorted_lookup_lt (l : list nat) :
  StronglySorted lt l →
  ∀ i j a b, l !! i = Some a → l !! j = Some b → (i < j)%nat → (a < b)%nat.
Proof.
  induction 1 as [|x l Hs IH Hall]; intros i j a b Hi Hj Hij; [done|].
  destruct j as [|j]; [lia|]. destruct i as [|i]; simpl in *.
  - injection Hi as <-. rewrite Forall_forall in Hall. apply Hall.
    by eapply list_elem_of_lookup_2.
  - eapply IH; eauto. lia.
Qed.

Lemma markers_lt df site i j a b :
  markers df site !! i = Some a → markers df site !! j = Some b →
  (i < j)%nat → (a < b)%nat.
Proof. apply sorted_lookup_lt, markers_sorted. Qed.

Lemma dataframe_Ok rows cols fr :
  dataframe rows cols = Ok fr →
  fr = imap (λ j c, (c, column rows j)) cols
  ∧ (rows = [] ∨ Forall (λ r, length r = length cols) rows).
Proof.
  unfold dataframe. destruct rows as [|r rows].
  - case_bool_decide; [|discriminate]. intros [= <-]. auto.
  - destruct (forallb _ _) eqn:E; [|discriminate]. intros [= <-].
    split; [reflexivity|right].
    apply Forall_forall. intros x Hx. apply list_elem_of_In in Hx.
    rewrite forallb_forall in E. specialize (E x Hx).
    by apply bool_decide_eq_true in E.
Qed.

Lemma column_length rows n j :
  Forall (λ r : list float, length r = n) rows → (j < n)%nat →
  length (column rows j) = length rows.
Proof.
  intros Hall Hj. unfold column.
  induction Hall as [|r rows Hr _ IH]; [reflexivity|].
  destruct (lookup_lt_is_Some_2 r j ltac:(lia)) as [x Hx].
  cbn. rewrite Hx. cbn. f_equal. exact IH.
Qed.

Lemma lookup_var_Ok name (fr : list (string * list float)) col :
  lookup_var name fr = Ok col → ∃ i, fr !! i = Some (name, col).
Proof.
  unfold lookup_var. destruct (list_find _ fr) as [[i [c v]]|] eqn:E; [|discriminate].
  intros [= <-]. apply list_find_Some in E as (Hi & Hc & _). simpl in Hc.
  subst c. eauto.
Qed.

Lemma replace_frame_lookup fr i :
  replace_frame fr !! i = (λ cv, (cv.1, replace_sentinel <$> cv.2)) <$> fr !! i.
Proof. unfold replace_frame. by rewrite list_lookup_fmap. Qed.

Lemma parse_block_Ok df cols start next mode b :
  parse_block df cols start next = Ok (mode, b) →
  ∃ rows,
    parse_rows (iloc_slice df (start + 10) (next - 1)) = Ok rows
    ∧ (rows = [] ∨ Forall (λ r, length r = length cols) rows)
    ∧ data_vars b = replace_frame (imap (λ j c, (c, column rows j)) cols)
    ∧ lookup_var "HT" (data_vars b) = Ok (height b)
    ∧ index b = Some <$> seq 0 (length (height b))
    ∧ NoDup (data_vars b).*1.
Proof.
  unfold parse_block. intros Hp. inv_bind Hp.
  unfold block_dataset in *. injection Hp as <- <-.
  match goal with Hd : dataframe _ _ = Ok _ |- _ =>
    apply dataframe_Ok in Hd as [-> Hshape] end.
  match goal with Hb : (if bool_decide _ then _ else _) = Ok _ |- _ =>
    case_bool_decide as Hnd; [|discriminate];
    apply bind_Ok in Hb as (ht & Hht & Hb); injection Hb as <- end.
  simpl. eexists. repeat split; eauto.
Qed.

(** What a block dataset holds, in terms of the lines of its block. *)
Lemma parse_block_height df cols start next mode b :
  parse_block df cols start next = Ok (mode, b) →
  ∃ rows j,
    parse_rows (iloc_slice df (start + 10) (next - 1)) = Ok rows
    ∧ cols !! j = Some "HT"
    ∧ height b = replace_sentinel <$> column rows j
    ∧ length (height b) = length (iloc_slice df (start + 10) (next - 1))
    ∧ lookup_var "HT" (data_vars b) = Ok (height b)
    ∧ index b = Some <$> seq 0 (length (iloc_slice df (start + 10) (next - 1))).
Proof.
  intros Hp. apply parse_block_Ok in Hp as (rows & Hrows & Hshape & Hvars & Hht & Hidx & _).
  pose proof Hht as Hht'. rewrite Hvars in Hht'.
  apply lookup_var_Ok in Hht' as (j & Hj).
  rewrite replace_frame_lookup, list_lookup_imap in Hj.
  destruct (cols !! j) as [c|] eqn:Ec; [|done]. simpl in Hj.
  injection Hj as -> Hh.
  assert (length (height b) = length rows) as Hlen.
  { rewrite <- Hh, length_fmap. destruct Hshape as [->|Hall]; [reflexivity|].
    eapply column_length; [exact Hall|]. by eapply lookup_lt_Some. }
  assert (length rows = length (iloc_slice df (start + 10) (next - 1))) as Hlen'.
  { by apply mapM_Ok_length in Hrows. }
  exists rows, j. repeat split; try done; congruence.
Qed.

Lemma block_concat_one (b : block_ds) : xr_concat [b] = Ok [b].
Proof.
  apply xr_concat_same; [done|apply block_assign_self|].
  intros a b' [->|Ha%elem_of_nil]%elem_of_cons [->|Hb%elem_of_nil]%elem_of_cons;
    done.
Qed.

(** Concatenation keeps the time of each block. *)
Lemma concat_times (l l' : list block_ds) :
  xr_concat l = Ok l' → time <$> l' = time <$> l.
Proof.
  intros Hc. apply xr_concat_stacked in Hc; [|done..].
  induction Hc as [|b m l l' Hs _ IH]; [reflexivity|].
  cbn. by rewrite (stacked_time _ _ Hs), IH.
Qed.

(** C5.  When [read_psl_wind_profiler] returns on a file whose marker line
    occurs at [M] line indexes, its loop has parsed exactly the [M - 1] blocks
    between consecutive markers, in order: block [i] runs from marker [i] to
    marker [i + 1].  The two datasets hold these blocks, split by mode, so
    they hold [M - 1] time entries together, and every block they hold starts
    before the last marker: the block that starts at the last marker is in
    neither dataset.  (A dataset holds its blocks as [xr.concat] leaves them:
    under a common height coordinate.) *)
Theorem last_block_excluded (df : list string) (transpose : bool)
    (low hi : profiler_ds) :
  read_psl_wind_profiler df transpose = Ok (low, hi) →
  ∃ site header bs,
    df !! 0%nat = Some site ∧ df !! 9%nat = Some header ∧
    length bs = (length (markers df site) - 1)%nat ∧
    (∀ i mb, bs !! i = Some mb →
       ∃ start next,
         markers df site !! i = Some start ∧
         markers df site !! S i = Some next ∧
         parse_block df (rename_beam_columns (split_ws header)) start next = Ok mb ∧
         ∀ last_marker, last (markers df site) = Some last_marker →
                        (start < last_marker)%nat ∧ (next ≤ last_marker)%nat) ∧
    xr_concat (snd <$> filter is_low bs) = Ok (members low) ∧
    xr_concat (snd <$> filter is_high bs) = Ok (members hi) ∧
    time <$> members low = time <$> (snd <$> filter is_low bs) ∧
    time <$> members hi = time <$> (snd <$> filter is_high bs) ∧
    (length (members low) + length (members hi)
     = length (markers df site) - 1)%nat.
Proof.
  intros Hr.
  apply read_psl_wind_profiler_Ok in Hr
    as (site & header & bs & Hsite & Hheader & Hbs & Hlow & Hhi & _).
  exists site, header, bs.
  pose proof (mapM_Ok_length _ _ _ Hbs) as Hlen. rewrite length_seq in Hlen.
  pose proof (concat_times _ _ Hlow) as Htl.
  pose proof (concat_times _ _ Hhi) as Hth.
  repeat split; try assumption.
  - intros i mb Hi.
    destruct (mapM_Ok_lookup _ _ _ _ _ Hbs Hi) as (i' & Hi' & Hblock).
    apply lookup_seq in Hi' as [-> Hlt]. simpl in Hblock.
    unfold block_at in Hblock.
    apply bind_Ok in Hblock as (start & Hstart & Hblock).
    apply bind_Ok in Hblock as (next & Hnext & Hblock).
    apply getitem_Ok in Hstart, Hnext. rewrite Nat.add_1_r in Hnext.
    exists start, next. do 3 (split; [assumption|]).
    intros last_marker Hlast. rewrite last_lookup in Hlast. split.
    + eapply markers_lt; [exact Hstart|exact Hlast|lia].
    + destruct (decide (S i = pred (length (markers df site)))) as [E|E].
      * rewrite E in Hnext. assert (next = last_marker) by congruence. lia.
      * apply Nat.lt_le_incl. eapply markers_lt; [exact Hnext|exact Hlast|lia].
  - apply (f_equal length) in Htl, Hth. rewrite !length_fmap in Htl, Hth.
    rewrite Htl, Hth, modes_partition. exact Hlen.
Qed.

(** C10.  [read_psl_wind_profiler] returns its pair of datasets only when
    the blocks its loop retains (the first [M - 1]) hold a low-mode block and
    a high-mode block; when the retained blocks are all of one mode, or
    there is none, the concatenation of the empty list raises and nothing is
    returned. *)
Theorem both_modes_required (df : list string) (transpose : bool) :
  (∀ low hi, read_psl_wind_profiler df transpose = Ok (low, hi) →
     ∃ bs, retained_blocks df = Ok bs ∧ Exists is_low bs ∧ Exists is_high bs)
  ∧ (∀ bs, retained_blocks df = Ok bs →
       Forall is_low bs ∨ Forall is_high bs →
       raises (read_psl_wind_profiler df transpose)).
Proof.
  split.
  - intros low hi Hr.
    apply read_psl_wind_profiler_Ok in Hr
      as (site & header & bs & Hsite & Hheader & Hbs & Hlow & Hhi & Hnl & Hnh).
    exists bs. split; [apply retained_blocks_Ok; eauto|].
    apply xr_concat_length in Hlow as (_ & Hl & _), Hhi as (_ & Hh & _). split.
    + apply (filter_nonempty_Exists is_low). intros E. by rewrite E in Hl.
    + apply (filter_nonempty_Exists is_high). intros E. by rewrite E in Hh.
  - intros bs Hbs Hmode.
    apply retained_blocks_Ok in Hbs as (site & header & Hsite & Hheader & Hbs).
    apply loc_Ok in Hsite, Hheader.
    unfold read_psl_wind_profiler. rewrite Hsite. simpl. rewrite Hheader. simpl.
    rewrite (block_loop_mapM _ _ _ _ _ [] [] Hbs). simpl.
    destruct Hmode as [Hall|Hall].
    + rewrite (all_low_no_high _ Hall). simpl.
      destruct (xr_concat (filter is_low bs).*2) as [obj_low|e];
        simpl; [exists ValueError|exists e]; reflexivity.
    + rewrite (all_high_no_low _ Hall). simpl. by exists ValueError.
Qed.

(** C8 (as amended).  On a file with a single block, or none (at most two
    marker lines), [read_psl_wind_profiler] raises.  Whenever it returns,
    every block its loop retains comes from the lines between two consecutive
    markers [start] and [next]; it has as many height levels as the block has
    table rows (the lines from [start + 10] up to, not including,
    [next - 1]), and its height coordinate is the table's [HT] column with
    the sentinel replaced by NaN.  Each output is the concatenation of the
    blocks of its mode and has one time value for each of them.  When these
    blocks have one and the same height column, in particular when there is
    one block only, the output holds them as they are: [N] height levels for
    [N] table rows.  Otherwise every block is reindexed on the outer join of
    the height columns, and the output has as many height levels as the
    join.  On a file with three markers each output holds exactly its one
    block and one time value. *)
Theorem block_height_levels (df : list string) (transpose : bool) :
  ((length (markers df (default "" (df !! 0%nat))) ≤ 2)%nat →
   raises (read_psl_wind_profiler df transpose))
  ∧ ∀ low hi,
      read_psl_wind_profiler df transpose = Ok (low, hi) →
      ∃ site header bs,
        df !! 0%nat = Some site ∧ df !! 9%nat = Some header ∧
        retained_blocks df = Ok bs ∧
        (∀ i mb, bs !! i = Some mb →
           ∃ start next rows j,
             markers df site !! i = Some start ∧
             markers df site !! S i = Some next ∧
             parse_rows (iloc_slice df (start + 10) (next - 1)) = Ok rows ∧
             rename_beam_columns (split_ws header) !! j = Some "HT" ∧
             height mb.2 = replace_sentinel <$> column rows j ∧
             lookup_var "HT" (data_vars mb.2) = Ok (height mb.2) ∧
             length (height mb.2)
             = length (iloc_slice df (start + 10) (next - 1)) ∧
             index mb.2
             = Some <$> seq 0 (length (iloc_slice df (start + 10) (next - 1)))) ∧
        (∀ out blocks,
           (out, blocks) ∈ [(low, snd <$> filter is_low bs);
                            (hi, snd <$> filter is_high bs)] →
           time <$> members out = time <$> blocks
           ∧ ((∀ b b', b ∈ blocks → b' ∈ blocks → height b = height b') →
              members out = blocks)
           ∧ ((∃ first,
                 head blocks = Some first
                 ∧ Forall (λ b, same_index (height first) (height b) = true) blocks
                 ∧ members out = assign_coord (height first) <$> blocks)
              ∨ (∃ joined,
                   xr_join (height <$> blocks) = Ok joined
                   ∧ members out = reindex joined <$> blocks
                   ∧ ∀ m, m ∈ members out →
                          height m = joined
                          ∧ ∀ name col, (name, col) ∈ data_vars m →
                                        length col = length joined))) ∧
        (length (markers df site) = 3%nat →
         ∃ mb_low mb_hi,
           mb_low ∈ bs ∧ mb_hi ∈ bs ∧
           members low = [mb_low.2] ∧ members hi = [mb_hi.2]).
Proof.
  split.
  - intros HM.
    destruct (read_psl_wind_profiler df transpose) as [[low hi]|e] eqn:Hr;
      [exfalso|by exists e].
    apply read_psl_wind_profiler_Ok in Hr
      as (site & header & bs & Hsite & _ & Hbs & Hlow & Hhi & _).
    rewrite Hsite in HM. simpl in HM.
    pose proof (mapM_Ok_length _ _ _ Hbs) as Hlen. rewrite length_seq in Hlen.
    pose proof (modes_partition bs) as Hpart.
    apply xr_concat_length in Hlow as (_ & Hl & _), Hhi as (_ & Hh & _).
    destruct (filter is_low bs); [done|]. destruct (filter is_high bs); [done|].
    simpl in Hpart. lia.
  - intros low hi Hr.
    apply read_psl_wind_profiler_Ok in Hr
      as (site & header & bs & Hsite & Hheader & Hbs & Hlow & Hhi & Hnl & Hnh).
    exists site, header, bs. do 2 (split; [assumption|]).
    split; [apply retained_blocks_Ok; eauto|]. split; [|split].
    + intros i [mode b] Hi.
      destruct (mapM_Ok_lookup _ _ _ _ _ Hbs Hi) as (i' & Hi' & Hblock).
      apply lookup_seq in Hi' as [-> Hlt]. simpl in Hblock.
      unfold block_at in Hblock.
      apply bind_Ok in Hblock as (start & Hstart & Hblock).
      apply bind_Ok in Hblock as (next & Hnext & Hblock).
      apply getitem_Ok in Hstart, Hnext. rewrite Nat.add_1_r in Hnext.
      apply parse_block_height in Hblock
        as (rows & j & Hrows & Hj & Hh & Hlen & Hht & Hidx).
      exists start, next, rows, j. by repeat split.
    + assert (∀ out blocks,
                xr_concat blocks = Ok (members out) →
                time <$> members out = time <$> blocks
                ∧ ((∀ b b', b ∈ blocks → b' ∈ blocks → height b = height b') →
                   members out = blocks)
                ∧ ((∃ first,
                      head blocks = Some first
                      ∧ Forall (λ b, same_index (height first) (height b) = true)
                               blocks
                      ∧ members out = assign_coord (height first) <$> blocks)
                   ∨ (∃ joined,
                        xr_join (height <$> blocks) = Ok joined
                        ∧ members out = reindex joined <$> blocks
                        ∧ ∀ m, m ∈ members out →
                               height m = joined
                               ∧ ∀ name col, (name, col) ∈ data_vars m →
                                             length col = length joined))) as Hout.
      { intros out blocks Hc. split; [by apply concat_times|]. split.
        - intros Hsame.
          pose proof (xr_concat_length _ _ Hc) as (_ & Hne & _).
          rewrite (xr_concat_same blocks Hne block_assign_self Hsame) in Hc.
          by injection Hc.
        - apply xr_concat_inv in Hc
            as (first & rest & -> & [[Hall Hm]|(joined & Hj & Hm)]).
          + left. exists first. by repeat split.
          + right. exists joined. do 2 (split; [assumption|]).
            intros m Hin. rewrite Hm in Hin.
            apply list_elem_of_fmap in Hin as (b & -> & _).
            split; [reflexivity|]. simpl. intros name col Hcol.
            apply list_elem_of_fmap in Hcol as ([n c] & [= -> ->] & _).
            apply length_reindex_cells. }
      intros out blocks Hin.
      apply elem_of_cons in Hin as [[= -> ->]|Hin]; [by apply Hout|].
      apply elem_of_cons in Hin as [[= -> ->]|Hin]; [by apply Hout|].
      by apply elem_of_nil in Hin.
    + intros HM.
      pose proof (mapM_Ok_length _ _ _ Hbs) as Hlen. rewrite length_seq, HM in Hlen.
      pose proof (modes_partition bs) as Hpart.
      pose proof (xr_concat_length _ _ Hlow) as (_ & Hl & _).
      pose proof (xr_concat_length _ _ Hhi) as (_ & Hh & _).
      destruct (filter is_low bs) as [|mb_low ll] eqn:El; [done|].
      destruct (filter is_high bs) as [|mb_hi hh] eqn:Eh; [done|].
      assert (ll = []) as -> by (destruct ll; [done|simpl in *; lia]).
      assert (hh = []) as -> by (destruct hh; [done|simpl in *; lia]).
      exists mb_low, mb_hi.
      assert (mb_low ∈ bs) as Hil.
      { apply (list_elem_of_filter is_low bs mb_low). rewrite El. by left. }
      assert (mb_hi ∈ bs) as Hih.
      { apply (list_elem_of_filter is_high bs mb_hi). rewrite Eh. by left. }
      do 2 (split; [assumption|]).
      cbn [fmap list_fmap] in Hlow, Hhi.
      rewrite block_concat_one in Hlow, Hhi.
      injection Hlow as <-. injection Hhi as <-. by split.
Qed.

End WindProfiler.

Lemma last_block_excluded_witness :
  ∃ low hi,
    read_psl_wind_profiler profiler_two_blocks true = Ok (low, hi)
    ∧ (length (members low) + length (members hi) = 2)%nat.
Proof.
  destruct (read_psl_wind_profiler profiler_two_blocks true) as [[low hi]|e] eqn:E;
    [|vm_compute in E; discriminate E].
  exists low, hi. split; [reflexivity|].
  destruct (last_block_excluded _ _ _ _ E)
    as (site & header & bs & Hsite & _ & _ & _ & _ & _ & _ & _ & Hsum).
  injection Hsite as <-. exact Hsum.
Defined.

Lemma both_modes_required_witness :
  raises (read_psl_wind_profiler profiler_single_block true).
Proof.
  destruct (retained_blocks profiler_single_block) as [bs|e] eqn:E;
    [|vm_compute in E; discriminate E].
  apply (both_modes_required profiler_single_block true) with bs; [exact E|].
  left. vm_compute in E. injection E as <-.
  repeat constructor; unfold is_low; simpl; lia.
Defined.

Lemma block_height_levels_witness :
  raises (read_psl_wind_profiler profiler_single_block true)
  ∧ ∃ low hi,
      read_psl_wind_profiler profiler_two_blocks true = Ok (low, hi)
      ∧ length (members low) = 1%nat ∧ length (members hi) = 1%nat.
Proof.
  split.
  - apply (proj1 (block_height_levels profiler_single_block true)).
    vm_compute. lia.
  - assert (returns (read_psl_wind_profiler profiler_two_blocks true))
      as [[low hi] Hr].
    { unfold returns. vm_compute. eexists. reflexivity. }
    exists low, hi. split; [exact Hr|].
    destruct (proj2 (block_height_levels profiler_two_blocks true) low hi Hr)
      as (site & header & bs & Hsite & _ & _ & _ & _ & Hone).
    injection Hsite as <-.
    destruct Hone as (mb_low & mb_hi & _ & _ & -> & ->); [reflexivity|].
    by split.
Defined.

(** Two low-mode blocks of two rows on different height grids: the low-mode
    output has the three levels of the join, and each block has NaN at the
    level it lacks. *)
Example blocks_on_two_grids :
  (λ out, (λ m, (height m, data_vars m, index m)) <$> members out.1)
    <$> read_psl_wind_profiler profiler_two_grids true
  = Ok [([0.143; 0.2; 0.3]%float,
         [("HT", [0.143; 0.2; nan]%float); ("SPD", [1.5; 2.5; nan]%float)],
         [Some 0%nat; Some 1%nat; None]);
        ([0.143; 0.2; 0.3]%float,
         [("HT", [0.143; nan; 0.3]%float); ("SPD", [3.5; nan; 4.5]%float)],
         [Some 0%nat; None; Some 1%nat])].
Proof. vm_compute. reflexivity. Qed.

(** C8 as stated fails: on a file with a single block the reader returns
    nothing.  The block is parsed (mode 62, two table rows), the list of
    high-mode blocks stays empty, and its concatenation raises. *)
Lemma single_block_returns_nothing :
  length (markers profiler_single_block "CTD") = 2%nat
  ∧ length (iloc_slice profiler_single_block 10 12) = 2%nat
  ∧ read_psl_wind_profiler profiler_single_block true = Raise ValueError
  ∧ read_psl_wind_profiler (take 13 profiler_single_block) true = Raise ValueError.
Proof. repeat split; vm_compute; reflexivity. Qed.

(** ** The temperature reader *)

Section Temperature.

Context `{Numeric} `{Pandas} `{Xarray}.

Lemma mapM_raises {A B} (f : A → result B) (l : list A) a :
  a ∈ l → raises (f a) → raises (mapM f l).
Proof.
  induction l as [|x l IH]; intros Hin Hr; [by apply elem_of_nil in Hin|].
  rewrite mapM_cons. apply elem_of_cons in Hin as [->|Hin].
  - destruct Hr as [e ->]. by exists e.
  - destruct (f x) as [b|e]; [|by exists e]. simpl.
    destruct (IH Hin Hr) as [e ->]. by exists e.
Qed.

Lemma parse_date_line_malformed line :
  malformed_date_line line → raises (parse_date_line line).
Proof.
  unfold parse_date_line. intros [Hlen|(t & Hin & Hr)].
  - destruct (mapM np_int _) as [fields|e] eqn:E; [|by exists e]. simpl.
    apply mapM_Ok_length in E. rewrite <- E in Hlen.
    destruct fields as [|? [|? [|? [|? [|? [|? [|? [|? ?]]]]]]]];
      simpl in *; first [lia | by exists ValueError].
  - destruct (mapM_raises np_int _ t Hin Hr) as [e ->]. by exists e.
Qed.

Lemma raises_bind {A B} (m : result A) (k : A → result B) :
  raises m → raises (m ≫= k).
Proof. intros [e ->]. by exists e. Qed.

Lemma raises_bind_cont {A B} (m : result A) (k : A → result B) :
  (∀ a, m = Ok a → raises (k a)) → raises (m ≫= k).
Proof. destruct m as [a|e]; intros Hk; [by apply Hk|by exists e]. Qed.

(** A section with a malformed date line is not parsed. *)
Lemma parse_section_malformed filepath lines line_offset line :
  lines !! 3%nat = Some line → malformed_date_line line →
  raises (parse_psl_temperature_lines filepath lines line_offset).
Proof.
  intros Hline Hbad. unfold parse_psl_temperature_lines.
  apply raises_bind_cont. intros site _.
  apply raises_bind_cont. intros l1 _.
  apply raises_bind_cont. intros [[datatype ?] version] _.
  apply raises_bind_cont. intros l2 _.
  apply raises_bind_cont. intros loc3 _.
  apply raises_bind_cont. intros [[latitude longitude] elevation] _.
  apply raises_bind_cont. intros l3 Hl3.
  apply getitem_Ok in Hl3. assert (l3 = line) as -> by congruence.
  apply raises_bind. by apply parse_date_line_malformed.
Qed.

Lemma foldM_raises {A B} (f : B → A → result B) (l : list A) a :
  a ∈ l → (∀ b, raises (f b a)) → ∀ b, raises (foldM f l b).
Proof.
  induction l as [|x l IH]; intros Hin Hr b; [by apply elem_of_nil in Hin|].
  rewrite foldM_cons. apply elem_of_cons in Hin as [->|Hin].
  - by apply raises_bind.
  - apply raises_bind_cont. intros b' _. by apply IH.
Qed.

(** C9.  A temperature file with a data section (a section that does not
    begin with the separator) whose fourth line, the date line, is malformed
    makes [read_psl_wind_profiler_temperature] raise: no dataset is returned,
    whatever the sections before it hold. *)
Theorem malformed_date_line_fails (filepath section : list string)
    (first line : string) :
  section ∈ sections_of_file filepath →
  section !! 0%nat = Some first → first ≠ "$" →
  section !! 3%nat = Some line → malformed_date_line line →
  raises (read_psl_wind_profiler_temperature filepath).
Proof.
  intros Hin Hfirst Hdata Hline Hbad.
  unfold read_psl_wind_profiler_temperature.
  apply raises_bind. apply (foldM_raises _ _ section Hin).
  intros acc. unfold section_step.
  apply getitem_Ok in Hfirst. rewrite Hfirst. simpl.
  unfold not_dollar, str_eqb. rewrite bool_decide_false by assumption. simpl.
  apply raises_bind. by eapply parse_section_malformed.
Qed.

End Temperature.

Lemma malformed_date_line_fails_witness :
  raises (read_psl_wind_profiler_temperature rass_bad_date).
Proof.
  apply (malformed_date_line_fails rass_bad_date
           (rass_section " 21 08 xx 07 00 01    0")
           "CTD" " 21 08 xx 07 00 01    0").
  - apply (bool_decide_unpack _). vm_compute. exact I.
  - reflexivity.
  - discriminate.
  - reflexivity.
  - right. exists "xx". split.
    + apply (bool_decide_unpack _). vm_compute. exact I.
    + exists ValueError. reflexivity.
Defined.

Example rass_two_sections_read :
  (λ dss, (length dss, length ∘ t_HT <$> dss, t_time <$> dss))
    <$> read_psl_wind_profiler_temperature rass_two_sections
  = Ok (2%nat, [2%nat; 2%nat],
        [mk_datetime 738031 6 0 1 0; mk_datetime 738031 7 0 1 0]).
Proof. vm_compute. reflexivity. Qed.

Example rass_bad_date_read :
  read_psl_wind_profiler_temperature rass_bad_date = Raise ValueError.
Proof. vm_compute. reflexivity. Qed.

(** ** The radar reader *)

Section Radar.

Context `{Numeric}.

Lemma stmt_bind_eq {A B} (m : stmt A) (k : A → stmt B) data :
  (m ≫= k) data
  = match m data with
    | (data', Ok a) => k a data'
    | (data', Raise e) => (data', Raise e)
    end.
Proof. reflexivity. Qed.

Lemma stmt_bind_ext {A B} (m m' : stmt A) (k k' : A → stmt B) data :
  m data = m' data → (∀ a data', k a data' = k' a data') →
  (m ≫= k) data = (m' ≫= k') data.
Proof.
  intros Hm Hk. rewrite !stmt_bind_eq, Hm.
  destruct (m' data) as [data' [a|e]]; [apply Hk|reflexivity].
Qed.

(** The header loop stores the tokens as they are unless one is spelled
    [lat] or [lon]. *)
Lemma store_h1_verbatim (df : list string) : ∀ ctr data,
  Forall (λ d, d ≠ "lat" ∧ d ≠ "lon") df →
  store_h1 df ctr data = store_header h1_names df ctr data.
Proof.
  induction df as [|d df IH]; intros ctr data Hall; [reflexivity|].
  apply Forall_cons in Hall as [[Hlat Hlon] Hall]. simpl.
  destruct (0 <? String.length d)%nat; [|by apply IH].
  unfold str_eqb. rewrite !bool_decide_false by assumption. simpl.
  rewrite !stmt_bind_eq. unfold lift.
  destruct (getitem h1_names ctr) as [name|e]; [|reflexivity].
  rewrite !stmt_bind_eq.
  destruct (append name (VStr d) data) as [data2 [[]|e]]; [|reflexivity].
  by apply IH.
Qed.

End Radar.

(** *** What a record leaves in [data]['time'] *)

Section RecordTime.

Context `{Numeric} `{Pandas}.

Lemma stmt_bind_inv {A B} (m : stmt A) (k : A → stmt B) d d' r :
  (m ≫= k) d = (d', r) →
  (∃ a d1, m d = (d1, Ok a) ∧ k a d1 = (d', r))
  ∨ (∃ e, m d = (d', Raise e) ∧ r = Raise e).
Proof.
  rewrite stmt_bind_eq. destruct (m d) as [d1 [a|e]]; intros Hk.
  - left. eauto.
  - right. injection Hk as <- <-. eauto.
Qed.

Lemma preserves_ret k {A} (a : A) : preserves k (mret a : stmt A).
Proof. intros d d' r [= <- _]. reflexivity. Qed.

Lemma preserves_lift k {A} (x : result A) : preserves k (lift x).
Proof. intros d d' r [= <- _]. reflexivity. Qed.

Lemma preserves_bind k {A B} (m : stmt A) (f : A → stmt B) :
  preserves k m → (∀ a, preserves k (f a)) → preserves k (m ≫= f).
Proof.
  intros Hm Hf d d' r Hb.
  apply stmt_bind_inv in Hb as [(a & d1 & Hm1 & Hk)|(e & Hm1 & _)].
  - rewrite (Hf _ _ _ _ Hk). by eapply Hm.
  - by eapply Hm.
Qed.

Lemma preserves_append k name v : name ≠ k → preserves k (append name v).
Proof.
  intros Hne d d' r. unfold append. destruct (d !! name).
  - intros [= <- _]. by rewrite lookup_insert_ne.
  - intros [= <- _]. reflexivity.
Qed.

Lemma preserves_set_data k name l : name ≠ k → preserves k (set_data name l).
Proof. intros Hne d d' r [= <- _]. by rewrite lookup_insert_ne. Qed.

Lemma preserves_get_data k name : preserves k (get_data name).
Proof.
  intros d d' r. unfold get_data. destruct (d !! name); by intros [= <- _].
Qed.

Lemma preserves_last_data k name : preserves k (last_data name).
Proof.
  apply preserves_bind; [apply preserves_get_data|]. intros. apply preserves_lift.
Qed.

Lemma preserves_last_int k name : preserves k (last_int name).
Proof.
  apply preserves_bind; [apply preserves_last_data|]. intros. apply preserves_lift.
Qed.

Lemma preserves_last_float k name : preserves k (last_float name).
Proof.
  apply preserves_bind; [apply preserves_last_data|]. intros. apply preserves_lift.
Qed.

Lemma preserves_bind_ok k {A B} (m : stmt A) (f : A → stmt B) :
  preserves k m → (∀ a d d1, m d = (d1, Ok a) → preserves k (f a)) →
  preserves k (m ≫= f).
Proof.
  intros Hm Hf d d' r Hb.
  apply stmt_bind_inv in Hb as [(a & d1 & Hm1 & Hk)|(e & Hm1 & _)].
  - rewrite (Hf _ _ _ Hm1 _ _ _ Hk). by eapply Hm.
  - by eapply Hm.
Qed.

Lemma lift_getitem_Ok {A} (l : list A) i a d d1 :
  lift (getitem l i) d = (d1, Ok a) → a ∈ l.
Proof.
  unfold lift. intros [= _ Hg]. apply getitem_Ok in Hg.
  by eapply list_elem_of_lookup_2.
Qed.

Lemma preserves_store_header k h_names df : ∀ ctr,
  k ∉ h_names → preserves k (store_header h_names df ctr).
Proof.
  induction df as [|d df IH]; intros ctr Hk; [apply preserves_ret|]. simpl.
  destruct (0 <? String.length d)%nat; [|by apply IH].
  apply preserves_bind_ok; [apply preserves_lift|]. intros name d0 d1 Hname.
  apply lift_getitem_Ok in Hname.
  apply preserves_bind; [|intros; by apply IH].
  apply preserves_append. intros ->. contradiction.
Qed.

Lemma preserves_store_channels k df ns :
  k ∉ ns → preserves k (store_channels df ns).
Proof.
  induction ns as [|n ns IH]; intros Hk; [apply preserves_ret|]. simpl.
  apply not_elem_of_cons in Hk as [Hne Hk].
  apply preserves_bind; [apply preserves_lift|]. intros col.
  apply preserves_bind; [by apply preserves_append|]. intros. by apply IH.
Qed.

Lemma not_in_names (k : string) (ns : list string) :
  bool_decide (k ∉ ns) = true → k ∉ ns.
Proof. apply bool_decide_eq_true. Qed.

Lemma preserves_read_record f ct : preserves "time" (read_record f ct).
Proof.
  unfold read_record. destruct (ct =? 0)%nat.
  - apply preserves_bind; [apply preserves_lift|]. intros.
    apply preserves_bind; [by apply preserves_store_header, not_in_names|]. intros.
    apply preserves_bind; [apply preserves_lift|]. intros.
    apply preserves_bind; [by apply preserves_store_header, not_in_names|]. intros.
    apply preserves_bind; [apply preserves_last_int|]. intros. apply preserves_lift.
  - apply preserves_bind; [apply preserves_last_int|]. intros.
    apply preserves_bind; [apply preserves_lift|]. intros.
    apply preserves_bind; [by apply preserves_store_header, not_in_names|]. intros.
    apply preserves_bind; [apply preserves_lift|]. intros.
    apply preserves_bind; [by apply preserves_store_header, not_in_names|]. intros.
    apply preserves_bind; [apply preserves_last_int|]. intros. apply preserves_lift.
Qed.

Lemma preserves_store_range : preserves "time" store_range.
Proof.
  unfold store_range. apply preserves_bind; [apply preserves_get_data|]. intros r.
  case_bool_decide; [|apply preserves_ret].
  apply preserves_bind; [apply preserves_last_float|]. intros.
  apply preserves_bind; [apply preserves_last_int|]. intros.
  apply preserves_bind; [apply preserves_last_float|]. intros.
  by apply preserves_set_data.
Qed.

Lemma preserves_record_time k : preserves k record_time.
Proof.
  unfold record_time.
  apply preserves_bind; [apply preserves_last_data|]. intros.
  apply preserves_bind; [apply preserves_lift|]. intros.
  apply preserves_bind; [apply preserves_last_int|]. intros.
  apply preserves_bind; [apply preserves_last_int|]. intros.
  apply preserves_bind; [apply preserves_last_int|]. intros.
  apply preserves_bind; [apply preserves_lift|]. intros.
  apply preserves_bind; [apply preserves_last_int|]. intros.
  apply preserves_lift.
Qed.

Lemma preserves_store_reflectivity : preserves "time" store_reflectivity.
Proof.
  unfold store_reflectivity.
  apply preserves_bind; [apply preserves_last_data|]. intros.
  apply preserves_bind; [apply preserves_get_data|]. intros.
  apply preserves_bind; [apply preserves_lift|]. intros.
  by apply preserves_append.
Qed.

(** The statements after the time stamp raise no empty read. *)
Lemma as_floats_no_empty_read l : as_floats l ≠ Raise EmptyDataError.
Proof.
  unfold as_floats. induction l as [|c l IH]; [discriminate|].
  rewrite mapM_cons. destruct c; simpl; try discriminate;
    destruct (mapM _ l); simpl; congruence.
Qed.

Lemma broadcast_sub_no_empty_read a b : broadcast_sub a b ≠ Raise EmptyDataError.
Proof.
  unfold broadcast_sub. case_bool_decide; [discriminate|].
  destruct a as [|? [|? ?]], b as [|? [|? ?]]; discriminate.
Qed.

Lemma store_reflectivity_no_empty_read : no_empty_read store_reflectivity.
Proof.
  intros d d' Hs. unfold store_reflectivity in Hs.
  apply stmt_bind_inv in Hs as [(snr & d1 & Hsnr & Hs)|(e & Hsnr & [= <-])].
  - apply stmt_bind_inv in Hs as [(rng & d2 & Hrng & Hs)|(e & Hrng & [= <-])].
    + apply stmt_bind_inv in Hs as [(rc & d3 & Hrc & Hs)|(e & Hrc & [= <-])].
      * revert Hs. unfold append. destruct (d3 !! _); discriminate.
      * revert Hrc. unfold lift. intros [= _ Hrc]. destruct snr; try discriminate.
        destruct (as_floats l) as [a|e] eqn:E; simpl in Hrc.
        -- by apply broadcast_sub_no_empty_read in Hrc.
        -- injection Hrc as ->. by apply as_floats_no_empty_read in E.
    + revert Hrng. unfold get_data. destruct (d1 !! _); discriminate.
  - apply stmt_bind_inv in Hsnr as [(l & d1 & Hl & Hsnr)|(e & Hl & [= <-])].
    + revert Hsnr. unfold lift, getlast. destruct (last l); discriminate.
    + revert Hl. unfold get_data. destruct (d !! _); discriminate.
Qed.

(** A record either leaves the time entries as they were, and then it
    raised, or adds one time stamp, and then it did not end in an empty
    read. *)
Lemma record_body_time f ct d d' r :
  record_body f ct d = (d', r) →
  (d' !! "time" = d !! "time" ∧ ∃ e, r = Raise e)
  ∨ (∃ l t, d !! "time" = Some l ∧ d' !! "time" = Some (l ++ [VTime t])
            ∧ r ≠ Raise EmptyDataError).
Proof.
  unfold record_body. intros Hb.
  apply stmt_bind_inv in Hb as [(df & d1 & H1 & Hb)|(e & H1 & ->)];
    [|left; split; [by eapply preserves_read_record|eauto]].
  assert (d1 !! "time" = d !! "time") as E1
    by (by eapply preserves_read_record).
  apply stmt_bind_inv in Hb as [([] & d2 & H2 & Hb)|(e & H2 & ->)].
  2: { left. split; [|eauto]. rewrite <- E1.
       eapply preserves_store_channels; [|exact H2]. by apply not_in_names. }
  assert (d2 !! "time" = d !! "time") as E2.
  { rewrite <- E1. eapply preserves_store_channels; [|exact H2].
    by apply not_in_names. }
  apply stmt_bind_inv in Hb as [([] & d3 & H3 & Hb)|(e & H3 & ->)].
  2: { left. split; [|eauto]. rewrite <- E2. by eapply preserves_store_range. }
  assert (d3 !! "time" = d !! "time") as E3.
  { rewrite <- E2. by eapply preserves_store_range. }
  apply stmt_bind_inv in Hb as [(t & d4 & H4 & Hb)|(e & H4 & ->)].
  2: { left. split; [|eauto]. rewrite <- E3. by eapply preserves_record_time. }
  assert (d4 !! "time" = d !! "time") as E4.
  { rewrite <- E3. by eapply preserves_record_time. }
  apply stmt_bind_inv in Hb as [([] & d5 & H5 & Hb)|(e & H5 & ->)].
  - right. revert H5. unfold append.
    destruct (d4 !! "time") as [l|] eqn:E; [|discriminate]. intros [= <-].
    exists l, t. split; [congruence|]. split.
    + rewrite (preserves_store_reflectivity _ _ _ Hb). apply lookup_insert_eq.
    + intros ->. by apply store_reflectivity_no_empty_read in Hb.
  - left. split; [|eauto]. revert H5. unfold append.
    destruct (d4 !! "time") eqn:E5; intros Heq; [discriminate Heq|].
    injection Heq as <- _. congruence.
Qed.

(** The time stamp is January 1 of the year plus [day_of_year] days. *)
Lemma record_time_adds_day_of_year d d' t :
  record_time d = (d', Ok t) →
  ∃ year days,
    last_int "day_of_year" d = (d, Ok days)
    ∧ toordinal t = ymd2ord year 1 1 + days.
Proof.
  unfold record_time. intros Ht.
  apply stmt_bind_inv in Ht as [(y & d1 & H1 & Ht)|(? & _ & [=])].
  apply stmt_bind_inv in Ht as [(year & d2 & H2 & Ht)|(? & _ & [=])].
  apply stmt_bind_inv in Ht as [(h & d3 & H3 & Ht)|(? & _ & [=])].
  apply stmt_bind_inv in Ht as [(mi & d4 & H4 & Ht)|(? & _ & [=])].
  apply stmt_bind_inv in Ht as [(sec & d5 & H5 & Ht)|(? & _ & [=])].
  apply stmt_bind_inv in Ht as [(t0 & d6 & H6 & Ht)|(? & _ & [=])].
  apply stmt_bind_inv in Ht as [(days & d7 & H7 & Ht)|(? & _ & [=])].
  assert (d1 = d) as ->.
  { revert H1. unfold last_data, get_data. rewrite stmt_bind_eq.
    destruct (d !! "year"); [|discriminate]. unfold lift. by intros [= <- _]. }
  injection H2 as <- H2. pose proof H3 as H3'. pose proof H4 as H4'.
  pose proof H5 as H5'. pose proof H7 as H7'.
  assert (∀ name a b v, last_int name a = (b, Ok v) → b = a) as Hsame.
  { intros name a b v. unfold last_int, last_data, get_data.
    rewrite !stmt_bind_eq. destruct (a !! name); [|discriminate].
    unfold lift. destruct (getlast _); [|discriminate].
    by intros [= <- _]. }
  apply Hsame in H3' as ->. apply Hsame in H4' as ->. apply Hsame in H5' as ->.
  injection H6 as <- H6. apply Hsame in H7' as ->.
  exists year, days. split; [assumption|].
  injection Ht as _ Ht. unfold mkdatetime in H6.
  destruct (_ && _); [|discriminate]. injection H6 as <-.
  unfold add_days in Ht. simpl in Ht.
  destruct (_ && _); [|discriminate]. by injection Ht as <-.
Qed.

End RecordTime.

(** *** The scan of one file *)

Section Scan.

Context `{Numeric} `{Pandas}.

Lemma scan_step_ct f st : ct (scan_step f st) = S (ct st).
Proof.
  unfold scan_step. by destruct (record_body f (ct st) (data st)) as [d [[]|e]].
Qed.

Lemma scan_step_error_ct f st :
  error_ct (scan_step f st)
  = (error_ct st + if is_raise (outcome f st) then 1 else 0)%nat.
Proof.
  unfold scan_step, outcome.
  destruct (record_body f (ct st) (data st)) as [d [[]|e]]; simpl; lia.
Qed.

Lemma scan_step_error f st :
  error (scan_step f st)
  = match outcome f st with
    | Ok _ => error st
    | Raise e => if is_empty_data e || (1 <? error_ct st)%nat then true else error st
    end.
Proof.
  unfold scan_step, outcome.
  by destruct (record_body f (ct st) (data st)) as [d [[]|e]].
Qed.

Lemma scan_step_data f st :
  data (scan_step f st) = (record_body f (ct st) (data st)).1.
Proof.
  unfold scan_step. by destruct (record_body f (ct st) (data st)) as [d [[]|e]].
Qed.

Lemma turns_S_r f n : ∀ st, turns f (S n) st = scan_step f (turns f n st).
Proof. induction n as [|n IH]; intros st; [reflexivity|]. simpl. apply IH. Qed.

Lemma turns_ct f n : ∀ st, ct (turns f n st) = (ct st + n)%nat.
Proof.
  induction n as [|n IH]; intros st; simpl; [lia|].
  rewrite IH, scan_step_ct. lia.
Qed.

Lemma turns_error_ct f n : ∀ st,
  error_ct (turns f n st) = (error_ct st + raised_turns f n st)%nat.
Proof.
  induction n as [|n IH]; intros st; simpl; [lia|].
  rewrite IH, scan_step_error_ct. lia.
Qed.

Lemma scan_step_error_mono f st : error st = true → error (scan_step f st) = true.
Proof.
  intros E. rewrite scan_step_error, E.
  destruct (outcome f st) as [|e]; [reflexivity|]. by destruct (_ || _).
Qed.

(** While the loop runs, it has counted at most two exceptions. *)
Lemma running_error_ct f n : ∀ st,
  (error_ct st ≤ 2)%nat → error (turns f n st) = false →
  (error_ct (turns f n st) ≤ 2)%nat.
Proof.
  induction n as [|n IH]; intros st Hct Herr; [assumption|].
  rewrite turns_S_r in *. rewrite scan_step_error in Herr.
  rewrite scan_step_error_ct. unfold is_raise.
  destruct (outcome f (turns f n st)) as [|e].
  - specialize (IH st Hct Herr). lia.
  - destruct (is_empty_data e || _) eqn:E; [discriminate|].
    apply orb_false_iff in E as [_ E]. apply Nat.ltb_ge in E.
    lia.
Qed.

(** The loop with enough fuel stops at the first turn that sets [error]. *)
Lemma scan_stops f n : ∀ st fuel,
  (∀ k, (k < n)%nat → error (turns f k st) = false) →
  error (turns f n st) = true → (n ≤ fuel)%nat →
  scan fuel f st = Some (turns f n st).
Proof.
  induction n as [|n IH]; intros st fuel Hrun Hstop Hfuel.
  - simpl in *. destruct fuel; simpl; by rewrite Hstop.
  - destruct fuel as [|fuel]; [lia|]. simpl.
    pose proof (Hrun 0%nat ltac:(lia)) as Hfirst. simpl in Hfirst. rewrite Hfirst.
    apply IH; [|assumption|lia].
    intros k Hk. apply (Hrun (S k)). lia.
Qed.

(** A loop that stopped did so at a turn that raised. *)
Lemma scan_Some f fuel : ∀ st final,
  error st = false → scan fuel f st = Some final →
  ∃ n, (0 < n)%nat ∧ final = turns f n st
       ∧ (∀ k, (k < n)%nat → error (turns f k st) = false)
       ∧ is_raise (outcome f (turns f (n - 1) st)) = true.
Proof.
  induction fuel as [|fuel IH]; intros st final Herr Hscan; simpl in Hscan;
    rewrite Herr in Hscan; [discriminate|].
  destruct (error (scan_step f st)) eqn:E.
  - assert (final = scan_step f st) as ->.
    { destruct fuel; simpl in Hscan; rewrite E in Hscan; congruence. }
    exists 1%nat. split; [lia|]. split; [reflexivity|]. split.
    + intros k Hk. by replace k with 0%nat by lia.
    + simpl. rewrite scan_step_error, Herr in E.
      by destruct (outcome f st).
  - destruct (IH _ _ E Hscan) as (n & Hn & -> & Hrun & Hraise).
    exists (S n). split; [lia|]. split; [reflexivity|]. split.
    + intros [|k] Hk; [assumption|]. apply Hrun. lia.
    + replace (S n - 1)%nat with (S (n - 1)) by lia. exact Hraise.
Qed.

(** Records that parse keep the loop running and add one time stamp each. *)
Lemma turns_returning f K : ∀ st l0,
  data st !! "time" = Some l0 →
  (∀ k, (k < K)%nat → returns (outcome f (turns f k st))) →
  ∃ l, data (turns f K st) !! "time" = Some (l0 ++ l) ∧ length l = K
       ∧ error (turns f K st) = error st
       ∧ raised_turns f K st = 0%nat.
Proof.
  induction K as [|K IH]; intros st l0 Ht Hret.
  - exists []. by rewrite app_nil_r.
  - destruct (Hret 0%nat ltac:(lia)) as [[] Hfirst]. simpl in Hfirst.
    destruct (record_body f (ct st) (data st)) as [d' r] eqn:Hb.
    pose proof Hb as Hb'. apply record_body_time in Hb'.
    unfold outcome in Hfirst. rewrite Hb in Hfirst. simpl in Hfirst. subst r.
    destruct Hb' as [[_ [e He]]|(l & t & Hl & Hl' & _)]; [discriminate|].
    assert (l = l0) as -> by congruence.
    destruct (IH (scan_step f st) (l0 ++ [VTime t])) as (l1 & Hl1 & Hlen & Herr & Hr).
    { by rewrite scan_step_data, Hb. }
    { intros k Hk. apply (Hret (S k)). lia. }
    exists (VTime t :: l1). simpl. rewrite <- app_assoc in Hl1.
    split; [exact Hl1|]. split; [by rewrite Hlen|]. split.
    + rewrite Herr, scan_step_error. unfold outcome. by rewrite Hb.
    + rewrite Hr. unfold outcome. by rewrite Hb.
Qed.


End Scan.



(** *** Time stamp, header values and offsets on files *)

(** C4: evaluation at a record stamped year 22, day of the year 1,
    00:00:00.  The code stores January 1 of 2022 plus one day, that is
    January 2, where the stated rule gives January 1 plus [1 - 1] days. *)
Theorem day_of_year_one_is_january_second :
  variable_of "year" (read_psl_radar_fmcw_moment 5 [radar_one_record])
  = Some (Ok [VStr "22"])
  ∧ variable_of "day_of_year" (read_psl_radar_fmcw_moment 5 [radar_one_record])
    = Some (Ok [VStr "1"])
  ∧ variable_of "time" (read_psl_radar_fmcw_moment 5 [radar_one_record])
    = Some (Ok [VTime (mk_datetime (ymd2ord 2022 1 1 + 1) 0 0 0 0)])
  ∧ mkdatetime 2022 1 2 0 0 0 = Ok (mk_datetime (ymd2ord 2022 1 1 + 1) 0 0 0 0)
  ∧ mkdatetime 2022 1 1 0 0 0 = Ok (mk_datetime (ymd2ord 2022 1 1 + (1 - 1)) 0 0 0 0).
Proof. repeat split; vm_compute; reflexivity. Qed.

(** C7: evaluation at the header line [CTD 4004 -10523 1500 915].  The five
    values are stored, latitude and longitude as the strings of the file:
    the branch that divides by 100 is taken for a token spelled [lat] or [lon]
    only. *)
Theorem latitude_longitude_not_scaled :
  variable_of "site" (read_psl_radar_fmcw_moment 5 [radar_one_record])
  = Some (Ok [VStr "CTD"])
  ∧ variable_of "lat" (read_psl_radar_fmcw_moment 5 [radar_one_record])
    = Some (Ok [VStr "4004"])
  ∧ variable_of "lon" (read_psl_radar_fmcw_moment 5 [radar_one_record])
    = Some (Ok [VStr "-10523"])
  ∧ variable_of "alt" (read_psl_radar_fmcw_moment 5 [radar_one_record])
    = Some (Ok [VStr "1500"])
  ∧ variable_of "freq" (read_psl_radar_fmcw_moment 5 [radar_one_record])
    = Some (Ok [VStr "915"]).
Proof. repeat split; vm_compute; reflexivity. Qed.

(** C6 as stated fails: for record 1 after a record of two gates the stated
    offset is 7 and the code's is 10; on the file whose lines carry their
    numbers, the 2nd header of record 1 is line 9 and its 3rd header line
    10. *)
Lemma stated_offset_fails :
  stated_offset 1 2 = 7 ∧ index2 1 2 = 10
  ∧ variable_of "azimuth" (read_psl_radar_fmcw_moment 5 [radar_numbered])
    = Some (Ok [VStr "1"; VStr "9"])
  ∧ variable_of "interpulse_period" (read_psl_radar_fmcw_moment 5 [radar_numbered])
    = Some (Ok [VStr "2"; VStr "10"])
  ∧ variable_of "radial_velocity" (read_psl_radar_fmcw_moment 5 [radar_numbered])
    = Some (Ok [VList [SFloat 3]; VList [SFloat 11]]).
Proof. repeat split; vm_compute; reflexivity. Qed.

(** ** Tables and attributes of the wind profiler reader *)

Section ProfilerTable.

Context `{Numeric} `{Xarray}.

Lemma fst_replace_frame fr : (replace_frame fr).*1 = fr.*1.
Proof.
  unfold replace_frame. induction fr as [|cv fr IH]; [done|].
  cbn. f_equal. exact IH.
Qed.

Lemma fst_imap_columns rows (cols : list string) :
  (imap (λ j c, (c, column rows j)) cols).*1 = cols.
Proof.
  apply list_eq. intros i. rewrite list_lookup_fmap, list_lookup_imap.
  by destruct (cols !! i).
Qed.

Lemma parse_block_names df cols start next mode b :
  parse_block df cols start next = Ok (mode, b) →
  (data_vars b).*1 = cols ∧ NoDup cols ∧ "HT" ∈ cols.
Proof.
  intros Hb. apply parse_block_Ok in Hb as (rows & _ & _ & Hvars & Hht & _ & Hnd).
  assert ((data_vars b).*1 = cols) as Hn.
  { by rewrite Hvars, fst_replace_frame, fst_imap_columns. }
  split; [exact Hn|]. split; [by rewrite <- Hn|].
  apply lookup_var_Ok in Hht as [i Hi]. rewrite <- Hn.
  apply list_elem_of_fmap. exists ("HT", height b). split; [done|].
  by eapply list_elem_of_lookup_2.
Qed.

Lemma member_block df transpose low hi m :
  read_psl_wind_profiler df transpose = Ok (low, hi) →
  m ∈ members low ++ members hi →
  ∃ site header i start next mode b,
    df !! 0%nat = Some site ∧ df !! 9%nat = Some header ∧
    markers df site !! i = Some start ∧ markers df site !! S i = Some next ∧
    parse_block df (rename_beam_columns (split_ws header)) start next
    = Ok (mode, b)
    ∧ stacked b m.
Proof.
  intros Hr Hm.
  destruct (member_of_loop _ _ _ _ _ Hr Hm)
    as (site & header & bs & mode & b & Hsite & Hheader & Hbs & Hin & Hs).
  apply list_elem_of_lookup in Hin as [i Hi].
  destruct (mapM_Ok_lookup _ _ _ _ _ Hbs Hi) as (i' & Hi' & Hblock).
  apply lookup_seq in Hi' as [-> Hlt]. simpl in Hblock.
  unfold block_at in Hblock.
  apply bind_Ok in Hblock as (start & Hstart & Hblock).
  apply bind_Ok in Hblock as (next & Hnext & Hblock).
  apply getitem_Ok in Hstart, Hnext. rewrite Nat.add_1_r in Hnext.
  exists site, header, i, start, next, mode, b. by repeat split.
Qed.

Lemma retained_block_parsed df transpose low hi site header i start next :
  read_psl_wind_profiler df transpose = Ok (low, hi) →
  df !! 0%nat = Some site → df !! 9%nat = Some header →
  markers df site !! i = Some start → markers df site !! S i = Some next →
  ∃ mb, parse_block df (rename_beam_columns (split_ws header)) start next = Ok mb.
Proof.
  intros Hr Hsite Hheader Hstart Hnext.
  apply read_psl_wind_profiler_Ok in Hr
    as (site' & header' & bs & Hsite' & Hheader' & Hbs & _).
  assert (site' = site) as -> by congruence.
  assert (header' = header) as -> by congruence.
  pose proof (mapM_Ok_length _ _ _ Hbs) as Hlen. rewrite length_seq in Hlen.
  apply lookup_lt_Some in Hnext as Hlt.
  destruct (lookup_lt_is_Some_2 bs i) as [mb Hmb]; [lia|].
  destruct (mapM_Ok_lookup _ _ _ _ _ Hbs Hmb) as (i' & Hi' & Hblock).
  apply lookup_seq in Hi' as [-> _]. simpl in Hblock.
  unfold block_at in Hblock.
  apply bind_Ok in Hblock as (start' & Hstart' & Hblock).
  apply bind_Ok in Hblock as (next' & Hnext' & Hblock).
  apply getitem_Ok in Hstart', Hnext'. rewrite Nat.add_1_r in Hnext'.
  exists mb. congruence.
Qed.

Lemma some_block_parsed df transpose low hi :
  read_psl_wind_profiler df transpose = Ok (low, hi) →
  ∃ header start next mb,
    df !! 9%nat = Some header ∧
    parse_block df (rename_beam_columns (split_ws header)) start next = Ok mb.
Proof.
  intros Hr.
  pose proof Hr as Hr'.
  apply read_psl_wind_profiler_Ok in Hr'
    as (site & header & bs & _ & _ & _ & _ & _ & Hnl & _).
  destruct (members low) as [|b l] eqn:E; [done|].
  destruct (member_block df transpose low hi b Hr)
    as (site' & header' & i & start & next & mode & b0 & _ & Hh & _ & _ & Hb & _).
  { rewrite E. set_solver. }
  eauto 10.
Qed.

Lemma renamed_not_HT c k : c ≠ "HT" → renamed c k ≠ "HT".
Proof.
  intros Hc. unfold renamed. case_bool_decide as Hb; [|done].
  unfold beam_vars in Hb.
  destruct (suffix_for_cases k) as [[-> _]|[[-> _]|[-> _]]];
    repeat (apply elem_of_cons in Hb as [->|Hb]; [discriminate|]);
    by apply elem_of_nil in Hb.
Qed.

Lemma rename_keeps_HT_out cols :
  "HT" ∉ cols → "HT" ∉ rename_beam_columns cols.
Proof.
  intros Hout Hin. rewrite rename_beam_columns_spec in Hin.
  apply list_elem_of_lookup in Hin as [i Hi].
  rewrite rename_spec_lookup in Hi.
  destruct (cols !! i) as [c|] eqn:Ec; [|done]. simpl in Hi.
  injection Hi as Hi. apply renamed_not_HT in Hi; [done|].
  intros ->. apply Hout. by eapply list_elem_of_lookup_2.
Qed.

Lemma length_rename_beam_columns cols :
  length (rename_beam_columns cols) = length cols.
Proof. by rewrite rename_beam_columns_spec, rename_spec_length. Qed.

Lemma count_pos_elem c (l : list string) : (0 < count c l)%nat → c ∈ l.
Proof.
  intros Hc. destruct (decide (c ∈ l)) as [|Hn]; [done|].
  rewrite (count_absent _ _ Hn) in Hc. lia.
Qed.

Lemma four_beams_clash b cols :
  b ∈ beam_vars → (3 < count b cols)%nat → ¬ NoDup (rename_beam_columns cols).
Proof.
  intros Hb Hc Hnd. rewrite rename_beam_columns_spec in Hnd.
  destruct (list_elem_of_split_l cols b) as (l1 & l2 & -> & Hl1).
  { apply count_pos_elem. lia. }
  rewrite count_app, (count_absent _ _ Hl1), count_cons in Hc.
  rewrite bool_decide_eq_true_2 in Hc by done.
  destruct (list_elem_of_split_l l2 b) as (m1 & m2 & -> & Hm1).
  { apply count_pos_elem. lia. }
  rewrite count_app, (count_absent _ _ Hm1), count_cons in Hc.
  rewrite bool_decide_eq_true_2 in Hc by done. simpl in Hc.
  set (cols := l1 ++ b :: m1 ++ b :: m2) in *.
  assert (rename_spec cols !! length l1 = Some (b +:+ "1")) as H1.
  { rewrite rename_spec_lookup. unfold cols.
    rewrite list_lookup_middle by done. simpl.
    rewrite drop_app_length. unfold renamed.
    rewrite bool_decide_eq_true_2 by done.
    rewrite count_cons, bool_decide_eq_true_2 by done.
    rewrite count_app, (count_absent _ _ Hm1), count_cons.
    rewrite bool_decide_eq_true_2 by done. simpl.
    destruct (suffix_for_cases (S (S (count b m2)))) as [[-> _]|[[_ ?]|[_ ?]]];
      [done|lia|lia]. }
  assert (rename_spec cols !! (length (l1 ++ b :: m1)) = Some (b +:+ "1")) as H2.
  { rewrite rename_spec_lookup. unfold cols.
    replace (l1 ++ b :: m1 ++ b :: m2) with ((l1 ++ b :: m1) ++ b :: m2)
      by (by rewrite <- app_assoc).
    rewrite list_lookup_middle by done. simpl.
    rewrite drop_app_length. unfold renamed.
    rewrite bool_decide_eq_true_2 by done.
    rewrite count_cons, bool_decide_eq_true_2 by done.
    destruct (suffix_for_cases (S (count b m2))) as [[-> _]|[[_ ?]|[_ ?]]];
      [done|lia|lia]. }
  pose proof (NoDup_lookup _ _ _ _ Hnd H1 H2) as E.
  rewrite length_app in E. simpl in E. lia.
Qed.

Lemma plain_name_twice_clash cols i j c :
  i ≠ j → cols !! i = Some c → cols !! j = Some c → c ∉ beam_vars →
  ¬ NoDup (rename_beam_columns cols).
Proof.
  intros Hij Hi Hj Hc Hnd. rewrite rename_beam_columns_spec in Hnd.
  apply Hij. eapply NoDup_lookup; [exact Hnd| |];
    rewrite rename_spec_lookup; [rewrite Hi|rewrite Hj]; simpl;
    unfold renamed; by rewrite bool_decide_eq_false_2.
Qed.

(** X1.  The table header is line 9 of the frame, for every block.  When it
    has no [HT] token, names one of RAD, CNT, SNR, QC more than three times,
    or repeats another name, [read_psl_wind_profiler] raises whatever the
    file holds otherwise. *)
Theorem unusable_header_fails (df : list string) (transpose : bool)
    (header : string) :
  df !! 9%nat = Some header →
  "HT" ∉ split_ws header
  ∨ (∃ b, b ∈ beam_vars ∧ (3 < count b (split_ws header))%nat)
  ∨ (∃ c i j, i ≠ j ∧ split_ws header !! i = Some c
              ∧ split_ws header !! j = Some c ∧ c ∉ beam_vars) →
  raises (read_psl_wind_profiler df transpose).
Proof.
  intros Hheader Hbad.
  destruct (read_psl_wind_profiler df transpose) as [[low hi]|e] eqn:Hr;
    [exfalso|by exists e].
  apply some_block_parsed in Hr as (header' & start & next & [mode b] & Hh & Hb).
  assert (header' = header) as -> by congruence.
  apply parse_block_names in Hb as (_ & Hnd & Hht).
  destruct Hbad as [Hno|[(b' & Hb' & Hc)|(c & i & j & Hij & Hi & Hj & Hc)]].
  - by apply rename_keeps_HT_out in Hno.
  - by eapply four_beams_clash.
  - by eapply plain_name_twice_clash.
Qed.

(** X2.  A row of a retained block (a line from [start + 10] up to, not
    including, [next - 1]) that does not split into as many cells as the
    header of line 9 has names, or that has a cell which is not a number,
    makes [read_psl_wind_profiler] raise: no row is dropped or padded. *)
Theorem bad_row_fails (df : list string) (transpose : bool)
    (site header row : string) (i start next r : nat) :
  df !! 0%nat = Some site → df !! 9%nat = Some header →
  markers df site !! i = Some start → markers df site !! S i = Some next →
  (start + 10 ≤ r < next - 1)%nat → df !! r = Some row →
  bad_row header row →
  raises (read_psl_wind_profiler df transpose).
Proof.
  intros Hsite Hheader Hstart Hnext Hr Hrow Hbad.
  destruct (read_psl_wind_profiler df transpose) as [[low hi]|e] eqn:Hread;
    [exfalso|by exists e].
  destruct (retained_block_parsed _ _ _ _ _ _ _ _ _ Hread Hsite Hheader Hstart Hnext)
    as [[mode b] Hb].
  apply parse_block_Ok in Hb as (rows & Hrows & Hshape & _).
  assert (iloc_slice df (start + 10) (next - 1) !! (r - (start + 10))%nat = Some row)
    as Hk.
  { unfold iloc_slice. rewrite lookup_take_lt by lia. rewrite lookup_drop.
    rewrite <- Hrow. f_equal. lia. }
  unfold parse_rows in Hrows.
  pose proof (mapM_Ok_length _ _ _ Hrows) as Hlen.
  destruct (lookup_lt_is_Some_2 rows (r - (start + 10))%nat) as [cells Hcells].
  { rewrite Hlen. by eapply lookup_lt_Some. }
  destruct (mapM_Ok_lookup _ _ _ _ _ Hrows Hcells) as (row' & Hrow' & Hconv).
  assert (row' = row) as -> by congruence. simpl in Hconv.
  destruct Hbad as [Hwidth|(cell & Hcell & [e He])].
  - apply Hwidth. rewrite <- (mapM_Ok_length _ _ _ Hconv).
    destruct Hshape as [->|Hall]; [done|].
    rewrite Forall_lookup in Hall. rewrite (Hall _ _ Hcells).
    apply length_rename_beam_columns.
  - apply list_elem_of_lookup in Hcell as [k Hk'].
    pose proof (mapM_Ok_length _ _ _ Hconv) as Hlen'.
    destruct (lookup_lt_is_Some_2 cells k) as [x Hx].
    { rewrite Hlen'. by eapply lookup_lt_Some. }
    destruct (mapM_Ok_lookup _ _ _ _ _ Hconv Hx) as (cell' & Hc' & Hf).
    congruence.
Qed.

Lemma markers_head df site : df !! 0%nat = Some site → markers df site !! 0%nat = Some 0%nat.
Proof.
  destruct df as [|l df]; [done|]. intros [= ->].
  unfold markers. cbn. rewrite decide_True by done. reflexivity.
Qed.

Lemma read_attributes df transpose low hi :
  read_psl_wind_profiler df transpose = Ok (low, hi) →
  ∃ l0 l1 l2 l8,
    df !! 0%nat = Some l0 ∧ df !! 1%nat = Some l1 ∧ df !! 2%nat = Some l2
    ∧ df !! 8%nat = Some l8
    ∧ header_attributes l0 l1 l2 l8 = Ok (attributes low)
    ∧ attributes hi = attributes low
    ∧ transposed low = transpose ∧ transposed hi = transpose
    ∧ length (azimuth low) = length (elevation low).
Proof.
  intros Hr. unfold read_psl_wind_profiler in Hr.
  apply bind_Ok in Hr as (site & Hsite & Hr). apply loc_Ok in Hsite.
  apply bind_Ok in Hr as (header & _ & Hr).
  apply bind_Ok in Hr as ([low0 hi0] & _ & Hr).
  apply bind_Ok in Hr as (obj_low & _ & Hr).
  apply bind_Ok in Hr as (obj_hi & _ & Hr).
  apply bind_Ok in Hr as (idx0 & Hidx0 & Hr). apply getitem_Ok in Hidx0.
  rewrite (markers_head _ _ Hsite) in Hidx0. injection Hidx0 as <-.
  apply bind_Ok in Hr as (site_loc & Hl0 & Hr). apply getitem_Ok in Hl0.
  apply bind_Ok in Hr as (site_tok & Htok & Hr).
  apply bind_Ok in Hr as (rev & Hl1 & Hr). apply loc_Ok in Hl1.
  apply bind_Ok in Hr as (dtype & Hdtype & Hr).
  apply bind_Ok in Hr as (revision & Hrevision & Hr).
  apply bind_Ok in Hr as (coords & Hl2 & Hr). apply loc_Ok in Hl2.
  apply bind_Ok in Hr as (coords_list & Hcl & Hr).
  apply bind_Ok in Hr as (coords_array & Hca & Hr).
  apply bind_Ok in Hr as (lat & Hlat & Hr).
  apply bind_Ok in Hr as (lon & Hlon & Hr).
  apply bind_Ok in Hr as (alt & Halt & Hr).
  apply bind_Ok in Hr as (az_el & Hl8 & Hr). apply loc_Ok in Hl8.
  apply bind_Ok in Hr as (az_el_array & Hae & Hr).
  apply bind_Ok in Hr as (az & Haz & Hr).
  apply bind_Ok in Hr as (el & Hel & Hr).
  apply bind_Ok in Hr as (az_array & Haza & Hr).
  apply bind_Ok in Hr as (el_array & Hela & Hr).
  injection Hr as <- <-.
  exists site_loc, rev, coords, az_el. simpl in Hl1, Hl2, Hl8.
  do 4 (split; [assumption|]). split.
  - unfold header_attributes. rewrite Htok. simpl. rewrite Hdtype. simpl.
    rewrite Hrevision. simpl. rewrite Hcl. simpl. rewrite Hca. simpl.
    rewrite Hlat. simpl. rewrite Hlon. simpl. rewrite Halt. simpl.
    rewrite Hae. simpl. rewrite Haz. simpl. rewrite Hel. simpl.
    rewrite Haza. simpl. rewrite Hela. reflexivity.
  - repeat split. simpl.
    apply mapM_Ok_length in Haz, Hel, Haza, Hela. congruence.
Qed.

(** X3.  The attributes of the two datasets [read_psl_wind_profiler] returns
    are the same, and they are read off lines 0, 1, 2 and 8 of the frame and
    nothing else (the first marker is always line 0): two frames that agree
    on these four lines give the same attributes, whatever their later blocks
    say.  The azimuth and elevation attributes have the same length, and
    [transpose] is applied to both datasets. *)
Theorem attributes_of_first_block (df df' : list string) (transpose transpose' : bool)
    (low hi low' hi' : profiler_ds) :
  read_psl_wind_profiler df transpose = Ok (low, hi) →
  read_psl_wind_profiler df' transpose' = Ok (low', hi') →
  (∀ k, k ∈ [0; 1; 2; 8]%nat → df' !! k = df !! k) →
  attributes hi = attributes low
  ∧ attributes low' = attributes low
  ∧ transposed low = transpose ∧ transposed hi = transpose
  ∧ length (azimuth low) = length (elevation low).
Proof.
  intros Hr Hr' Hsame.
  apply read_attributes in Hr
    as (l0 & l1 & l2 & l8 & Hl0 & Hl1 & Hl2 & Hl8 & Hattr & Hhi & Ht & Ht' & Hlen).
  apply read_attributes in Hr'
    as (l0' & l1' & l2' & l8' & Hl0' & Hl1' & Hl2' & Hl8' & Hattr' & _).
  rewrite Hsame in Hl0', Hl1', Hl2', Hl8' by set_solver.
  repeat split; try assumption. congruence.
Qed.

Lemma column_replace_length rows (cols : list string) name col :
  rows = [] ∨ Forall (λ r : list float, length r = length cols) rows →
  (name, col) ∈ replace_frame (imap (λ j c, (c, column rows j)) cols) →
  length col = length rows.
Proof.
  intros Hshape Hin. apply list_elem_of_lookup in Hin as [j Hj].
  rewrite replace_frame_lookup, list_lookup_imap in Hj.
  destruct (cols !! j) as [c|] eqn:Ec; [|done]. simpl in Hj.
  injection Hj as _ <-. rewrite length_fmap.
  destruct Hshape as [->|Hall]; [done|].
  eapply column_length; [exact Hall|]. by eapply lookup_lt_Some.
Qed.


End ProfilerTable.

Lemma unusable_header_fails_witness :
  raises (read_psl_wind_profiler profiler_four_beams true).
Proof.
  apply (unusable_header_fails profiler_four_beams true "HT  RAD  RAD  RAD  RAD").
  - reflexivity.
  - right. left. exists "RAD". split; [|vm_compute; lia].
    unfold beam_vars. apply elem_of_cons. by left.
Defined.

Lemma bad_row_fails_witness :
  raises (read_psl_wind_profiler profiler_short_row true).
Proof.
  apply (bad_row_fails profiler_short_row true "CTD" "HT  SPD  RAD  RAD  RAD"
           " 0.143   2.5   5.0   6.0" 1 13 25 23).
  - reflexivity.
  - reflexivity.
  - reflexivity.
  - reflexivity.
  - lia.
  - reflexivity.
  - left. vm_compute. lia.
Defined.

Lemma attributes_of_first_block_witness :
  ∃ low hi,
    read_psl_wind_profiler profiler_two_blocks true = Ok (low, hi)
    ∧ attributes hi = attributes low
    ∧ length (azimuth low) = length (elevation low).
Proof.
  assert (returns (read_psl_wind_profiler profiler_two_blocks true))
    as [[low hi] Hr].
  { unfold returns. vm_compute. eexists. reflexivity. }
  exists low, hi. split; [exact Hr|].
  destruct (attributes_of_first_block _ _ _ _ _ _ _ _ Hr Hr)
    as (Hhi & _ & _ & _ & Hlen); [done|].
  by split.
Defined.


(** ** Sections and tables of the temperature reader *)

Section TemperatureTable.

Context `{Numeric} `{Pandas} `{Xarray}.

Lemma groupby_cons {A} (key : A → bool) a l :
  groupby key (a :: l)
  = match groupby key l with
    | (b :: g) :: gs =>
        if Bool.eqb (key a) (key b) then (a :: b :: g) :: gs
        else [a] :: (b :: g) :: gs
    | _ => [[a]]
    end.
Proof. reflexivity. Qed.

Lemma groupby_spec {A} (key : A → bool) (l : list A) :
  concat (groupby key l) = l
  ∧ Forall (λ g, g ≠ []) (groupby key l)
  ∧ Forall (λ g, ∃ k, Forall (λ x, key x = k) g) (groupby key l).
Proof.
  induction l as [|a l (IHc & IHn & IHk)]; [by repeat constructor|].
  rewrite groupby_cons.
  destruct (groupby key l) as [|[|b g] gs] eqn:E.
  - simpl in IHc. subst l. split; [done|]. split; [by repeat constructor|].
    constructor; [|constructor]. exists (key a). by repeat constructor.
  - apply Forall_cons in IHn as [Hn _]. done.
  - apply Forall_cons in IHn as [_ IHn]. apply Forall_cons in IHk as [[k Hk] IHk].
    destruct (Bool.eqb (key a) (key b)) eqn:Eab.
    + apply Bool.eqb_prop in Eab. repeat split.
      * simpl in *. by f_equal.
      * by constructor.
      * constructor; [|assumption]. exists k. constructor; [|assumption].
        apply Forall_cons in Hk as [Hb _]. congruence.
    + repeat split.
      * simpl in *. by f_equal.
      * by repeat constructor.
      * constructor; [exists (key a); by repeat constructor|].
        constructor; [by exists k|assumption].
Qed.

Lemma elem_of_concat {A} (x : A) g (gs : list (list A)) :
  x ∈ g → g ∈ gs → x ∈ concat gs.
Proof.
  intros Hx. induction gs as [|g' gs IH]; intros Hg.
  { by apply elem_of_nil in Hg. }
  cbn [concat]. apply elem_of_app.
  apply elem_of_cons in Hg as [<-|Hg]; [by left|right; by apply IH].
Qed.

Lemma sections_nonempty filepath : Forall (λ g, g ≠ []) (sections_of_file filepath).
Proof. apply groupby_spec. Qed.

Lemma not_dollar_true line : not_dollar line = true ↔ line ≠ "$".
Proof.
  unfold not_dollar, str_eqb. case_bool_decide; simpl; split; try done.
Qed.

Lemma sections_of_file_spec (filepath : list string) :
  concat (sections_of_file filepath) = tail (rstrip <$> filepath)
  ∧ Forall (λ section,
              section ≠ []
              ∧ (Forall (λ line, line = "$") section
                 ∨ Forall (λ line, line ≠ "$") section))
           (sections_of_file filepath).
Proof.
  unfold sections_of_file.
  destruct (groupby_spec not_dollar (tail (rstrip <$> filepath))) as (Hc & Hn & Hk).
  split; [exact Hc|].
  rewrite Forall_forall in Hn, Hk. apply Forall_forall. intros g Hg.
  split; [by apply Hn|].
  destruct (Hk g Hg) as [[|] Hall]; [right|left];
    eapply Forall_impl; [exact Hall| |exact Hall|]; simpl; intros line Hl.
  - by apply not_dollar_true.
  - destruct (decide (line = "$")) as [|Hne]; [done|].
    apply not_dollar_true in Hne. congruence.
Qed.


(** X5.  The sections the temperature reader walks through are a partition
    of the file's lines after the first (each stripped on the right): put
    end to end they give these lines back, none of them is empty (so looking
    at [section[0]] cannot fail), and a section holds separator lines only or
    none at all, so that its first line tells which. *)
Theorem sections_partition (filepath : list string) :
  concat (sections_of_file filepath) = tail (rstrip <$> filepath)
  ∧ Forall (λ section,
              section ≠ []
              ∧ (Forall (λ line, line = "$") section
                 ∨ Forall (λ line, line ≠ "$") section))
           (sections_of_file filepath).
Proof. exact (sections_of_file_spec filepath). Qed.

Lemma section_step_data filepath n acc section :
  is_data (n, section) → section ≠ [] →
  section_step filepath (n, acc) section
  = ds ← parse_psl_temperature_lines filepath section n;
    Ok ((n + length section)%nat, acc ++ [ds]).
Proof.
  intros Hd Hne. destruct section as [|first section]; [done|].
  unfold section_step. simpl.
  unfold is_data in Hd. simpl in Hd.
  assert (first ≠ "$") as Hf by congruence.
  apply not_dollar_true in Hf. by rewrite Hf.
Qed.

Lemma section_step_separator filepath n acc section :
  ¬ is_data (n, section) →
  section_step filepath (n, acc) section = Ok ((n + length section)%nat, acc).
Proof.
  intros Hd. destruct section as [|first section].
  { exfalso. apply Hd. by unfold is_data. }
  unfold section_step. simpl.
  destruct (not_dollar first) eqn:E; [|done].
  apply not_dollar_true in E. exfalso. apply Hd. unfold is_data. simpl. congruence.
Qed.

Lemma section_loop_offsets filepath : ∀ sections n acc,
  Forall (λ g, g ≠ []) sections →
  foldM (section_step filepath) sections (n, acc)
  = dss ← mapM (λ os, parse_psl_temperature_lines filepath os.2 os.1)
               (filter is_data (with_offsets n sections));
    Ok ((n + length (concat sections))%nat, acc ++ dss).
Proof.
  induction sections as [|s sections IH]; intros n acc Hne.
  { simpl. by rewrite Nat.add_0_r, app_nil_r. }
  apply Forall_cons in Hne as [Hs Hne].
  rewrite foldM_cons. cbn [with_offsets concat]. rewrite length_app.
  destruct (decide (is_data (n, s))) as [Hd|Hd].
  - rewrite filter_cons_True by done. rewrite mapM_cons. cbn [fst snd].
    rewrite section_step_data by done.
    destruct (parse_psl_temperature_lines filepath s n) as [ds|e]; [|done].
    cbn. rewrite IH by done.
    destruct (mapM _ (filter is_data (with_offsets (n + length s) sections)))
      as [dss|e]; [|done].
    cbn. by rewrite <- app_assoc, Nat.add_assoc.
  - rewrite filter_cons_False by done.
    rewrite section_step_separator by done. cbn. rewrite IH by done.
    destruct (mapM _ (filter is_data (with_offsets (n + length s) sections)))
      as [dss|e]; [|done].
    cbn. by rewrite Nat.add_assoc.
Qed.

Lemma with_offsets_lines : ∀ sections n off section,
  (off, section) ∈ with_offsets n sections →
  (n ≤ off)%nat
  ∧ take (length section) (drop (off - n) (concat sections)) = section.
Proof.
  induction sections as [|s sections IH]; intros n off section Hin.
  { by apply elem_of_nil in Hin. }
  cbn [with_offsets] in Hin. apply elem_of_cons in Hin as [[= -> ->]|Hin].
  - split; [lia|]. rewrite Nat.sub_diag, drop_0. cbn [concat].
    by rewrite take_app_length.
  - apply IH in Hin as [Hle Htake]. split; [lia|].
    cbn [concat]. rewrite drop_app_ge by lia.
    replace (off - n - length s)%nat with (off - (n + length s))%nat by lia.
    exact Htake.
Qed.

Lemma temperature_assign_self (ds : temperature_ds) :
  assign_coord (t_HT ds) ds = ds.
Proof. by destruct ds. Qed.

Lemma temperature_concat_member (l l' : list temperature_ds) ds :
  xr_concat l = Ok l' → ds ∈ l' → ∃ part, part ∈ l ∧ stacked part ds.
Proof. by apply xr_concat_member. Qed.

Lemma temperature_concat_labels (l l' : list temperature_ds) ds label :
  join_law → xr_concat l = Ok l' → ds ∈ l' → label ∈ t_HT ds →
  ∃ part, part ∈ l ∧ label ∈ t_HT part.
Proof.
  intros Hlaw Hc Hm Hl.
  exact (@xr_concat_labels _ temperature_ds temperature_indexed (λ _ _, eq_refl)
           (λ _ _, eq_refl) l l' ds label Hlaw Hc Hm Hl).
Qed.

Lemma stacked_t_time (part ds : temperature_ds) :
  stacked part ds → t_time ds = t_time part.
Proof. intros [[Hm _]|Hm]; by rewrite Hm. Qed.

Lemma stacked_t_names (part ds : temperature_ds) :
  stacked part ds → (t_vars ds).*1 = (t_vars part).*1.
Proof.
  intros [[Hm _]|Hm]; rewrite Hm; [reflexivity|]. simpl.
  rewrite <- list_fmap_compose. by apply list_fmap_ext.
Qed.

(** A variable of a member holds cells of the section's variable of that
    name, and NaN. *)
Lemma stacked_t_cells (part ds : temperature_ds) name col :
  stacked part ds → (name, col) ∈ t_vars ds →
  ∃ col0, (name, col0) ∈ t_vars part ∧ moved_or_filled col0 col.
Proof.
  intros [[Hm _]|Hm] Hin; rewrite Hm in Hin; simpl in Hin.
  - exists col. split; [exact Hin|]. apply Forall_forall. by right.
  - apply list_elem_of_fmap in Hin as ([n c] & [= -> ->] & Hin).
    exists c. split; [exact Hin|]. apply Forall_forall.
    intros y Hy. by apply reindex_cells_from in Hy.
Qed.

Lemma read_temperature_Ok filepath dss :
  read_psl_wind_profiler_temperature filepath = Ok dss →
  ∃ parts,
    mapM (λ os, parse_psl_temperature_lines filepath os.2 os.1)
         (filter is_data (with_offsets 0 (sections_of_file filepath))) = Ok parts
    ∧ xr_concat parts = Ok dss
    ∧ dss ≠ [].
Proof.
  intros Hr. unfold read_psl_wind_profiler_temperature in Hr.
  rewrite section_loop_offsets in Hr by apply sections_nonempty.
  apply bind_Ok in Hr as ([n l] & Hloop & Hr).
  apply bind_Ok in Hloop as (parts & Hm & Hloop). injection Hloop as _ <-.
  simpl in Hr. exists parts. split; [exact Hm|]. split; [exact Hr|].
  by apply xr_concat_length in Hr as (_ & _ & Hne).
Qed.

(** A member of the returned concatenation is the dataset of a data
    section, as concatenated. *)
Lemma member_of_section filepath dss ds :
  read_psl_wind_profiler_temperature filepath = Ok dss → ds ∈ dss →
  ∃ start_line section part,
    (start_line, section)
    ∈ filter is_data (with_offsets 0 (sections_of_file filepath))
    ∧ parse_psl_temperature_lines filepath section start_line = Ok part
    ∧ stacked part ds.
Proof.
  intros Hr Hds. apply read_temperature_Ok in Hr as (parts & Hm & Hc & _).
  destruct (temperature_concat_member _ _ _ Hc Hds) as (part & Hpart & Hs).
  apply list_elem_of_lookup in Hpart as [i Hi].
  destruct (mapM_Ok_lookup _ _ _ _ _ Hm Hi) as ([off section] & Hsec & Hp).
  simpl in Hp. apply list_elem_of_lookup_2 in Hsec.
  by exists off, section, part.
Qed.

(** X6.  The table of a data section is read from the file itself with
    [skiprows = start_line + 10], where [start_line] counts the lines of the
    sections before it: the section's own first line is line [start_line]
    of the lines after the first one.  The datasets that are concatenated are
    those of the data sections, one each, in file order, and there is at
    least one. *)
Theorem sections_read_at_their_offset (filepath : list string)
    (dss : list temperature_ds) :
  read_psl_wind_profiler_temperature filepath = Ok dss →
  ∃ parts,
    mapM (λ os, parse_psl_temperature_lines filepath os.2 os.1)
         (filter is_data (with_offsets 0 (sections_of_file filepath))) = Ok parts
    ∧ xr_concat parts = Ok dss
    ∧ dss ≠ []
    ∧ ∀ start_line section,
        (start_line, section) ∈ with_offsets 0 (sections_of_file filepath) →
        take (length section) (drop start_line (tail (rstrip <$> filepath)))
        = section.
Proof.
  intros Hr. apply read_temperature_Ok in Hr as (parts & Hm & Hc & Hne).
  exists parts. repeat split; [exact Hm|exact Hc|exact Hne|].
  intros start_line section Hin.
  apply with_offsets_lines in Hin as [_ Hin]. rewrite Nat.sub_0_r in Hin.
  destruct (groupby_spec not_dollar (tail (rstrip <$> filepath))) as (Hc' & _).
  unfold sections_of_file in Hin. by rewrite Hc' in Hin.
Qed.

(** X7.  A temperature file without a data section (nothing after its first
    line, or separator lines only) is not read as an empty dataset: the
    concatenation of no dataset raises [ValueError]. *)
Theorem no_data_section_fails (filepath : list string) :
  Forall (λ line, rstrip line = "$") (tail filepath) →
  read_psl_wind_profiler_temperature filepath = Raise ValueError.
Proof.
  intros Hall. unfold read_psl_wind_profiler_temperature.
  rewrite section_loop_offsets by apply sections_nonempty.
  assert (filter is_data (with_offsets 0 (sections_of_file filepath)) = []) as ->;
    [|reflexivity].
  destruct (sections_of_file_spec filepath) as [Hc Hs].
  assert (Forall (λ s, head s = Some "$") (sections_of_file filepath)) as Hd.
  { apply Forall_forall. intros s Hs'.
    assert (Forall (λ line, line = "$") s) as Hsd.
    { apply Forall_forall. intros line Hl.
      assert (line ∈ tail (rstrip <$> filepath)) as Hin.
      { rewrite <- Hc. by eapply elem_of_concat. }
      destruct filepath as [|l0 filepath]; [by apply elem_of_nil in Hin|].
      simpl in Hin, Hall. apply list_elem_of_fmap in Hin as (line' & -> & Hin).
      rewrite Forall_forall in Hall. by apply Hall. }
    rewrite Forall_forall in Hs. destruct (Hs s Hs') as [Hne _].
    destruct s as [|l s]; [done|]. apply Forall_cons in Hsd as [-> _]. done. }
  clear Hc Hs Hall. generalize 0%nat. induction Hd as [|s ss Hs' Hd IH]; intros n; [done|].
  cbn [with_offsets]. rewrite filter_cons_False; [apply IH|].
  unfold is_data. cbn [snd]. intros Hn. by apply Hn.
Qed.

End TemperatureTable.

Lemma sections_read_at_their_offset_witness :
  ∃ dss parts,
    read_psl_wind_profiler_temperature rass_two_sections = Ok dss
    ∧ mapM (λ os, parse_psl_temperature_lines rass_two_sections os.2 os.1)
           (filter is_data (with_offsets 0 (sections_of_file rass_two_sections)))
      = Ok parts
    ∧ xr_concat parts = Ok dss
    ∧ dss ≠ [].
Proof.
  assert (returns (read_psl_wind_profiler_temperature rass_two_sections))
    as [dss Hr].
  { unfold returns. vm_compute. eexists. reflexivity. }
  destruct (sections_read_at_their_offset _ _ Hr) as (parts & Hm & Hc & Hne & _).
  exists dss, parts. by repeat split.
Defined.

Lemma no_data_section_fails_witness :
  read_psl_wind_profiler_temperature rass_no_data = Raise ValueError.
Proof.
  apply (no_data_section_fails rass_no_data).
  unfold rass_no_data. simpl. by repeat constructor.
Defined.

(** ** Variables of the temperature datasets *)

Section TemperatureVariables.

Context `{Numeric} `{Pandas} `{Xarray}.

Lemma astype_float_Ok : ∀ (df : frame) fr,
  astype_float df = Ok fr →
  Forall2 (λ cv cv', cv'.1 = cv.1 ∧ length cv'.2 = length cv.2) df fr.
Proof.
  unfold astype_float.
  induction df as [|cv df IH]; intros fr Hfr.
  { injection Hfr as <-. constructor. }
  rewrite mapM_cons in Hfr.
  apply bind_Ok in Hfr as (cv' & Hcv & Hfr).
  apply bind_Ok in Hfr as (fr' & Hfr' & Hfr). injection Hfr as <-.
  apply bind_Ok in Hcv as (col & Hcol & Hcv). injection Hcv as <-.
  constructor; [|by apply IH]. simpl. split; [done|].
  by apply mapM_Ok_length in Hcol.
Qed.

Lemma length_slice_to {A} (n : Z) (l : list A) :
  0 ≤ n → (Z.of_nat (length (slice_to n l)) ≤ n).
Proof.
  intros Hn. unfold slice_to. rewrite (proj2 (Z.leb_le 0 n) Hn).
  rewrite length_take. lia.
Qed.

Lemma rename_column_not_withheld c :
  c ≠ "HT" → c ≠ "time" → rename_column c ∉ withheld_names.
Proof.
  intros Hht Htime. unfold rename_column, str_eqb.
  repeat case_bool_decide; subst; unfold withheld_names;
    repeat (rewrite elem_of_cons); rewrite elem_of_nil;
    intros Hin; repeat (destruct Hin as [Hin|Hin]; [congruence|]); done.
Qed.

Lemma parse_section_table filepath lines line_offset ds :
  parse_psl_temperature_lines filepath lines line_offset = Ok ds →
  ∃ df fr,
    pd_read_csv_ws filepath (line_offset + 10) = Ok df
    ∧ astype_float
        (filter (λ cv, cv.1 ≠ "time")
                ((λ cv, (cv.1, slice_to (t_number_of_gates ds) cv.2)) <$> df))
      = Ok fr
    ∧ lookup_var "HT" (replace_frame fr) = Ok (t_HT ds)
    ∧ t_vars ds = (λ cv, (rename_column cv.1, cv.2))
                    <$> filter (λ cv, cv.1 ≠ "HT") (replace_frame fr)
    ∧ NoDup (t_vars ds).*1
    ∧ (∀ name, name ∈ ["T"; "Tc"; "W"] → name ∈ (t_vars ds).*1).
Proof.
  unfold parse_psl_temperature_lines. intros Hp. inv_bind Hp.
  case_bool_decide as Hnd; [|discriminate]. inv_bind Hp. injection Hp as <-. simpl.
  match goal with
  | Hht : match lookup_var "HT" (replace_frame ?fr) with _ => _ end = Ok ?ht |- _ =>
      destruct (lookup_var "HT" (replace_frame fr)) as [ht'|] eqn:E;
      [injection Hht as <-|discriminate];
      exists a13, fr
  end.
  do 4 (split; [done|]). split; [exact Hnd|].
  intros name Hname.
  assert (∀ n u vars, require_var n vars = Ok u → n ∈ vars.*1) as Hreq.
  { intros n u vars Hr. unfold require_var in Hr.
    apply bind_Ok in Hr as (col & Hcol & _).
    apply lookup_var_Ok in Hcol as [i Hi].
    apply list_elem_of_fmap. exists (n, col). split; [done|].
    by eapply list_elem_of_lookup_2. }
  repeat (apply elem_of_cons in Hname as [->|Hname]; [by eapply Hreq|]).
  by apply elem_of_nil in Hname.
Qed.

(** X8.  Every dataset [_parse_psl_temperature_lines] builds has the
    variables [T], [Tc] and [W]; its variable names are pairwise different;
    none of them is [HT] (the index), [time] (a table column of that name is
    dropped and the date line is used), or one of CNT, CNT.1, CNT.2, SNR,
    SNR.1, SNR.2 (handed out as CNT_T, ... SNR_W).  When the declared number
    of gates is not negative, no variable and not the height index has more
    values than that number: further table rows are cut off.  The datasets
    of the concatenation [read_psl_wind_profiler_temperature] returns keep
    these names (their height index may have gained the levels of other
    sections). *)
Theorem temperature_variables (filepath : list string) :
  (∀ lines line_offset part,
     parse_psl_temperature_lines filepath lines line_offset = Ok part →
     (∀ name, name ∈ ["T"; "Tc"; "W"] → name ∈ (t_vars part).*1)
     ∧ NoDup (t_vars part).*1
     ∧ (∀ name, name ∈ withheld_names → name ∉ (t_vars part).*1)
     ∧ (0 ≤ t_number_of_gates part →
        Z.of_nat (length (t_HT part)) ≤ t_number_of_gates part
        ∧ ∀ name col, (name, col) ∈ t_vars part →
                      Z.of_nat (length col) ≤ t_number_of_gates part))
  ∧ (∀ dss ds,
       read_psl_wind_profiler_temperature filepath = Ok dss → ds ∈ dss →
       (∀ name, name ∈ ["T"; "Tc"; "W"] → name ∈ (t_vars ds).*1)
       ∧ NoDup (t_vars ds).*1
       ∧ (∀ name, name ∈ withheld_names → name ∉ (t_vars ds).*1)).
Proof.
  assert (∀ lines line_offset part,
     parse_psl_temperature_lines filepath lines line_offset = Ok part →
     (∀ name, name ∈ ["T"; "Tc"; "W"] → name ∈ (t_vars part).*1)
     ∧ NoDup (t_vars part).*1
     ∧ (∀ name, name ∈ withheld_names → name ∉ (t_vars part).*1)
     ∧ (0 ≤ t_number_of_gates part →
        Z.of_nat (length (t_HT part)) ≤ t_number_of_gates part
        ∧ ∀ name col, (name, col) ∈ t_vars part →
                      Z.of_nat (length col) ≤ t_number_of_gates part)) as Hpart.
  { intros lines line_offset ds Hp.
    apply parse_section_table in Hp
      as (df & fr & _ & Hfr & Hht & Hvars & Hnd & Hreq).
    split; [exact Hreq|]. split; [exact Hnd|].
    apply astype_float_Ok in Hfr.
    assert (∀ name col, (name, col) ∈ replace_frame fr →
              name ≠ "time"
              ∧ (0 ≤ t_number_of_gates ds →
                 Z.of_nat (length col) ≤ t_number_of_gates ds)) as Hcells.
    { intros name col Hin. apply list_elem_of_lookup in Hin as [j Hj].
      rewrite replace_frame_lookup in Hj.
      destruct (fr !! j) as [[n c]|] eqn:Ej; [|done]. simpl in Hj.
      injection Hj as <- <-.
      destruct (Forall2_lookup_r _ _ _ _ _ Hfr Ej) as ([n' cells] & Hcv & Hn & Hl).
      simpl in Hn, Hl. subst n'.
      apply list_elem_of_lookup_2 in Hcv.
      apply list_elem_of_filter in Hcv as [Htime Hcv]. simpl in Htime.
      apply list_elem_of_fmap in Hcv as ([n0 cells0] & [= -> ->] & _).
      split; [exact Htime|]. intros Hg. rewrite length_fmap, Hl.
      by apply length_slice_to. }
    split.
    - intros name Hname Hin. rewrite Hvars in Hin.
      apply list_elem_of_fmap in Hin as ([n col] & -> & Hin).
      apply list_elem_of_fmap in Hin as ([n0 col0] & [= -> ->] & Hin).
      apply list_elem_of_filter in Hin as [Hn0 Hin]. simpl in Hn0.
      destruct (Hcells _ _ Hin) as [Htime _].
      by apply (rename_column_not_withheld n0).
    - intros Hg. split.
      + apply lookup_var_Ok in Hht as [j Hj].
        eapply Hcells; [|exact Hg]. by eapply list_elem_of_lookup_2.
      + intros name col Hin. rewrite Hvars in Hin.
        apply list_elem_of_fmap in Hin as ([n0 col0] & [= -> ->] & Hin).
        apply list_elem_of_filter in Hin as [_ Hin].
        by eapply Hcells. }
  split; [exact Hpart|].
  intros dss ds Hr Hds.
  destruct (member_of_section _ _ _ Hr Hds) as (off & section & part & _ & Hp & Hs).
  rewrite (stacked_t_names _ _ Hs).
  destruct (Hpart _ _ _ Hp) as (Hreq & Hnd & Hout & _). by repeat split.
Qed.

End TemperatureVariables.

Lemma temperature_variables_witness :
  ∃ dss ds,
    read_psl_wind_profiler_temperature rass_two_sections = Ok dss
    ∧ ds ∈ dss
    ∧ NoDup (t_vars ds).*1
    ∧ (∀ name, name ∈ ["T"; "Tc"; "W"] → name ∈ (t_vars ds).*1).
Proof.
  assert (returns (read_psl_wind_profiler_temperature rass_two_sections))
    as [dss Hr].
  { unfold returns. vm_compute. eexists. reflexivity. }
  destruct (read_temperature_Ok _ _ Hr) as (parts & _ & _ & Hne).
  destruct dss as [|ds dss]; [exfalso; apply Hne; reflexivity|].
  assert (ds ∈ ds :: dss) as Hds by (apply elem_of_cons; by left).
  exists (ds :: dss), ds. split; [exact Hr|]. split; [exact Hds|].
  destruct (proj2 (temperature_variables rass_two_sections) _ ds Hr Hds)
    as (Hreq & Hnd & _).
  by split.
Defined.

(** ** The sentinel *)

Section Sentinel.

Context `{Numeric} `{Pandas} `{Xarray}.

Lemma replace_sentinel_substituted x : substituted x (replace_sentinel x).
Proof.
  unfold substituted, replace_sentinel, sentinel.
  by destruct (PrimFloat.eqb x 999999).
Qed.

Lemma substituted_clean x y : substituted x y → is_sentinel y = false.
Proof.
  unfold substituted, is_sentinel, sentinel.
  destruct (PrimFloat.eqb x 999999) eqn:E; intros ->; [reflexivity|exact E].
Qed.

Lemma substituted_column col0 col : Forall2 substituted col0 col → clean col.
Proof.
  intros Hs. apply Forall_forall. intros y Hy.
  apply list_elem_of_lookup in Hy as [i Hi].
  destruct (Forall2_lookup_r _ _ _ _ _ Hs Hi) as (x & _ & Hx).
  by eapply substituted_clean.
Qed.

Lemma moved_or_filled_clean col0 col :
  clean col0 → moved_or_filled col0 col → clean col.
Proof.
  unfold clean, moved_or_filled. rewrite !Forall_forall. intros Hc Hm y Hy.
  destruct (Hm y Hy) as [->|Hin]; [reflexivity|by apply Hc].
Qed.

Lemma replace_column_substituted col :
  Forall2 substituted col (replace_sentinel <$> col).
Proof.
  apply Forall2_fmap_r, Forall_Forall2_diag, Forall_forall.
  intros x _. apply replace_sentinel_substituted.
Qed.

(** The cells of a block's table reach the block's dataset through the
    substitution. *)
Lemma parse_block_substituted df cols start next mode b :
  parse_block df cols start next = Ok (mode, b) →
  ∃ rows,
    parse_rows (iloc_slice df (start + 10) (next - 1)) = Ok rows
    ∧ (∀ j c, cols !! j = Some c →
         ∃ col, data_vars b !! j = Some (c, col)
                ∧ Forall2 substituted (column rows j) col)
    ∧ (∃ j, cols !! j = Some "HT"
            ∧ Forall2 substituted (column rows j) (height b))
    ∧ (∀ name col, (name, col) ∈ data_vars b → clean col)
    ∧ clean (height b).
Proof.
  intros Hp.
  pose proof (parse_block_height _ _ _ _ _ _ Hp)
    as (rows' & j & Hrows' & Hj & Hh & _).
  apply parse_block_Ok in Hp as (rows & Hrows & _ & Hvars & _).
  assert (rows' = rows) as -> by congruence.
  exists rows. split; [exact Hrows|].
  assert (Forall2 substituted (column rows j) (height b)) as Hht.
  { rewrite Hh. apply replace_column_substituted. }
  split; [|split; [by exists j|split; [|by eapply substituted_column]]].
  - intros j' c Hc. exists (replace_sentinel <$> column rows j').
    split; [|apply replace_column_substituted].
    by rewrite Hvars, replace_frame_lookup, list_lookup_imap, Hc.
  - intros name col Hin. rewrite Hvars in Hin.
    apply list_elem_of_lookup in Hin as [j' Hj'].
    rewrite replace_frame_lookup, list_lookup_imap in Hj'.
    destruct (cols !! j') as [c|]; [|done]. injection Hj' as _ <-.
    eapply substituted_column, replace_column_substituted.
Qed.

Lemma filter_replace_frame (fr : list (string * list float)) :
  Forall2 (λ cv0 cv, cv.1 = rename_column cv0.1
                     ∧ Forall2 substituted cv0.2 cv.2)
    (filter (λ cv, cv.1 ≠ "HT") fr)
    ((λ cv, (rename_column cv.1, cv.2))
       <$> filter (λ cv, cv.1 ≠ "HT") (replace_frame fr)).
Proof.
  induction fr as [|[n c] fr IH]; [constructor|].
  cbn [replace_frame map fst snd]. rewrite !filter_cons. cbn [fst].
  case_decide; [|exact IH].
  cbn. constructor; [|exact IH]. split; [reflexivity|].
  apply replace_column_substituted.
Qed.

(** The cells of a section's table, as floats, reach the section's dataset
    through the substitution. *)
Lemma parse_section_substituted filepath lines line_offset part :
  parse_psl_temperature_lines filepath lines line_offset = Ok part →
  ∃ df fr,
    pd_read_csv_ws filepath (line_offset + 10) = Ok df
    ∧ astype_float
        (filter (λ cv, cv.1 ≠ "time")
                ((λ cv, (cv.1, slice_to (t_number_of_gates part) cv.2)) <$> df))
      = Ok fr
    ∧ Forall2 (λ cv0 cv, cv.1 = rename_column cv0.1
                         ∧ Forall2 substituted cv0.2 cv.2)
              (filter (λ cv, cv.1 ≠ "HT") fr) (t_vars part)
    ∧ (∃ col0, ("HT", col0) ∈ fr ∧ Forall2 substituted col0 (t_HT part))
    ∧ (∀ name col, (name, col) ∈ t_vars part → clean col)
    ∧ clean (t_HT part).
Proof.
  intros Hp.
  apply parse_section_table in Hp as (df & fr & Hdf & Hfr & Hht & Hvars & _).
  exists df, fr. do 2 (split; [assumption|]).
  assert (Forall2 (λ cv0 cv, cv.1 = rename_column cv0.1
                             ∧ Forall2 substituted cv0.2 cv.2)
                  (filter (λ cv, cv.1 ≠ "HT") fr) (t_vars part)) as Hall.
  { rewrite Hvars. apply filter_replace_frame. }
  assert (∃ col0, ("HT", col0) ∈ fr ∧ Forall2 substituted col0 (t_HT part))
    as (col0 & Hin & Hsub).
  { apply lookup_var_Ok in Hht as [j Hj]. rewrite replace_frame_lookup in Hj.
    destruct (fr !! j) as [[n c]|] eqn:Ej; [|done]. injection Hj as -> <-.
    exists c. split; [by eapply list_elem_of_lookup_2|].
    apply replace_column_substituted. }
  split; [exact Hall|]. split; [by exists col0|].
  split; [|by eapply substituted_column].
  intros name col Hcol. apply list_elem_of_lookup in Hcol as [j Hj].
  destruct (Forall2_lookup_r _ _ _ _ _ Hall Hj) as (cv0 & _ & _ & Hs).
  by eapply substituted_column.
Qed.


End Sentinel.

(** The union of the reference instance holds labels of the indexes only. *)
Lemma insert_label_from x l y :
  y ∈ Reference.insert_label x l → y = x ∨ y ∈ l.
Proof.
  induction l as [|z l IH]; simpl.
  - intros Hy%list_elem_of_singleton. by left.
  - destruct (same_label x z); [by right|].
    destruct (Reference.label_lt x z).
    + intros [->|Hy]%elem_of_cons; [by left|by right].
    + intros [->|Hy]%elem_of_cons; [right; by left|].
      destruct (IH Hy) as [->|Hin]; [by left|right; by right].
Qed.

Lemma union_from a b y : y ∈ Reference.union a b → y ∈ a ∨ y ∈ b.
Proof.
  assert (∀ l, y ∈ foldr Reference.insert_label [] l → y ∈ l) as Hsorted.
  { induction l as [|x l IH]; [done|]. simpl.
    intros [->|Hin]%insert_label_from; [by left|right; by apply IH]. }
  unfold Reference.union. destruct a as [|x a], b as [|z b]; auto.
  destruct (same_index _ _); [by left|].
  intros Hin%Hsorted. by apply elem_of_app in Hin.
Qed.

Lemma reference_join_law : @join_law Reference.xarray.
Proof.
  intros indexes joined label Hj Hin. simpl in Hj. unfold Reference.join in Hj.
  destruct (forallb _ _); [|discriminate].
  destruct indexes as [|index rest]; [discriminate|]. injection Hj as <-.
  revert index Hin. induction rest as [|b rest IH]; intros index Hin.
  - exists index. split; [by left|done].
  - simpl in Hin. apply IH in Hin as (index' & Hin' & Hl).
    apply elem_of_cons in Hin' as [->|Hin'].
    + apply union_from in Hl as [Hl|Hl].
      * exists index. split; [by left|done].
      * exists b. split; [right; by left|done].
    + exists index'. split; [right; by right|done].
Qed.

(** *** The sentinel on files *)



(** ** Averaging intervals of the disdrometer reader *)

Section Parsivel.

Context `{Pandas}.

Lemma interval_loop_Ok date : ∀ labels s0 e0 s e,
  foldM (interval_step date) labels (s0, e0) = Ok (s, e) →
  ∃ intervals,
    s = s0 ++ intervals.*1 ∧ e = e0 ++ intervals.*2
    ∧ Forall2 (interval_of date) labels intervals.
Proof.
  induction labels as [|t labels IH]; intros s0 e0 s e Hf.
  { injection Hf as <- <-. exists []. rewrite !app_nil_r. by repeat split. }
  rewrite foldM_cons in Hf. apply bind_Ok in Hf as ([s1 e1] & Hstep & Hf).
  unfold interval_step in Hstep. destruct t as [| |label]; try discriminate.
  apply bind_Ok in Hstep as (t0 & Ht0 & Hstep).
  apply bind_Ok in Hstep as (start & Hstart & Hstep).
  apply bind_Ok in Hstep as (t1 & Ht1 & Hstep).
  apply bind_Ok in Hstep as (stop & Hstop & Hstep).
  injection Hstep as <- <-. apply getitem_Ok in Ht0, Ht1.
  apply IH in Hf as (intervals & -> & -> & Hall).
  exists ((start, stop) :: intervals). cbn. rewrite <- !app_assoc.
  repeat split. constructor; [|assumption]. by exists label, t0, t1.
Qed.

Lemma parsivel_loop_Ok : ∀ files data end_time data' end_time',
  foldM parsivel_file files (data, end_time) = Ok (data', end_time') →
  ∃ per_file,
    Forall2 intervals_of_file files per_file
    ∧ concat (fst <$> data') = concat (fst <$> data) ++ (concat per_file).*1
    ∧ end_time' = end_time ++ (concat per_file).*2
    ∧ length data' = (length data + length files)%nat.
Proof.
  induction files as [|f files IH]; intros data end_time data' end_time' Hf.
  { injection Hf as <- <-. exists []. simpl. rewrite !app_nil_r.
    repeat split; [constructor|lia]. }
  rewrite foldM_cons in Hf. apply bind_Ok in Hf as ([data1 end1] & Hfile & Hf).
  unfold parsivel_file in Hfile.
  apply bind_Ok in Hfile as ([labels df] & Hread & Hfile).
  apply bind_Ok in Hfile as (header & Hheader & Hfile).
  apply bind_Ok in Hfile as (date & Hdate & Hfile).
  apply bind_Ok in Hfile as ([start_time end_time1] & Hloop & Hfile).
  injection Hfile as <- <-. simpl in Hloop.
  apply interval_loop_Ok in Hloop as (intervals & -> & -> & Hall).
  apply IH in Hf as (per_file & Hfiles & Hcat & -> & Hlen).
  exists (intervals :: per_file). split; [|split; [|split]].
  - constructor; [|exact Hfiles]. exists labels, df, header, date.
    do 2 (split; [assumption|]). split; [|exact Hall].
    unfold date_of_header. destruct (3 <=? _)%nat; [|discriminate].
    by apply getitem_Ok.
  - rewrite Hcat, fmap_app, concat_app. cbn. rewrite app_nil_r, fmap_app.
    by rewrite <- app_assoc.
  - cbn. by rewrite fmap_app, <- app_assoc.
  - rewrite length_app in Hlen. simpl in *. lia.
Qed.

(** X9.  When [read_psl_parsivel] returns, its time coordinate and its
    [interval_end_time] variable have the same length and go in pairs.  File
    by file, in the order of the list, and label by label, in the order of
    the file's table, entry [i] of each comes from the same index label
    [a-b]: the start from [a] and the end from [b], both read behind the date
    of that file's own header line, its third token from the end.  At least
    one file was given: the concatenation of no frame raises.  The drop size
    distribution has one row for each time. *)
Theorem intervals_paired (files : list (list string)) (out : parsivel_ds) :
  read_psl_parsivel files = Ok out →
  files ≠ []
  ∧ (∃ per_file,
       Forall2 intervals_of_file files per_file
       ∧ p_time out = (concat per_file).*1
       ∧ p_interval_end_time out = (concat per_file).*2)
  ∧ length (p_time out) = length (p_interval_end_time out)
  ∧ length (p_number_density_drops out) = length (p_time out).
Proof.
  intros Hr. unfold read_psl_parsivel in Hr.
  apply bind_Ok in Hr as ([data end_time] & Hloop & Hr).
  apply bind_Ok in Hr as ([index df] & Hcat & Hr).
  apply bind_Ok in Hr as (dsd & _ & Hr). injection Hr as <-. simpl.
  apply parsivel_loop_Ok in Hloop as (per_file & Hfiles & Hdata & -> & Hlen).
  unfold pd_concat in Hcat. destruct data as [|d rest]; [discriminate|].
  injection Hcat as <- <-.
  split; [intros ->; simpl in Hlen; lia|].
  split; [exists per_file; split; [exact Hfiles|]; split;
          [exact Hdata|reflexivity]|].
  split; [apply (f_equal length) in Hdata; simpl in *;
          rewrite !length_fmap in *; exact Hdata|].
  unfold transpose_lists. by rewrite length_fmap, length_seq.
Qed.

End Parsivel.

Lemma intervals_paired_witness :
  ∃ out,
    read_psl_parsivel [parsivel_one_row] = Ok out
    ∧ length (p_time out) = length (p_interval_end_time out)
    ∧ length (p_number_density_drops out) = length (p_time out).
Proof.
  assert (returns (read_psl_parsivel [parsivel_one_row])) as [out Hr].
  { unfold returns. vm_compute. eexists. reflexivity. }
  exists out. split; [exact Hr|].
  destruct (intervals_paired _ _ Hr) as (_ & _ & Hsame & Hlen). by split.
Defined.

(** The one row of [parsivel_one_row] is stamped with the date token
    [2212306] of the file's header: year 22, day 123, hour 06. *)
Example parsivel_one_row_interval :
  date_of_header <$> @pd_header_to_string Reference.pandas parsivel_one_row
  = Ok (Some "2212306")
  ∧ (λ out, (p_time out, p_interval_end_time out))
      <$> read_psl_parsivel [parsivel_one_row]
    = Ok ([mk_datetime (ymd2ord 2022 5 3) 6 0 0 0],
          [mk_datetime (ymd2ord 2022 5 3) 6 1 0 0]).
Proof. split; vm_compute; reflexivity. Qed.

(** ** What a radar record stores *)

Section RadarRecord.

Context `{Numeric} `{Pandas}.

Lemma token_nonempty d : (0 <? String.length d)%nat = true ↔ d ≠ "".
Proof.
  destruct d; simpl; split; try done.
Qed.

Lemma filter_nonempty_cons d toks :
  filter_nonempty (d :: toks)
  = if (0 <? String.length d)%nat then d :: filter_nonempty toks
    else filter_nonempty toks.
Proof.
  unfold filter_nonempty. destruct (0 <? String.length d)%nat eqn:E.
  - apply token_nonempty in E. by rewrite filter_cons_True.
  - rewrite filter_cons_False; [done|]. intros Hd.
    apply token_nonempty in Hd. congruence.
Qed.

Lemma has_keys_insert ns data name l :
  has_keys ns data → has_keys ns (<[name := l]> data).
Proof.
  intros Hk n Hn. destruct (decide (name = n)) as [->|Hne].
  - rewrite lookup_insert_eq. eauto.
  - rewrite lookup_insert_ne by done. by apply Hk.
Qed.

Lemma store_header_from h_names toks : ∀ ctr data,
  has_keys h_names data →
  store_header h_names toks ctr data
  = (append_all (zip (drop ctr h_names) (filter_nonempty toks)) data,
     if (length (filter_nonempty toks) <=? length (drop ctr h_names))%nat
     then Ok () else Raise IndexError).
Proof.
  induction toks as [|d toks IH]; intros ctr data Hk.
  { simpl. by destruct (drop ctr h_names). }
  cbn [store_header]. rewrite filter_nonempty_cons.
  destruct (0 <? String.length d)%nat; [|by apply IH].
  rewrite stmt_bind_eq. unfold lift, getitem.
  destruct (h_names !! ctr) as [name|] eqn:E.
  - rewrite (drop_S _ _ _ E). cbn [zip zip_with append_all length].
    rewrite stmt_bind_eq. unfold append.
    destruct (Hk name) as [l Hl]; [by eapply list_elem_of_lookup_2|].
    rewrite Hl. cbn [default]. rewrite IH by by apply has_keys_insert.
    reflexivity.
  - apply lookup_ge_None in E. rewrite drop_ge by done. reflexivity.
Qed.

(** X10.  A header line of a radar record is stored by position: with the
    empty tokens left out, token [j] is appended, as the string it is, to the
    list of name [j].  When the line has fewer tokens than there are names,
    the lists of the remaining names are left as they were and nothing is
    raised; when it has more, the first tokens are stored all the same and
    then [IndexError] is raised. *)
Theorem header_tokens_stored (h_names toks : list string)
    (data : gmap string (list value)) :
  has_keys h_names data →
  store_header h_names toks 0 data
  = (append_all (zip h_names (filter_nonempty toks)) data,
     if (length (filter_nonempty toks) <=? length h_names)%nat
     then Ok () else Raise IndexError).
Proof. intros Hk. by rewrite store_header_from. Qed.

End RadarRecord.

Lemma has_keys_initial_data ns :
  bool_decide (ns ⊆ variables.*1) = true → has_keys ns initial_data.
Proof.
  intros Hsub%bool_decide_eq_true n Hn. apply Hsub in Hn.
  unfold initial_data.
  destruct (list_to_map (M := gmap string (list value))
              ((λ v, (v.1, [])) <$> variables) !! n) eqn:E; [eauto|].
  apply not_elem_of_list_to_map in E. exfalso. apply E.
  rewrite <- list_fmap_compose.
  apply list_elem_of_fmap in Hn as ([n' dims] & -> & Hin).
  apply list_elem_of_fmap. exists (n', dims). split; [reflexivity|exact Hin].
Qed.

Lemma header_tokens_stored_witness :
  (store_header h2_names (split " " "0 90  0 22 1 0 0 0 9") 0 initial_data).2
  = Raise IndexError
  ∧ (store_header h2_names (split " " "0 90  0 22 1 0 0 0 9") 0 initial_data).1
      !! "second" = Some [VStr "0"]
  ∧ (store_header h2_names (split " " "0 90 0 22 1") 0 initial_data).2 = Ok ()
  ∧ (store_header h2_names (split " " "0 90 0 22 1") 0 initial_data).1 !! "hour"
    = Some [].
Proof.
  assert (has_keys h2_names initial_data) as Hk.
  { apply has_keys_initial_data. vm_compute. reflexivity. }
  rewrite !(header_tokens_stored h2_names _ initial_data Hk).
  vm_compute. repeat split; reflexivity.
Defined.

(** ** The range coordinate and the lists of a radar record *)

Section RadarState.

Context `{Numeric} `{Pandas}.

Lemma preserves_store_h1 k df : ∀ ctr,
  k ∉ h1_names → preserves k (store_h1 df ctr).
Proof.
  induction df as [|d df IH]; intros ctr Hk; [apply preserves_ret|]. simpl.
  destruct (0 <? String.length d)%nat; [|by apply IH].
  apply preserves_bind; [|intros; by apply IH].
  destruct (str_eqb d "lat" || str_eqb d "lon").
  - apply preserves_bind_ok; [apply preserves_lift|]. intros name d0 d1 Hname.
    apply lift_getitem_Ok in Hname.
    apply preserves_bind; [apply preserves_lift|]. intros x.
    apply preserves_append. intros ->. contradiction.
  - apply preserves_bind_ok; [apply preserves_lift|]. intros name d0 d1 Hname.
    apply lift_getitem_Ok in Hname.
    apply preserves_append. intros ->. contradiction.
Qed.

Lemma preserves_file_header k f : k ∉ h1_names → preserves k (file_header f).
Proof.
  intros Hk. unfold file_header.
  apply preserves_bind; [apply preserves_lift|]. intros.
  by apply preserves_store_h1.
Qed.

Lemma preserves_read_record_at k f ct :
  k ∉ h2_names → k ∉ h3_names → preserves k (read_record f ct).
Proof.
  intros H2 H3. unfold read_record. destruct (ct =? 0)%nat.
  - apply preserves_bind; [apply preserves_lift|]. intros.
    apply preserves_bind; [by apply preserves_store_header|]. intros.
    apply preserves_bind; [apply preserves_lift|]. intros.
    apply preserves_bind; [by apply preserves_store_header|]. intros.
    apply preserves_bind; [apply preserves_last_int|]. intros. apply preserves_lift.
  - apply preserves_bind; [apply preserves_last_int|]. intros.
    apply preserves_bind; [apply preserves_lift|]. intros.
    apply preserves_bind; [by apply preserves_store_header|]. intros.
    apply preserves_bind; [apply preserves_lift|]. intros.
    apply preserves_bind; [by apply preserves_store_header|]. intros.
    apply preserves_bind; [apply preserves_last_int|]. intros. apply preserves_lift.
Qed.

Lemma preserves_store_range_at k : k ≠ "range" → preserves k store_range.
Proof.
  intros Hk. unfold store_range.
  apply preserves_bind; [apply preserves_get_data|]. intros r.
  case_bool_decide; [|apply preserves_ret].
  apply preserves_bind; [apply preserves_last_float|]. intros.
  apply preserves_bind; [apply preserves_last_int|]. intros.
  apply preserves_bind; [apply preserves_last_float|]. intros.
  apply preserves_set_data. congruence.
Qed.

Lemma preserves_store_reflectivity_at k :
  k ≠ "reflectivity_uncalibrated" → preserves k store_reflectivity.
Proof.
  intros Hk. unfold store_reflectivity.
  apply preserves_bind; [apply preserves_last_data|]. intros.
  apply preserves_bind; [apply preserves_get_data|]. intros.
  apply preserves_bind; [apply preserves_lift|]. intros.
  apply preserves_append. congruence.
Qed.

Lemma preserves_keeps k l {A} (m : stmt A) : preserves k m → keeps k l m.
Proof. intros Hp d d' r Hm Hd. by rewrite (Hp _ _ _ Hm). Qed.

Lemma keeps_bind k l {A B} (m : stmt A) (f : A → stmt B) :
  keeps k l m → (∀ a, keeps k l (f a)) → keeps k l (m ≫= f).
Proof.
  intros Hm Hf d d' r Hb Hd.
  apply stmt_bind_inv in Hb as [(a & d1 & Hm1 & Hk)|(e & Hm1 & _)].
  - eapply Hf; [exact Hk|]. by eapply Hm.
  - by eapply Hm.
Qed.

Lemma keeps_store_range l : l ≠ [] → keeps "range" l store_range.
Proof.
  intros Hl d d' r Hs Hd. unfold store_range in Hs.
  rewrite stmt_bind_eq in Hs. unfold get_data in Hs. rewrite Hd in Hs.
  rewrite bool_decide_eq_false_2 in Hs.
  - injection Hs as <- _. exact Hd.
  - destruct l; [done|]. simpl. lia.
Qed.

Lemma keeps_record_body l f ct : l ≠ [] → keeps "range" l (record_body f ct).
Proof.
  intros Hl. unfold record_body.
  apply keeps_bind.
  { apply preserves_keeps, preserves_read_record_at; by apply not_in_names. }
  intros df. apply keeps_bind.
  { apply preserves_keeps, preserves_store_channels. by apply not_in_names. }
  intros _. apply keeps_bind; [by apply keeps_store_range|].
  intros _. apply keeps_bind; [apply preserves_keeps, preserves_record_time|].
  intros t. apply keeps_bind; [by apply preserves_keeps, preserves_append|].
  intros _. by apply preserves_keeps, preserves_store_reflectivity_at.
Qed.

Lemma keeps_scan l f : l ≠ [] → ∀ fuel st final,
  scan fuel f st = Some final →
  data st !! "range" = Some l → data final !! "range" = Some l.
Proof.
  intros Hl. induction fuel as [|fuel IH]; intros st final Hs Hd.
  - simpl in Hs. destruct (error st); [|discriminate]. by injection Hs as <-.
  - simpl in Hs. destruct (error st); [by injection Hs as <-|].
    eapply IH; [exact Hs|]. rewrite scan_step_data.
    destruct (record_body f (ct st) (data st)) as [d' r] eqn:E. simpl.
    by eapply keeps_record_body.
Qed.

(** X11.  The range coordinate is set once.  When [data['range']['data']]
    is not empty, a record leaves it as it is, whether it returns or raises
    and whatever number of gates it declares; so does the scan of any number
    of further files. *)
Theorem range_coordinate_fixed (l : list value) :
  l ≠ [] →
  (∀ f ct, keeps "range" l (record_body f ct))
  ∧ (∀ fuel files d d' r,
       read_files fuel files d = Some (d', r) →
       d !! "range" = Some l → d' !! "range" = Some l).
Proof.
  intros Hl. split; [intros; by apply keeps_record_body|].
  intros fuel files. induction files as [|f files IH]; intros d d' r Hr Hd.
  { by injection Hr as <- _. }
  simpl in Hr.
  destruct (file_header f d) as [d1 [[]|e]] eqn:Hh.
  - assert (d1 !! "range" = Some l) as Hd1.
    { rewrite <- Hd. eapply preserves_file_header; [|exact Hh].
      by apply not_in_names. }
    destruct (scan fuel f _) as [st|] eqn:Hs; [|discriminate].
    eapply IH; [exact Hr|]. by eapply (keeps_scan l f Hl _ _ _ Hs).
  - injection Hr as <- _. rewrite <- Hd.
    eapply preserves_file_header; [|exact Hh]. by apply not_in_names.
Qed.

End RadarState.

Lemma range_coordinate_fixed_witness :
  [VFloat 7] ≠ [] ∧ keeps "range" [VFloat 7] (record_body radar_one_record 0).
Proof.
  split; [discriminate|].
  apply (range_coordinate_fixed [VFloat 7]). discriminate.
Defined.

Section RadarAppends.

Context `{Numeric} `{Pandas}.

Lemma append_Ok n v d d' :
  append n v d = (d', Ok ()) → ∃ old, d !! n = Some old ∧ d' = <[n := old ++ [v]]> d.
Proof.
  unfold append. destruct (d !! n) as [l|]; [|discriminate]. intros [= <-]. eauto.
Qed.

Lemma reads_only_last_data name : reads_only (last_data name).
Proof.
  intros d d' r. unfold last_data. rewrite stmt_bind_eq. unfold get_data, lift.
  destruct (d !! name); by intros [= <- _].
Qed.

Lemma reads_only_last_int name : reads_only (last_int name).
Proof.
  intros d d' r. unfold last_int. rewrite stmt_bind_eq.
  destruct (last_data name d) as [d1 [v|e]] eqn:E;
    apply reads_only_last_data in E as ->; unfold lift; by intros [= <- _].
Qed.

Lemma reads_only_last_float name : reads_only (last_float name).
Proof.
  intros d d' r. unfold last_float. rewrite stmt_bind_eq.
  destruct (last_data name d) as [d1 [v|e]] eqn:E;
    apply reads_only_last_data in E as ->; unfold lift; by intros [= <- _].
Qed.

Lemma looks_at_last_data name : looks_at name (last_data name).
Proof.
  intros d1 d2 Heq. unfold last_data. rewrite !stmt_bind_eq. unfold get_data, lift.
  rewrite Heq. by destruct (d2 !! name).
Qed.

Lemma looks_at_last_int name : looks_at name (last_int name).
Proof.
  intros d1 d2 Heq. unfold last_int. rewrite !stmt_bind_eq.
  pose proof (looks_at_last_data name d1 d2 Heq) as Hl.
  destruct (last_data name d1) as [d1' [v1|e1]], (last_data name d2) as [d2' [v2|e2]];
    simpl in Hl; try discriminate; by injection Hl as ->.
Qed.

Lemma looks_at_last_float name : looks_at name (last_float name).
Proof.
  intros d1 d2 Heq. unfold last_float. rewrite !stmt_bind_eq.
  pose proof (looks_at_last_data name d1 d2 Heq) as Hl.
  destruct (last_data name d1) as [d1' [v1|e1]], (last_data name d2) as [d2' [v2|e2]];
    simpl in Hl; try discriminate; by injection Hl as ->.
Qed.

(** A read moved to a dictionary with the same entry. *)
Lemma moved_read {A} k (m : stmt A) d1 d2 a :
  reads_only m → looks_at k m → d1 !! k = d2 !! k →
  m d1 = (d1, Ok a) → m d2 = (d2, Ok a).
Proof.
  intros Hr Hl Heq Hm. specialize (Hl d1 d2 Heq). rewrite Hm in Hl. simpl in Hl.
  destruct (m d2) as [d2' r] eqn:E. apply Hr in E as E'. subst d2'.
  simpl in Hl. by subst r.
Qed.

Lemma store_channels_Ok df : ∀ ns d d',
  NoDup ns → store_channels df ns d = (d', Ok ()) →
  ∀ n, n ∈ ns →
    ∃ old col, d !! n = Some old ∧ frame_column n df = Ok col
               ∧ d' !! n = Some (old ++ [VList col]).
Proof.
  induction ns as [|n0 ns IH]; intros d d' Hnd Hs n Hn.
  { by apply elem_of_nil in Hn. }
  apply NoDup_cons in Hnd as [Hn0 Hnd]. cbn [store_channels] in Hs.
  apply stmt_bind_inv in Hs as [(col & d0 & Hcol & Hs)|(e & _ & [=])].
  unfold lift in Hcol. injection Hcol as <- Hcol.
  apply stmt_bind_inv in Hs as [([] & d1 & Happ & Hs)|(e & _ & [=])].
  apply append_Ok in Happ as (old & Hold & ->).
  apply elem_of_cons in Hn as [->|Hn].
  - exists old, col. do 2 (split; [assumption|]).
    rewrite (preserves_store_channels n0 df ns Hn0 _ _ _ Hs).
    apply lookup_insert_eq.
  - destruct (IH _ _ Hnd Hs n Hn) as (old' & col' & Hold' & Hcol' & Hd').
    exists old', col'. split; [|by split].
    rewrite lookup_insert_ne in Hold'; [done|]. intros ->. contradiction.
Qed.

Lemma read_record_Ok f ct d d1 df :
  read_record f ct d = (d1, Ok df) →
  ∃ skip g, last_int "n_gates" d1 = (d1, Ok g)
            ∧ pd_read_csv_names f skip (g - 1) channel_names = Ok df.
Proof.
  assert (∀ skip d0,
            (gates ← last_int "n_gates";
             lift (pd_read_csv_names f skip (gates - 1) channel_names)) d0
            = (d1, Ok df) →
            ∃ g, last_int "n_gates" d1 = (d1, Ok g)
                 ∧ pd_read_csv_names f skip (g - 1) channel_names = Ok df) as Hend.
  { intros skip d0 Hm.
    apply stmt_bind_inv in Hm as [(g & d0' & Hg & Hm)|(e & _ & [=])].
    apply reads_only_last_int in Hg as Hd. subst d0'.
    unfold lift in Hm. injection Hm as -> Hm. eauto. }
  unfold read_record. destruct (ct =? 0)%nat; intros Hr.
  - apply stmt_bind_inv in Hr as [(l2 & d2 & _ & Hr)|(e & _ & [=])].
    apply stmt_bind_inv in Hr as [([] & d3 & _ & Hr)|(e & _ & [=])].
    apply stmt_bind_inv in Hr as [(l3 & d4 & _ & Hr)|(e & _ & [=])].
    apply stmt_bind_inv in Hr as [([] & d5 & _ & Hr)|(e & _ & [=])].
    apply Hend in Hr as (g & Hg & Hdf). eauto.
  - apply stmt_bind_inv in Hr as [(g0 & d0 & _ & Hr)|(e & _ & [=])].
    apply stmt_bind_inv in Hr as [(l2 & d2 & _ & Hr)|(e & _ & [=])].
    apply stmt_bind_inv in Hr as [([] & d3 & _ & Hr)|(e & _ & [=])].
    apply stmt_bind_inv in Hr as [(l3 & d4 & _ & Hr)|(e & _ & [=])].
    apply stmt_bind_inv in Hr as [([] & d5 & _ & Hr)|(e & _ & [=])].
    apply Hend in Hr as (g & Hg & Hdf). eauto.
Qed.

Lemma store_range_Ok d d' :
  d !! "range" = Some [] → store_range d = (d', Ok ()) →
  ∃ first g step,
    last_float "first_range_gate" d = (d, Ok first)
    ∧ last_int "n_gates" d = (d, Ok g)
    ∧ last_float "range_between_gates" d = (d, Ok step)
    ∧ d' = <["range" := VFloat <$> range_gates first (g - 1) step]> d.
Proof.
  intros Hd Hs. unfold store_range in Hs. rewrite stmt_bind_eq in Hs.
  unfold get_data in Hs. rewrite Hd in Hs.
  rewrite bool_decide_eq_true_2 in Hs by done.
  apply stmt_bind_inv in Hs as [(first & d1 & H1 & Hs)|(e & _ & [=])].
  apply reads_only_last_float in H1 as Hd1. subst d1.
  apply stmt_bind_inv in Hs as [(g & d2 & H2 & Hs)|(e & _ & [=])].
  apply reads_only_last_int in H2 as Hd2. subst d2.
  apply stmt_bind_inv in Hs as [(step & d3 & H3 & Hs)|(e & _ & [=])].
  apply reads_only_last_float in H3 as Hd3. subst d3.
  unfold set_data in Hs. injection Hs as <-.
  exists first, g, step. by repeat split.
Qed.

(** What the range correction appends: the column [snr] just stored, minus
    the correction of each range. *)
Lemma store_reflectivity_value d d' :
  store_reflectivity d = (d', Ok ()) →
  ∃ snr a ranges refl,
    last_data "snr" d = (d, Ok (VList snr))
    ∧ d !! "range" = Some ranges
    ∧ as_floats snr = Ok a
    ∧ broadcast_sub a (range_correction <$> floats_of ranges) = Ok refl
    ∧ ∃ old, d !! "reflectivity_uncalibrated" = Some old
             ∧ d' !! "reflectivity_uncalibrated" = Some (old ++ [VArr refl]).
Proof.
  intros Hs. unfold store_reflectivity in Hs.
  apply stmt_bind_inv in Hs as [(snr & d1 & H1 & Hs)|(e & _ & [=])].
  apply reads_only_last_data in H1 as Hd1. subst d1.
  apply stmt_bind_inv in Hs as [(ranges & d2 & H2 & Hs)|(e & _ & [=])].
  unfold get_data in H2. destruct (d !! "range") as [r|] eqn:Er; [|discriminate].
  injection H2 as <- <-.
  apply stmt_bind_inv in Hs as [(rc & d3 & H3 & Hs)|(e & _ & [=])].
  unfold lift in H3. injection H3 as <- H3.
  destruct snr as [| | |l|]; try discriminate.
  apply bind_Ok in H3 as (a & Ha & H3).
  apply append_Ok in Hs as (old & Hold & ->).
  exists l, a, r, rc. do 4 (split; [done|]).
  exists old. split; [exact Hold|apply lookup_insert_eq].
Qed.

(** The time stamp of a record, from the header values stored last. *)
Lemma record_time_Ok d d' t :
  record_time d = (d', Ok t) →
  d' = d
  ∧ ∃ yy year h mi s days,
      last_data "year" d = (d, Ok (VStr yy)) ∧ int ("20" +:+ yy) = Ok year
      ∧ last_int "hour" d = (d, Ok h) ∧ last_int "minute" d = (d, Ok mi)
      ∧ last_int "second" d = (d, Ok s)
      ∧ last_int "day_of_year" d = (d, Ok days)
      ∧ t = mk_datetime (ymd2ord year 1 1 + days) h mi s 0.
Proof.
  unfold record_time. intros Ht.
  apply stmt_bind_inv in Ht as [(y & d1 & H1 & Ht)|(? & _ & [=])].
  apply reads_only_last_data in H1 as Hd. subst d1.
  apply stmt_bind_inv in Ht as [(year & d2 & H2 & Ht)|(? & _ & [=])].
  unfold lift in H2. injection H2 as <- H2.
  destruct y as [yy| | | |]; try discriminate.
  apply stmt_bind_inv in Ht as [(h & d3 & H3 & Ht)|(? & _ & [=])].
  apply reads_only_last_int in H3 as Hd. subst d3.
  apply stmt_bind_inv in Ht as [(mi & d4 & H4 & Ht)|(? & _ & [=])].
  apply reads_only_last_int in H4 as Hd. subst d4.
  apply stmt_bind_inv in Ht as [(sec & d5 & H5 & Ht)|(? & _ & [=])].
  apply reads_only_last_int in H5 as Hd. subst d5.
  apply stmt_bind_inv in Ht as [(t0 & d6 & H6 & Ht)|(? & _ & [=])].
  unfold lift in H6. injection H6 as <- H6.
  apply stmt_bind_inv in Ht as [(days & d7 & H7 & Ht)|(? & _ & [=])].
  apply reads_only_last_int in H7 as Hd. subst d7.
  unfold lift in Ht. injection Ht as <- Ht.
  split; [reflexivity|]. exists yy, year, h, mi, sec, days.
  do 6 (split; [assumption|]).
  unfold mkdatetime in H6. destruct (_ && _); [|discriminate]. injection H6 as <-.
  unfold add_days in Ht. simpl in Ht.
  destruct (_ && _); [|discriminate]. by injection Ht as <-.
Qed.

Lemma last_data_snoc name (old : list value) v d :
  d !! name = Some (old ++ [v]) → last_data name d = (d, Ok v).
Proof.
  intros Hd. unfold last_data. rewrite stmt_bind_eq. unfold get_data, lift, getlast.
  by rewrite Hd, last_snoc.
Qed.

Lemma length_range_gates first n step :
  length (range_gates first n step) = Z.to_nat n.
Proof. unfold range_gates, range. by rewrite length_fmap, length_seq. Qed.

(** X12.  What a record that is parsed without an exception stores: the
    table pandas read with [nrows] one less than the gate count this record
    stored, and, appended to each of the six channel lists, the column of
    that name as it was read; one time stamp, which is January 1 of the year
    [20yy] plus [day_of_year] days at the hour, minute and second of the 2nd
    header line; one array of range corrected SNR, which is the column [snr]
    of the table minus [20 * log10 (1 / (range / 1000) ** 2)] taken on the
    range coordinate, element by element when the two are equally long.
    When the range list was empty it becomes [first + i * step] for [i] from
    0 to [gates - 2], with the three numbers of this record: one level less
    than the declared gate count. *)
Theorem record_stores (f : list string) (ct : nat)
    (d d' : gmap string (list value)) :
  record_body f ct d = (d', Ok ()) →
  ∃ df skip g t refl,
    last_int "n_gates" d' = (d', Ok g)
    ∧ pd_read_csv_names f skip (g - 1) channel_names = Ok df
    ∧ (∀ n, n ∈ channel_names →
         ∃ old col, d !! n = Some old ∧ frame_column n df = Ok col
                    ∧ d' !! n = Some (old ++ [VList col]))
    ∧ (∃ old, d !! "time" = Some old ∧ d' !! "time" = Some (old ++ [VTime t]))
    ∧ (∃ yy year h mi s days,
         last_data "year" d' = (d', Ok (VStr yy)) ∧ int ("20" +:+ yy) = Ok year
         ∧ last_int "hour" d' = (d', Ok h) ∧ last_int "minute" d' = (d', Ok mi)
         ∧ last_int "second" d' = (d', Ok s)
         ∧ last_int "day_of_year" d' = (d', Ok days)
         ∧ t = mk_datetime (ymd2ord year 1 1 + days) h mi s 0)
    ∧ (∃ old, d !! "reflectivity_uncalibrated" = Some old
              ∧ d' !! "reflectivity_uncalibrated" = Some (old ++ [VArr refl]))
    ∧ (∃ snr a ranges,
         frame_column "snr" df = Ok snr ∧ as_floats snr = Ok a
         ∧ d' !! "range" = Some ranges
         ∧ broadcast_sub a (range_correction <$> floats_of ranges) = Ok refl
         ∧ (length a = length (floats_of ranges) →
            refl = zip_with
                     (λ x r, (x - 20 * log10 (1 / ((r / 1000) * (r / 1000))))%float)
                     a (floats_of ranges)))
    ∧ (d !! "range" = Some [] →
       ∃ first step,
         last_float "first_range_gate" d' = (d', Ok first)
         ∧ last_float "range_between_gates" d' = (d', Ok step)
         ∧ d' !! "range" = Some (VFloat <$> range_gates first (g - 1) step)
         ∧ length (range_gates first (g - 1) step) = Z.to_nat (g - 1)).
Proof.
  intros Hb.
  assert ("time" ≠ "reflectivity_uncalibrated") as Htu by done.
  assert ("reflectivity_uncalibrated" ≠ "range") as Hur by done.
  assert ("time" ≠ "range") as Htr by done.
  assert ("range" ≠ "reflectivity_uncalibrated") as Hru by done.
  unfold record_body in Hb.
  apply stmt_bind_inv in Hb as [(df & d1 & H1 & Hb)|(e & _ & [=])].
  apply stmt_bind_inv in Hb as [([] & d2 & H2 & Hb)|(e & _ & [=])].
  apply stmt_bind_inv in Hb as [([] & d3 & H3 & Hb)|(e & _ & [=])].
  apply stmt_bind_inv in Hb as [(t & d4 & H4 & Hb)|(e & _ & [=])].
  apply stmt_bind_inv in Hb as [([] & d5 & H5 & Hb)|(e & _ & [=])].
  apply record_time_Ok in H4 as (-> & yy & year & h & mi & sec & days
                                 & Hyy & Hyear & Hh & Hmi & Hsec & Hdays & Ht).
  apply append_Ok in H5 as Happ. destruct Happ as (old_t & Hold_t & Hd5).
  (* what the later statements leave alone *)
  assert (∀ k, k ∉ h2_names → k ∉ h3_names → d1 !! k = d !! k) as E1.
  { intros k Hk2 Hk3. by eapply preserves_read_record_at. }
  assert (∀ k, k ∉ channel_names → d2 !! k = d1 !! k) as E2.
  { intros k Hk. by eapply preserves_store_channels. }
  assert (∀ k, k ≠ "time" → k ≠ "reflectivity_uncalibrated" →
               d' !! k = d3 !! k) as E4.
  { intros k Ht' Hu.
    rewrite (preserves_store_reflectivity_at k Hu _ _ _ Hb).
    by rewrite (preserves_append k "time" _ (not_eq_sym Ht') _ _ _ H5). }
  assert (∀ k, k ≠ "range" → k ≠ "time" → k ≠ "reflectivity_uncalibrated" →
               d' !! k = d2 !! k) as E3.
  { intros k Hr Ht' Hu. rewrite E4 by done.
    by rewrite (preserves_store_range_at k Hr _ _ _ H3). }
  apply read_record_Ok in H1 as Hread. destruct Hread as (skip & g & Hg & Hdf).
  assert (d' !! "n_gates" = d1 !! "n_gates") as Egates.
  { rewrite E3 by done. apply E2. by apply not_in_names. }
  apply store_reflectivity_value in Hb as Hrefl.
  destruct Hrefl as (snr & a & ranges & refl & Hsnr & Hranges & Ha & Hsub
                     & old & Eold & Hd').
  assert (∀ n, n ∈ channel_names →
            ∃ old col, d !! n = Some old ∧ frame_column n df = Ok col
                       ∧ d' !! n = Some (old ++ [VList col])) as Hchan.
  { intros n Hn.
    destruct (store_channels_Ok df channel_names d1 d2) with (n := n)
      as (old' & col & Hold' & Hcol & Hnew); [by apply NoDup_ListNoDup;
        repeat constructor; vm_compute; intuition discriminate|exact H2|exact Hn|].
    exists old', col.
    unfold channel_names in Hn.
    repeat (apply elem_of_cons in Hn as [->|Hn];
            [rewrite <- E1 by (by apply not_in_names);
             rewrite E3 by done; by repeat split|]).
    by apply elem_of_nil in Hn. }
  exists df, skip, g, t, refl.
  split.
  { eapply (moved_read "n_gates"); [apply reads_only_last_int|
      apply looks_at_last_int| |exact Hg]. by rewrite Egates. }
  split; [exact Hdf|]. split; [exact Hchan|]. split.
  { exists old_t. split.
    - rewrite <- Hold_t.
      rewrite (preserves_store_range_at "time" Htr _ _ _ H3).
      rewrite E2 by (by apply not_in_names).
      symmetry. apply E1; by apply not_in_names.
    - rewrite (preserves_store_reflectivity_at "time" Htu _ _ _ Hb), Hd5.
      apply lookup_insert_eq. }
  split.
  { exists yy, year, h, mi, sec, days.
    split; [|split; [exact Hyear|]].
    { eapply (moved_read "year"); [apply reads_only_last_data|
        apply looks_at_last_data| |exact Hyy]. symmetry. by apply E4. }
    split.
    { eapply (moved_read "hour"); [apply reads_only_last_int|
        apply looks_at_last_int| |exact Hh]. symmetry. by apply E4. }
    split.
    { eapply (moved_read "minute"); [apply reads_only_last_int|
        apply looks_at_last_int| |exact Hmi]. symmetry. by apply E4. }
    split.
    { eapply (moved_read "second"); [apply reads_only_last_int|
        apply looks_at_last_int| |exact Hsec]. symmetry. by apply E4. }
    split; [|exact Ht].
    eapply (moved_read "day_of_year"); [apply reads_only_last_int|
      apply looks_at_last_int| |exact Hdays]. symmetry. by apply E4. }
  split.
  { exists old. split; [|exact Hd'].
    rewrite <- Eold, Hd5, lookup_insert_ne by done.
    rewrite (preserves_store_range_at _ Hur _ _ _ H3).
    rewrite E2 by (by apply not_in_names).
    symmetry. apply E1; by apply not_in_names. }
  split.
  { destruct (Hchan "snr") as (old_s & col & _ & Hcol & Hnew).
    { unfold channel_names. set_solver. }
    assert (d5 !! "snr" = Some (old_s ++ [VList col])) as Hs5.
    { rewrite <- Hnew. symmetry.
      apply (preserves_store_reflectivity_at "snr" ltac:(done) _ _ _ Hb). }
    rewrite (last_data_snoc _ _ _ _ Hs5) in Hsnr. injection Hsnr as <-.
    exists col, a, ranges. do 2 (split; [assumption|]). split.
    { rewrite <- Hranges.
      apply (preserves_store_reflectivity_at "range" Hru _ _ _ Hb). }
    split; [exact Hsub|]. intros Hlen. unfold broadcast_sub in Hsub.
    rewrite bool_decide_eq_true_2 in Hsub by (by rewrite length_fmap).
    injection Hsub as <-. unfold range_correction.
    by rewrite zip_with_fmap_r. }
  intros Hempty.
  assert (d2 !! "range" = Some []) as Hr2.
  { rewrite E2 by (by apply not_in_names).
    rewrite E1 by (by apply not_in_names). exact Hempty. }
  destruct (store_range_Ok _ _ Hr2 H3) as (first & g' & step & Hf & Hg' & Hs & Hd3).
  assert (g' = g) as ->.
  { assert (last_int "n_gates" d2 = (d2, Ok g)) as Hg2.
    { eapply (moved_read "n_gates"); [apply reads_only_last_int|
        apply looks_at_last_int| |exact Hg]. symmetry. apply E2.
      by apply not_in_names. }
    congruence. }
  exists first, step. split.
  { eapply (moved_read "first_range_gate"); [apply reads_only_last_float|
      apply looks_at_last_float| |exact Hf]. symmetry. by apply E3. }
  split.
  { eapply (moved_read "range_between_gates"); [apply reads_only_last_float|
      apply looks_at_last_float| |exact Hs]. symmetry. by apply E3. }
  split; [|apply length_range_gates].
  rewrite (preserves_store_reflectivity_at "range" Hru _ _ _ Hb).
  rewrite (preserves_append "range" "time" _ Htr _ _ _ H5).
  rewrite Hd3. apply lookup_insert_eq.
Qed.

End RadarAppends.

Lemma record_stores_witness :
  ∃ d' g t refl,
    record_body radar_one_record 0 (data (scan_start radar_one_record)) = (d', Ok ())
    ∧ last_int "n_gates" d' = (d', Ok g)
    ∧ (∃ old, d' !! "time" = Some (old ++ [VTime t]))
    ∧ (∃ old, d' !! "reflectivity_uncalibrated" = Some (old ++ [VArr refl])).
Proof.
  set (out := record_body radar_one_record 0 (data (scan_start radar_one_record))).
  assert (out = (out.1, Ok ())) as E.
  { assert (out.2 = Ok ()) as E2 by (vm_compute; reflexivity).
    rewrite (surjective_pairing out) at 1. by rewrite E2. }
  destruct (record_stores _ _ _ _ E)
    as (df & skip & g & t & refl & Hg & _ & _ & (old_t & _ & Ht) & _
        & (old_r & _ & Hr) & _).
  exists out.1, g, t, refl. split; [exact E|]. split; [exact Hg|]. split; eauto.
Defined.

(** ** The reads of a radar record *)

Section RecordOffset.

Context `{Numeric}.

Lemma has_keys_append_all ns pairs : ∀ data,
  has_keys ns data → has_keys ns (append_all pairs data).
Proof.
  induction pairs as [|[name d] pairs IH]; intros data Hk; [exact Hk|].
  cbn [append_all]. by apply IH, has_keys_insert.
Qed.

(** A header line with no more tokens than names is stored whole. *)
Lemma store_header_fits h_names line data :
  has_keys h_names data →
  (length (filter_nonempty (split " " line)) ≤ length h_names)%nat →
  store_header h_names (split " " line) 0 data
  = (append_all (zip h_names (filter_nonempty (split " " line))) data, Ok ()).
Proof.
  intros Hk Hlen. rewrite store_header_from by done. rewrite drop_0.
  by rewrite (proj2 (Nat.leb_le _ _) Hlen).
Qed.

(** C6 (as amended).  For a record number [ct > 0] the reads of the record
    are placed by [index2 = ct * gates + gates + 2 * ct + 4], where [gates]
    is the gate count stored last, the one of the record before: the 2nd
    header line is what pandas returns with the lines [0 .. index2 - 2]
    skipped, the 3rd with the lines [0 .. index2 - 1] skipped, and their
    tokens are appended to the lists of the 2nd and 3rd header names; the
    table is read with the lines [0 .. index2] skipped and [nrows] one less
    than the gate count the 3rd header line just stored.  An exception of
    the first read leaves the dictionary as it was.  Nothing else of the
    file is read: two pandas that agree on these three reads give the same
    outcome for the record. *)
Theorem record_offset (P P' : Pandas) (f : list string) (ct : nat)
    (data : gmap string (list value)) (gates : Z) :
  (0 < ct)%nat →
  last_int "n_gates" data = (data, Ok gates) →
  let i2 := Z.of_nat ct * gates + gates + 2 * Z.of_nat ct + 4 in
  (∀ e, @pd_columns0 P f (range (i2 - 1)) = Raise e →
        @read_record P f ct data = (data, Raise e))
  ∧ (∀ line2 line3 gates',
       has_keys h2_names data → has_keys h3_names data →
       @pd_columns0 P f (range (i2 - 1)) = Ok line2 →
       @pd_columns0 P f (range i2) = Ok line3 →
       (length (filter_nonempty (split " " line2)) ≤ length h2_names)%nat →
       (length (filter_nonempty (split " " line3)) ≤ length h3_names)%nat →
       let data' :=
         append_all (zip h3_names (filter_nonempty (split " " line3)))
           (append_all (zip h2_names (filter_nonempty (split " " line2))) data) in
       last_int "n_gates" data' = (data', Ok gates') →
       @read_record P f ct data
       = (data',
          @pd_read_csv_names P f (range (i2 + 1)) (gates' - 1) channel_names))
  ∧ (@pd_columns0 P f (range (i2 - 1)) = @pd_columns0 P' f (range (i2 - 1)) →
     @pd_columns0 P f (range i2) = @pd_columns0 P' f (range i2) →
     (∀ n, @pd_read_csv_names P f (range (i2 + 1)) n channel_names
           = @pd_read_csv_names P' f (range (i2 + 1)) n channel_names) →
     @read_record P f ct data = @read_record P' f ct data
     ∧ @record_body _ P f ct data = @record_body _ P' f ct data).
Proof.
  intros Hct Hg i2.
  assert (∀ Q : Pandas,
            @read_record Q f ct data
            = (df ← lift (@pd_columns0 Q f (range (i2 - 1)));
               store_header h2_names (split " " df) 0;;
               df ← lift (@pd_columns0 Q f (range i2));
               store_header h3_names (split " " df) 0;;
               gates ← last_int "n_gates";
               lift (@pd_read_csv_names Q f (range (i2 + 1)) (gates - 1)
                       channel_names)) data) as Hunfold.
  { intros Q. unfold read_record. destruct (Nat.eqb_spec ct 0) as [->|_]; [lia|].
    rewrite (stmt_bind_eq (last_int "n_gates")), Hg.
    unfold index2. by fold i2. }
  split; [|split].
  - intros e He. rewrite Hunfold, stmt_bind_eq. unfold lift. by rewrite He.
  - intros line2 line3 gates' Hk2 Hk3 H2 H3 Hl2 Hl3 data' Hg'.
    rewrite Hunfold, stmt_bind_eq. unfold lift at 1. rewrite H2.
    rewrite stmt_bind_eq, (store_header_fits _ _ _ Hk2 Hl2).
    rewrite stmt_bind_eq. unfold lift at 1. rewrite H3.
    rewrite stmt_bind_eq, store_header_fits;
      [|by apply has_keys_append_all|exact Hl3].
    fold data'. rewrite stmt_bind_eq, Hg'. reflexivity.
  - intros H2 H3 Ht.
    assert (@read_record P f ct data = @read_record P' f ct data) as Hread.
    { rewrite !Hunfold.
      apply stmt_bind_ext; [unfold lift; by rewrite H2|]. intros line2 d1.
      apply stmt_bind_ext; [reflexivity|]. intros [] d2.
      apply stmt_bind_ext; [unfold lift; by rewrite H3|]. intros line3 d3.
      apply stmt_bind_ext; [reflexivity|]. intros [] d4.
      apply stmt_bind_ext; [reflexivity|]. intros g2 d5.
      unfold lift. by rewrite Ht. }
    split; [exact Hread|]. unfold record_body.
    apply stmt_bind_ext; [exact Hread|]. reflexivity.
Qed.

End RecordOffset.

Lemma has_keys_check ns (d : gmap string (list value)) :
  forallb (λ n, bool_decide (is_Some (d !! n))) ns = true → has_keys ns d.
Proof.
  intros Hall n Hn. rewrite forallb_forall in Hall.
  apply list_elem_of_In in Hn. apply Hall in Hn.
  by apply bool_decide_eq_true in Hn.
Qed.

Lemma record_offset_witness :
  (@read_record Reference.pandas radar_numbered 1
     (data (turns radar_numbered 1 (scan_start radar_numbered)))).1 !! "azimuth"
  = Some [VStr "1"; VStr "9"]
  ∧ @record_body _ Reference.pandas radar_numbered 1
      (data (turns radar_numbered 1 (scan_start radar_numbered)))
    = @record_body _ (pandas_from 9) radar_numbered 1
        (data (turns radar_numbered 1 (scan_start radar_numbered))).
Proof.
  set (d := data (turns radar_numbered 1 (scan_start radar_numbered))).
  assert (∀ d0 g, (last_int "n_gates" d0).2 = Ok g →
                  last_int "n_gates" d0 = (d0, Ok g)) as Hlast.
  { intros d0 g E2. rewrite (surjective_pairing (last_int "n_gates" d0)) at 1.
    rewrite E2. f_equal. by eapply reads_only_last_int, surjective_pairing. }
  assert (last_int "n_gates" d = (d, Ok 2)) as Hg.
  { apply Hlast. vm_compute. reflexivity. }
  destruct (record_offset Reference.pandas (pandas_from 9) radar_numbered 1 d 2
              ltac:(lia) Hg) as (_ & Hread & Hsame).
  split.
  - rewrite (Hread "9 90 0 22 1 0 0 0" "10 2 100 50 2 6 7 8 9" 2).
    + vm_compute. reflexivity.
    + apply has_keys_check. vm_compute. reflexivity.
    + apply has_keys_check. vm_compute. reflexivity.
    + vm_compute. reflexivity.
    + vm_compute. reflexivity.
    + vm_compute. lia.
    + vm_compute. lia.
    + apply Hlast. vm_compute. reflexivity.
  - apply Hsame; [reflexivity|reflexivity|]. intros n. reflexivity.
Defined.

(** ** The scan of a radar file ends *)

Section RadarTermination.

Context `{Numeric} `{Pandas}.

Hypothesis at_end_of_file : end_of_file_law.
Hypothesis negative_nrows : nrows_law.

Lemma record_body_gates f ct d d' :
  record_body f ct d = (d', Ok ()) →
  ∃ df skip g, last_int "n_gates" d' = (d', Ok g)
               ∧ pd_read_csv_names f skip (g - 1) channel_names = Ok df.
Proof.
  intros Hb. unfold record_body in Hb.
  apply stmt_bind_inv in Hb as [(df & d1 & H1 & Hb)|(e & _ & [=])].
  apply stmt_bind_inv in Hb as [([] & d2 & H2 & Hb)|(e & _ & [=])].
  apply stmt_bind_inv in Hb as [([] & d3 & H3 & Hb)|(e & _ & [=])].
  apply stmt_bind_inv in Hb as [(t & d4 & H4 & Hb)|(e & _ & [=])].
  apply stmt_bind_inv in Hb as [([] & d5 & H5 & Hb)|(e & _ & [=])].
  apply read_record_Ok in H1 as (skip & g & Hg & Hdf).
  exists df, skip, g. split; [|exact Hdf].
  eapply (moved_read "n_gates"); [apply reads_only_last_int|
    apply looks_at_last_int| |exact Hg].
  assert ("n_gates" ≠ "reflectivity_uncalibrated") as Hu by done.
  assert ("time" ≠ "n_gates") as Ht by done.
  assert ("n_gates" ≠ "range") as Hr by done.
  rewrite (preserves_store_reflectivity_at "n_gates" Hu _ _ _ Hb).
  rewrite (preserves_append "n_gates" "time" _ Ht _ _ _ H5).
  rewrite (preserves_record_time "n_gates" _ _ _ H4).
  rewrite (preserves_store_range_at "n_gates" Hr _ _ _ H3).
  symmetry. eapply preserves_store_channels; [|exact H2]. by apply not_in_names.
Qed.

Lemma success_gated f ct d d' :
  record_body f ct d = (d', Ok ()) → gated d' = true.
Proof.
  intros Hb. apply record_body_gates in Hb as (df & skip & g & Hg & Hdf).
  unfold gated. rewrite Hg. simpl. apply Z.leb_le.
  destruct (Z_lt_le_dec (g - 1) 0) as [Hneg|]; [|lia].
  destruct (negative_nrows f skip (g - 1) channel_names Hneg) as [e He].
  congruence.
Qed.

Lemma gated_success_in_file f ct d d' :
  gated d = true → record_body f ct d = (d', Ok ()) → (ct < length f)%nat.
Proof.
  intros Hg Hb. unfold record_body in Hb.
  apply stmt_bind_inv in Hb as [(df & d1 & H1 & _)|(e & _ & [=])].
  destruct (Nat.lt_ge_cases ct (length f)) as [|Hge]; [done|exfalso].
  unfold read_record in H1. destruct (ct =? 0)%nat eqn:Ect.
  - apply Nat.eqb_eq in Ect. subst ct.
    apply stmt_bind_inv in H1 as [(l2 & d2 & Hl2 & _)|(e & _ & [=])].
    unfold lift in Hl2. injection Hl2 as _ Hl2.
    destruct (at_end_of_file f [0%nat]) as [e He]; [intros i Hi; lia|congruence].
  - apply Nat.eqb_neq in Ect.
    apply stmt_bind_inv in H1 as [(g & d0 & Hg0 & H1)|(e & _ & [=])].
    apply stmt_bind_inv in H1 as [(l2 & d2 & Hl2 & _)|(e & _ & [=])].
    unfold lift in Hl2. injection Hl2 as _ Hl2.
    unfold gated in Hg. rewrite Hg0 in Hg. simpl in Hg. apply Z.leb_le in Hg.
    destruct (at_end_of_file f (range (index2 ct g - 1))) as [e He]; [|congruence].
    intros i Hi. unfold range. apply elem_of_seq. split; [lia|].
    unfold index2. nia.
Qed.

Lemma turn_decreases f st :
  error st = false → error (scan_step f st) = false →
  (turns_left f (scan_step f st) < turns_left f st)%nat.
Proof.
  intros He He'. unfold turns_left.
  rewrite scan_step_ct. unfold scan_step in *.
  destruct (record_body f (ct st) (data st)) as [d' [[]|e]] eqn:E; simpl in *.
  - rewrite (success_gated _ _ _ _ E).
    destruct (gated (data st)) eqn:Eg; [|lia].
    pose proof (gated_success_in_file _ _ _ _ Eg E). lia.
  - destruct (is_empty_data e || (1 <? error_ct st)%nat) eqn:Ec; [congruence|].
    apply orb_false_elim in Ec as [_ Ec]. apply Nat.ltb_ge in Ec.
    destruct (gated d'), (gated (data st)); lia.
Qed.

Lemma scan_at_error f n st : error st = true → scan n f st = Some st.
Proof. intros He. destruct n; simpl; by rewrite He. Qed.

Lemma scan_total f : ∀ n st,
  (turns_left f st < n)%nat → ∃ final, scan n f st = Some final.
Proof.
  induction n as [|n IH]; intros st Hn; [lia|].
  simpl. destruct (error st) eqn:He; [eauto|].
  destruct (error (scan_step f st)) eqn:He'.
  - exists (scan_step f st). by apply scan_at_error.
  - apply IH. pose proof (turn_decreases f st He He'). lia.
Qed.

Lemma turns_left_start f d : (turns_left f (mk_scan d false 0 0) ≤ length f + 10)%nat.
Proof. unfold turns_left. simpl. destruct (gated d); lia. Qed.

Lemma read_files_total fuel : ∀ files d,
  (∀ f, f ∈ files → (length f + 10 < fuel)%nat) →
  ∃ out, read_files fuel files d = Some out.
Proof.
  induction files as [|f files IH]; intros d Hfuel; [by eexists|].
  simpl. destruct (file_header f d) as [d1 [[]|e]]; [|by eexists].
  destruct (scan_total f fuel (mk_scan d1 false 0 0)) as [st ->].
  { pose proof (turns_left_start f d1).
    specialize (Hfuel f ltac:(apply elem_of_cons; by left)). lia. }
  apply IH. intros f' Hf'. apply Hfuel. apply elem_of_cons. by right.
Qed.

(** X13.  The [while] loop of [read_psl_radar_fmcw_moment] ends on every
    file, provided pandas raises on a header read that skips every line of
    the file and on a negative [nrows]: with these two facts the call makes
    at most [n + 11] turns on a file of [n] lines and gives an outcome, a
    dataset or an exception, for every list of files. *)
Theorem radar_scan_terminates `{Xarray} (files : list (list string)) (fuel : nat) :
  (∀ f, f ∈ files → (length f + 10 < fuel)%nat) →
  (∀ f st, f ∈ files → ∃ final, scan fuel f st = Some final)
  ∧ ∃ r, read_psl_radar_fmcw_moment fuel files = Some r.
Proof.
  intros Hfuel. split.
  - intros f st Hf. destruct (error st) eqn:He.
    { exists st. by apply scan_at_error. }
    apply scan_total. specialize (Hfuel f Hf). unfold turns_left.
    destruct (gated (data st)); lia.
  - unfold read_psl_radar_fmcw_moment.
    destruct (read_files_total fuel files initial_data Hfuel) as [[d [[]|e]] ->];
      eauto.
Qed.

End RadarTermination.

Lemma filter_none {A} (P : A → Prop) `{∀ x, Decision (P x)} (l : list A) :
  (∀ x, x ∈ l → ¬ P x) → filter P l = [].
Proof.
  induction l as [|a l IH]; intros Hl; [done|].
  rewrite filter_cons_False; [|apply Hl; by left].
  apply IH. intros x Hx. apply Hl. by right.
Qed.

Lemma reference_end_of_file : @end_of_file_law Reference.pandas.
Proof.
  intros f skip Hskip. exists EmptyDataError.
  cbn [pd_columns0 Reference.pandas]. unfold Reference.columns0, Reference.kept.
  rewrite filter_none; [done|].
  intros [i l] Hin [Hi _]. simpl in Hi. apply Hi, Hskip.
  apply list_elem_of_lookup in Hin as [j Hj]. rewrite list_lookup_imap in Hj.
  destruct (f !! j) eqn:E; [|done]. injection Hj as <- _.
  by eapply lookup_lt_Some.
Qed.

Lemma reference_nrows : @nrows_law Reference.pandas.
Proof.
  intros f skip n cols Hn. exists ValueError.
  cbn [pd_read_csv_names Reference.pandas]. unfold Reference.read_csv_names.
  by rewrite (proj2 (Z.ltb_lt n 0) Hn).
Qed.

Lemma radar_scan_terminates_witness :
  ∃ r, read_psl_radar_fmcw_moment 15 [radar_one_record] = Some r.
Proof.
  apply (radar_scan_terminates reference_end_of_file reference_nrows
           [radar_one_record] 15).
  intros f Hf. apply elem_of_cons in Hf as [->|Hf]; [cbn; lia|].
  by apply elem_of_nil in Hf.
Defined.

(** ** The file-level header of a radar file *)

Section RadarHeader.

Context `{Numeric} `{Pandas} `{Xarray}.

Lemma store_h1_Ok toks : ∀ ctr d d',
  store_h1 toks ctr d = (d', Ok ()) →
  filter_nonempty toks ≠ [] →
  (ctr + length (filter_nonempty toks) ≤ length h1_names)%nat.
Proof.
  induction toks as [|tok toks IH]; intros ctr d d' Hs Hne; [done|].
  cbn [store_h1] in Hs. rewrite filter_nonempty_cons in Hne |- *.
  destruct (0 <? String.length tok)%nat; [|by eapply IH].
  apply stmt_bind_inv in Hs as [([] & d1 & Hstore & Hs)|(e & _ & [=])].
  assert (ctr < length h1_names)%nat as Hctr.
  { destruct (str_eqb tok "lat" || str_eqb tok "lon");
      apply stmt_bind_inv in Hstore as [(name & d0 & Hname & _)|(e & _ & [=])];
      unfold lift in Hname; injection Hname as _ Hname;
      apply getitem_Ok in Hname; by eapply lookup_lt_Some. }
  cbn [length].
  destruct (filter_nonempty toks) as [|t ts] eqn:E; [cbn [length]; lia|].
  specialize (IH _ _ _ Hs ltac:(discriminate)). cbn [length] in *. lia.
Qed.

Lemma file_header_Ok f d d' :
  file_header f d = (d', Ok ()) → ¬ unusable_first_line f.
Proof.
  intros Hh. unfold file_header in Hh.
  apply stmt_bind_inv in Hh as [(line & d0 & Hline & Hs)|(e & _ & [=])].
  unfold lift in Hline. injection Hline as _ Hline.
  intros [[e He]|(line' & Hline' & Hlong)]; [congruence|].
  assert (line' = line) as -> by congruence.
  destruct (filter_nonempty (split " " line)) as [|t ts] eqn:E;
    [cbn [length] in Hlong; lia|].
  apply store_h1_Ok in Hs; [|rewrite E; discriminate].
  rewrite E in Hs. cbn [length] in *. lia.
Qed.

Lemma read_files_Ok fuel : ∀ files d d',
  read_files fuel files d = Some (d', Ok ()) →
  ∀ f, f ∈ files → ¬ unusable_first_line f.
Proof.
  induction files as [|f0 files IH]; intros d d' Hr f Hf.
  { by apply elem_of_nil in Hf. }
  simpl in Hr. destruct (file_header f0 d) as [d1 [[]|e]] eqn:Hh; [|discriminate].
  destruct (scan fuel f0 _) as [st|]; [|discriminate].
  apply elem_of_cons in Hf as [->|Hf]; [by eapply file_header_Ok|by eapply IH].
Qed.

(** X14.  The first line of each file is read outside the [try]: when pandas
    raises on the first line of any of the files, or that line has more than
    five tokens, [read_psl_radar_fmcw_moment] returns no dataset for the
    whole list of files, whatever the other files hold; the exception goes
    to the caller. *)
Theorem unusable_first_line_aborts (fuel : nat) (files : list (list string))
    (f : list string) (r : result (gmap string (list value))) :
  f ∈ files → unusable_first_line f →
  read_psl_radar_fmcw_moment fuel files = Some r → raises r.
Proof.
  intros Hf Hbad Hr. unfold read_psl_radar_fmcw_moment in Hr.
  destruct (read_files fuel files initial_data) as [[d [[]|e]]|] eqn:E;
    [|injection Hr as <-; by exists e|discriminate].
  exfalso. by eapply read_files_Ok.
Qed.

End RadarHeader.

Lemma unusable_first_line_aborts_witness :
  ∃ r, read_psl_radar_fmcw_moment 5 [radar_one_record; radar_long_header] = Some r
       ∧ raises r.
Proof.
  assert (∃ r, read_psl_radar_fmcw_moment 5 [radar_one_record; radar_long_header]
               = Some r) as [r Hr].
  { vm_compute. eexists. reflexivity. }
  exists r. split; [exact Hr|].
  apply (unusable_first_line_aborts 5 [radar_one_record; radar_long_header]
           radar_long_header r); [|right|exact Hr].
  - apply elem_of_cons. right. apply elem_of_cons. by left.
  - exists "CTD 4004 -10523 1500 915 7". split; [reflexivity|]. vm_compute. lia.
Defined.

(** ** Time stamps of the wind profiler and temperature readers *)

Section TimeStamps.

Context `{Numeric} `{Pandas} `{Xarray}.

Lemma mkdatetime_Ok year month day h m s t :
  mkdatetime year month day h m s = Ok t →
  t = mk_datetime (ymd2ord year month day) h m s 0
  ∧ date_fields_ok year month day h m s.
Proof.
  unfold mkdatetime, check_date_fields, check_time_fields, MINYEAR, MAXYEAR.
  destruct (_ && _) eqn:E; [|discriminate]. intros [= <-].
  split; [reflexivity|]. unfold date_fields_ok.
  repeat (apply andb_prop in E as [E ?]).
  repeat match goal with
         | Hb : (_ <=? _) = true |- _ => apply Z.leb_le in Hb
         end.
  apply Z.leb_le in E. lia.
Qed.

Lemma parse_block_time df cols start next mode b :
  parse_block df cols start next = Ok (mode, b) →
  ∃ date_line y m d h mi s rest,
    df !! (start + 3)%nat = Some date_line
    ∧ mapM int (filter_nonempty (split " " date_line))
      = Ok (y :: m :: d :: h :: mi :: s :: rest)
    ∧ time b = mk_datetime (ymd2ord (2000 + y) m d) h mi s 0
    ∧ date_fields_ok (2000 + y) m d h mi s.
Proof.
  unfold parse_block. intros Hp.
  apply bind_Ok in Hp as (date_line & Hline & Hp). apply getitem_Ok in Hline.
  apply bind_Ok in Hp as (date_str & Hstr & Hp).
  apply bind_Ok in Hp as (d0 & H0' & Hp). apply bind_Ok in Hp as (d1 & H1' & Hp).
  apply bind_Ok in Hp as (d2 & H2' & Hp). apply bind_Ok in Hp as (d3 & H3' & Hp).
  apply bind_Ok in Hp as (d4 & H4' & Hp). apply bind_Ok in Hp as (d5 & H5' & Hp).
  apply bind_Ok in Hp as (t & Ht & Hp).
  apply bind_Ok in Hp as (mode_line & _ & Hp).
  apply bind_Ok in Hp as (mode_tok & _ & Hp).
  apply bind_Ok in Hp as (mode' & _ & Hp).
  apply bind_Ok in Hp as (df_array & _ & Hp).
  apply bind_Ok in Hp as (df_add & _ & Hp).
  apply bind_Ok in Hp as (xr_add & Hds & Hp). injection Hp as _ <-.
  unfold block_dataset in Hds. case_bool_decide; [|discriminate].
  apply bind_Ok in Hds as (ht & _ & Hds). injection Hds as <-. simpl.
  apply getitem_Ok in H0', H1', H2', H3', H4', H5'.
  destruct date_str as [|y [|m [|d [|h [|mi [|s rest]]]]]]; try discriminate.
  injection H0' as <-. injection H1' as <-. injection H2' as <-.
  injection H3' as <-. injection H4' as <-. injection H5' as <-.
  apply mkdatetime_Ok in Ht as [-> Hok].
  exists date_line, y, m, d, h, mi, s, rest.
  split; [exact Hline|]. split; [exact Hstr|]. split; [reflexivity|exact Hok].
Qed.

(** X15.  The time of every block dataset [read_psl_wind_profiler] returns
    is built from the fourth line of its block: the tokens between single
    blanks must all be integers, the first six are year, month, day, hour,
    minute and second, and the year is counted from 2000.  Tokens after the
    sixth (the UTC offset) are converted but not used: no offset is applied
    to the time. *)
Theorem block_time_stamps (df : list string) (transpose : bool)
    (low hi : profiler_ds) (b : block_ds) :
  read_psl_wind_profiler df transpose = Ok (low, hi) →
  b ∈ members low ++ members hi →
  ∃ site i start date_line y m d h mi s rest,
    df !! 0%nat = Some site ∧ markers df site !! i = Some start
    ∧ df !! (start + 3)%nat = Some date_line
    ∧ mapM int (filter_nonempty (split " " date_line))
      = Ok (y :: m :: d :: h :: mi :: s :: rest)
    ∧ time b = mk_datetime (ymd2ord (2000 + y) m d) h mi s 0
    ∧ date_fields_ok (2000 + y) m d h mi s.
Proof.
  intros Hr Hb.
  destruct (member_block _ _ _ _ _ Hr Hb)
    as (site & header & i & start & next & mode & b0 & Hsite & _ & Hstart & _
        & Hblock & Hs).
  apply parse_block_time in Hblock
    as (date_line & y & m & d & h & mi & s & rest & Hline & Hfields & Ht & Hok).
  rewrite <- (stacked_time _ _ Hs) in Ht.
  exists site, i, start, date_line, y, m, d, h, mi, s, rest.
  do 4 (split; [assumption|]). split; assumption.
Qed.

Lemma parse_date_line_Ok line t :
  parse_date_line line = Ok t →
  ∃ y m d h mi s utc_offset,
    mapM np_int (filter_list (split " " line)) = Ok [y; m; d; h; mi; s; utc_offset]
    ∧ t = mk_datetime (ymd2ord (y + 2000) m d) h mi s 0
    ∧ date_fields_ok (y + 2000) m d h mi s.
Proof.
  unfold parse_date_line. intros Hp. apply bind_Ok in Hp as (fields & Hf & Hp).
  destruct fields as [|y [|m [|d [|h [|mi [|s [|off [|? ?]]]]]]]]; try discriminate.
  apply mkdatetime_Ok in Hp as [-> Hok].
  exists y, m, d, h, mi, s, off.
  split; [exact Hf|]. split; [reflexivity|exact Hok].
Qed.

Lemma parse_section_time filepath lines line_offset ds :
  parse_psl_temperature_lines filepath lines line_offset = Ok ds →
  ∃ line, lines !! 3%nat = Some line ∧ parse_date_line line = Ok (t_time ds).
Proof.
  unfold parse_psl_temperature_lines. intros Hp. inv_bind Hp.
  case_bool_decide; [|discriminate]. inv_bind Hp. injection Hp as <-. simpl.
  match goal with
  | Hl : getitem lines 3 = Ok ?l, Ht : parse_date_line ?l = Ok ?t |- _ =>
      exists l; split; [by apply getitem_Ok|exact Ht]
  end.
Qed.

(** X16.  The time of every dataset of the temperature reader comes from the
    fourth line of its section, which must hold exactly seven integers
    between single blanks: year (counted from 2000), month, day, hour, minute,
    second and the UTC offset; the offset is not applied. *)
Theorem temperature_time_stamps (filepath : list string)
    (dss : list temperature_ds) (ds : temperature_ds) :
  read_psl_wind_profiler_temperature filepath = Ok dss → ds ∈ dss →
  ∃ start_line section line y m d h mi s utc_offset,
    (start_line, section) ∈ with_offsets 0 (sections_of_file filepath)
    ∧ section !! 3%nat = Some line
    ∧ mapM np_int (filter_list (split " " line)) = Ok [y; m; d; h; mi; s; utc_offset]
    ∧ t_time ds = mk_datetime (ymd2ord (y + 2000) m d) h mi s 0
    ∧ date_fields_ok (y + 2000) m d h mi s.
Proof.
  intros Hr Hds.
  destruct (member_of_section _ _ _ Hr Hds) as (off & section & part & Hsec & Hp & Hs).
  apply list_elem_of_filter in Hsec as [_ Hsec].
  apply parse_section_time in Hp as (line & Hline & Ht).
  rewrite <- (stacked_t_time _ _ Hs) in Ht.
  apply parse_date_line_Ok in Ht as (y & m & d & h & mi & s & utc & Hf & Ht & Hok).
  exists off, section, line, y, m, d, h, mi, s, utc.
  do 3 (split; [assumption|]). split; assumption.
Qed.

End TimeStamps.

Lemma block_time_stamps_witness :
  ∃ low hi b,
    read_psl_wind_profiler profiler_two_blocks true = Ok (low, hi)
    ∧ b ∈ members low ++ members hi
    ∧ ∃ y m d h mi s, time b = mk_datetime (ymd2ord (2000 + y) m d) h mi s 0.
Proof.
  assert (returns (read_psl_wind_profiler profiler_two_blocks true))
    as [[low hi] Hr].
  { unfold returns. vm_compute. eexists. reflexivity. }
  pose proof (read_psl_wind_profiler_Ok _ _ _ _ Hr)
    as (site & header & bs & _ & _ & _ & _ & _ & Hnl & _).
  destruct (members low) as [|b l] eqn:E; [exfalso; apply Hnl; reflexivity|].
  assert (b ∈ members low ++ members hi) as Hb.
  { rewrite E. apply elem_of_app. left. apply elem_of_cons. by left. }
  exists low, hi, b. split; [exact Hr|]. split; [exact Hb|].
  destruct (block_time_stamps _ _ _ _ b Hr Hb)
    as (site' & i & start & line & y & m & d & h & mi & s & rest & _ & _ & _ & _
        & Ht & _).
  by exists y, m, d, h, mi, s.
Defined.

Lemma temperature_time_stamps_witness :
  ∃ dss ds,
    read_psl_wind_profiler_temperature rass_two_sections = Ok dss
    ∧ ds ∈ dss
    ∧ ∃ y m d h mi s, t_time ds = mk_datetime (ymd2ord (y + 2000) m d) h mi s 0.
Proof.
  assert (returns (read_psl_wind_profiler_temperature rass_two_sections))
    as [dss Hr].
  { unfold returns. vm_compute. eexists. reflexivity. }
  destruct (read_temperature_Ok _ _ Hr) as (parts & _ & _ & Hne).
  destruct dss as [|ds dss]; [exfalso; apply Hne; reflexivity|].
  assert (ds ∈ ds :: dss) as Hds by (apply elem_of_cons; by left).
  exists (ds :: dss), ds. split; [exact Hr|]. split; [exact Hds|].
  destruct (temperature_time_stamps _ _ ds Hr Hds)
    as (off & section & line & y & m & d & h & mi & s & utc & _ & _ & _ & Ht & _).
  by exists y, m, d, h, mi, s.
Defined.
